(** * IDArling core: session state machine, event replay and string codecs

    A shallow embedding of [idarling/core/core.py] (class [Core]) and of the
    parts of [idarling/core/events.py] that replay events into IDA, together
    with the properties of the design document that concern them.

    Python objects are modelled by records whose fields carry the attribute
    names of the source, Python dictionaries by [gmap], and the side effects
    of a method (log lines, packets handed to the network module, calls into
    the IDA API, writes to the netnode) by a trace that the method extends.
    Methods run in a state-and-exception monad: a raised exception keeps the
    state reached so far, exactly as attribute assignments made before a
    [raise] stay visible in Python. *)

From Stdlib Require Import ZArith Lia List String Ascii Bool.
From Stdlib Require Import Decimal DecimalString DecimalZ DecimalPos.
From Stdlib.Strings Require Import Byte.
From stdpp Require Import gmap strings list fin_maps.
From stdpp Require Import sorting.
Import ListNotations.

Open Scope string_scope.
Open Scope list_scope.
Open Scope Z_scope.

(** ** Python results and the state-and-exception monad *)

Module Py.

(** The exception classes that the modelled code can raise. [Exception_]
    is the bare [Exception(msg)] of [RangeCmtChangedEvent.__call__]. *)
Inductive exn : Type :=
| NotImplementedError
| UnicodeDecodeError
| UnicodeEncodeError
| ValueError
| KeyError (key : string)
| AttributeError
| TypeError
| Exception_ (msg : string).

Inductive result (A : Type) : Type :=
| Ok (a : A)
| Raised (e : exn).
Arguments Ok {A} a.
Arguments Raised {A} e.

Definition is_ok {A} (r : result A) : bool :=
  match r with Ok _ => true | Raised _ => false end.

(** [f(r)] for a call whose argument may already have raised. *)
Definition and_then {A B} (r : result A) (f : A -> result B) : result B :=
  match r with
  | Ok a => f a
  | Raised e => Raised e
  end.

(** A method over a mutable state [S]. *)
Definition M (S A : Type) : Type := S -> result A * S.

Definition ret {S A} (a : A) : M S A := fun s => (Ok a, s).

Definition bind {S A B} (m : M S A) (k : A -> M S B) : M S B :=
  fun s =>
    match m s with
    | (Ok a, s') => k a s'
    | (Raised e, s') => (Raised e, s')
    end.

Definition raise {S A} (e : exn) : M S A := fun s => (Raised e, s).

Definition gets {S A} (f : S -> A) : M S A := fun s => (Ok (f s), s).

Definition modify {S} (f : S -> S) : M S unit := fun s => (Ok tt, f s).

(** [try: m except Exception as e: h e] *)
Definition try_except {S A} (m : M S A) (h : exn -> M S A) : M S A :=
  fun s =>
    match m s with
    | (Ok a, s') => (Ok a, s')
    | (Raised e, s') => h e s'
    end.

(** [for x in xs: body x] *)
Fixpoint for_each {S A} (xs : list A) (body : A -> M S unit) : M S unit :=
  match xs with
  | [] => ret tt
  | x :: xs' => bind (body x) (fun _ => for_each xs' body)
  end.

(** Lifting of a pure fallible computation. *)
Definition lift {S A} (r : result A) : M S A := fun s => (r, s).

(** The state a method leaves behind, whether it returned or raised. *)
Definition exec {S A} (m : M S A) (s : S) : S := snd (m s).

Definition outcome {S A} (m : M S A) (s : S) : result A := fst (m s).

End Py.

Import Py.

Declare Scope py_scope.
Delimit Scope py_scope with py.
Notation "'let!' x ':=' m 'in' k" := (bind m (fun x => k))
  (at level 10, x name, m at level 100, k at level 200) : py_scope.
Notation "m ;; k" := (bind m (fun _ => k))
  (at level 100, k at level 200, right associativity) : py_scope.
Open Scope py_scope.

(** ** Python strings, bytes and integers *)

(** A Python [str] is a sequence of code points, a [bytes] object a sequence
    of bytes. Lone surrogates (U+D800..U+DFFF) are legal elements of a [str]. *)
Definition pystr : Type := list Z.
Definition pybytes : Type := list byte.

Definition is_char (c : Z) : Prop := 0 <= c <= 0x10FFFF.
Definition is_surrogate (c : Z) : bool := (0xD800 <=? c) && (c <=? 0xDFFF).
Definition is_scalar (c : Z) : Prop := is_char c /\ is_surrogate c = false.

(** The values handed to the codec helpers of [Event]. *)
Inductive pyval : Type :=
| PyNone
| PyInt (z : Z)
| PyStr (s : pystr)
| PyBytes (b : pybytes).

Definition ord (b : byte) : Z := Z.of_N (Byte.to_N b).
Definition chr8 (z : Z) : byte := default x00 (Byte.of_N (Z.to_N z)).

(** [str(n)] and [int(s)] for integers. [str] prints the canonical decimal
    numeral. [int] reads what CPython reads from a [str] in base 10: the
    blanks around the numeral are dropped, then come an optional sign and
    the decimal digits, between two of which a single underscore may stand;
    [None] stands for [ValueError]. A [string] holds code points below
    256: among them the blanks are U+0009 to U+000D, U+0020, U+0085 and
    U+00A0, and the decimal digits are [0] to [9]. The cap that recent
    CPython versions put on the number of digits is left out. *)
Definition py_str (z : Z) : string := NilZero.string_of_int (Z.to_int z).

Module Numeral.

Definition is_space (c : ascii) : bool :=
  let n := Z.of_N (N_of_ascii c) in
  ((9 <=? n) && (n <=? 13)) || (n =? 32) || (n =? 0x85) || (n =? 0xA0).

Definition is_digit (c : ascii) : bool :=
  let n := Z.of_N (N_of_ascii c) in (48 <=? n) && (n <=? 57).

Fixpoint lstrip (s : string) : string :=
  match s with
  | String c s' => if is_space c then lstrip s' else s
  | EmptyString => s
  end.

Fixpoint rstrip (s : string) : string :=
  match s with
  | String c s' =>
      match rstrip s' with
      | EmptyString => if is_space c then EmptyString else String c EmptyString
      | r => String c r
      end
  | EmptyString => EmptyString
  end.

(** The digits without the underscores, each of which has to follow a
    digit and to be followed by one. *)
Fixpoint ungroup (after_digit : bool) (s : string) : option string :=
  match s with
  | EmptyString => Some EmptyString
  | String c s' =>
      if Ascii.eqb c "_" then
        match s' with
        | String d _ =>
            if after_digit && is_digit d then ungroup false s' else None
        | EmptyString => None
        end
      else String c <$> ungroup (is_digit c) s'
  end.

(** A text of decimal digits only. *)
Definition plain (s : string) : Prop :=
  forall c, In c (list_ascii_of_string s) -> is_digit c = true.

Definition unsigned (s : string) : option Z :=
  match ungroup false s with
  | Some digits => Z.of_uint <$> NilZero.uint_of_string digits
  | None => None
  end.

End Numeral.

Definition py_int (s : string) : option Z :=
  match Numeral.rstrip (Numeral.lstrip s) with
  | String c r =>
      if Ascii.eqb c "+" then Numeral.unsigned r
      else if Ascii.eqb c "-" then Z.opp <$> Numeral.unsigned r
      else Numeral.unsigned (String c r)
  | EmptyString => None
  end.

(** ** The codecs behind [Event.encode] / [Event.decode] *)

Module Codec.

(** *** UTF-8, strict error handler (CPython [stringlib/codecs.h]) *)

Definition utf8_encode_char (ch : Z) : option pybytes :=
  if (ch <? 0) || (0x10FFFF <? ch) then None
  else if ch <? 0x80 then Some [chr8 ch]
  else if ch <? 0x800 then
    Some [chr8 (Z.lor 0xC0 (Z.shiftr ch 6));
          chr8 (Z.lor 0x80 (Z.land ch 0x3F))]
  else if is_surrogate ch then None
  else if ch <? 0x10000 then
    Some [chr8 (Z.lor 0xE0 (Z.shiftr ch 12));
          chr8 (Z.lor 0x80 (Z.land (Z.shiftr ch 6) 0x3F));
          chr8 (Z.lor 0x80 (Z.land ch 0x3F))]
  else
    Some [chr8 (Z.lor 0xF0 (Z.shiftr ch 18));
          chr8 (Z.lor 0x80 (Z.land (Z.shiftr ch 12) 0x3F));
          chr8 (Z.lor 0x80 (Z.land (Z.shiftr ch 6) 0x3F));
          chr8 (Z.lor 0x80 (Z.land ch 0x3F))].

Fixpoint utf8_encode (s : pystr) : option pybytes :=
  match s with
  | [] => Some []
  | ch :: s' =>
      match utf8_encode_char ch, utf8_encode s' with
      | Some b, Some bs => Some (b ++ bs)
      | _, _ => None
      end
  end.

Definition is_continuation (c : Z) : bool := (0x80 <=? c) && (c <? 0xC0).

Fixpoint utf8_decode (bs : pybytes) : option pystr :=
  match bs with
  | [] => Some []
  | b1 :: r1 =>
      let ch := ord b1 in
      if ch <? 0x80 then cons ch <$> utf8_decode r1
      else if ch <? 0xE0 then
        (* \xC2\x80-\xDF\xBF -- 0080-07FF *)
        if ch <? 0xC2 then None
        else
          match r1 with
          | b2 :: r2 =>
              let ch2 := ord b2 in
              if negb (is_continuation ch2) then None
              else cons (Z.shiftl ch 6 + ch2 - (Z.shiftl 0xC0 6 + 0x80))
                     <$> utf8_decode r2
          | _ => None
          end
      else if ch <? 0xF0 then
        (* \xE0\xA0\x80-\xEF\xBF\xBF -- 0800-FFFF *)
        match r1 with
        | b2 :: b3 :: r3 =>
            let ch2 := ord b2 in
            let ch3 := ord b3 in
            if negb (is_continuation ch2) then None
            else if (ch =? 0xE0) && (ch2 <? 0xA0) then None
            else if (ch =? 0xED) && (0xA0 <=? ch2) then None
            else if negb (is_continuation ch3) then None
            else cons (Z.shiftl ch 12 + Z.shiftl ch2 6 + ch3
                       - (Z.shiftl 0xE0 12 + Z.shiftl 0x80 6 + 0x80))
                   <$> utf8_decode r3
        | _ => None
        end
      else if ch <? 0xF5 then
        (* \xF0\x90\x80\x80-\xF4\x8F\xBF\xBF -- 10000-10FFFF *)
        match r1 with
        | b2 :: b3 :: b4 :: r4 =>
            let ch2 := ord b2 in
            let ch3 := ord b3 in
            let ch4 := ord b4 in
            if negb (is_continuation ch2) then None
            else if (ch =? 0xF0) && (ch2 <? 0x90) then None
            else if (ch =? 0xF4) && (0x90 <=? ch2) then None
            else if negb (is_continuation ch3) then None
            else if negb (is_continuation ch4) then None
            else cons (Z.shiftl ch 18 + Z.shiftl ch2 12 + Z.shiftl ch3 6 + ch4
                       - (Z.shiftl 0xF0 18 + Z.shiftl 0x80 12
                          + Z.shiftl 0x80 6 + 0x80))
                   <$> utf8_decode r4
        | _ => None
        end
      else None
  end.

(** *** raw_unicode_escape (CPython [unicodeobject.c]) *)

Definition backslash : byte := x5c.
Definition lower_u : byte := x75.
Definition upper_U : byte := x55.

(** [Py_hexdigits]: lower-case hexadecimal digits. *)
Definition hexdigit (n : Z) : byte :=
  if n <? 10 then chr8 (0x30 + n) else chr8 (0x61 + (n - 10)).

Definition raw_encode_char (ch : Z) : pybytes :=
  if ch <? 0x100 then [chr8 ch]
  else if ch <? 0x10000 then
    [backslash; lower_u;
     hexdigit (Z.land (Z.shiftr ch 12) 0xF);
     hexdigit (Z.land (Z.shiftr ch 8) 0xF);
     hexdigit (Z.land (Z.shiftr ch 4) 0xF);
     hexdigit (Z.land ch 0xF)]
  else
    [backslash; upper_U; x30; x30;
     hexdigit (Z.land (Z.shiftr ch 20) 0xF);
     hexdigit (Z.land (Z.shiftr ch 16) 0xF);
     hexdigit (Z.land (Z.shiftr ch 12) 0xF);
     hexdigit (Z.land (Z.shiftr ch 8) 0xF);
     hexdigit (Z.land (Z.shiftr ch 4) 0xF);
     hexdigit (Z.land ch 0xF)].

Definition raw_encode (s : pystr) : pybytes := flat_map raw_encode_char s.

(** Value of one hexadecimal digit, [None] when the byte is not one. *)
Definition hexval (b : byte) : option Z :=
  let c := ord b in
  if (0x30 <=? c) && (c <=? 0x39) then Some (c - 0x30)
  else if (0x61 <=? c) && (c <=? 0x66) then Some (c - (0x61 - 10))
  else if (0x41 <=? c) && (c <=? 0x46) then Some (c - (0x41 - 10))
  else None.

(** [ch <<= 4; ch += digit] over the digits of an escape. *)
Fixpoint hexvalue (acc : Z) (ds : list byte) : option Z :=
  match ds with
  | [] => Some acc
  | d :: ds' =>
      match hexval d with
      | Some v => hexvalue (Z.shiftl acc 4 + v) ds'
      | None => None
      end
  end.

Fixpoint raw_decode (bs : pybytes) : option pystr :=
  match bs with
  | [] => Some []
  | c :: r =>
      if negb (Byte.eqb c backslash) then cons (ord c) <$> raw_decode r
      else
        match r with
        | [] => Some [ord c]            (* a final lone backslash is copied *)
        | c2 :: r2 =>
            if Byte.eqb c2 lower_u then
              match r2 with
              | h1 :: h2 :: h3 :: h4 :: r6 =>
                  match hexvalue 0 [h1; h2; h3; h4] with
                  | Some ch => cons ch <$> raw_decode r6
                  | None => None
                  end
              | _ => None              (* truncated \uXXXX escape *)
              end
            else if Byte.eqb c2 upper_U then
              match r2 with
              | h1 :: h2 :: h3 :: h4 :: h5 :: h6 :: h7 :: h8 :: r10 =>
                  match hexvalue 0 [h1; h2; h3; h4; h5; h6; h7; h8] with
                  | Some ch =>
                      if 0x10FFFF <? ch then None   (* \Uxxxxxxxx out of range *)
                      else cons ch <$> raw_decode r10
                  | None => None
                  end
              | _ => None              (* truncated \UXXXXXXXX escape *)
              end
            else
              (fun t => ord c :: ord c2 :: t) <$> raw_decode r2
        end
  end.

(** The byte strings in which no backslash is directly followed by [u] or
    [U]: on these the decoder never starts an escape. *)
Fixpoint escape_free (bs : pybytes) : bool :=
  match bs with
  | c :: r =>
      match r with
      | c2 :: _ =>
          negb (Byte.eqb c backslash
                && (Byte.eqb c2 lower_u || Byte.eqb c2 upper_U))
      | [] => true
      end && escape_free r
  | [] => true
  end.

End Codec.

(** ** [Event]: the codec helpers shared by all events *)

Module Event.

(** [Event.encode(s)]: encodes a unicode string into UTF-8 bytes. *)
Definition encode (s : pyval) : result pyval :=
  match s with
  | PyBytes b => Ok (PyBytes b)
  | PyStr u =>
      match Codec.utf8_encode u with
      | Some b => Ok (PyBytes b)
      | None => Raised UnicodeEncodeError
      end
  | _ => Raised NotImplementedError
  end.

(** [Event.encode_bytes(s)]: encodes a unicode string into raw bytes. *)
Definition encode_bytes (s : pyval) : result pyval :=
  match s with
  | PyBytes b => Ok (PyBytes b)
  | PyStr u => Ok (PyBytes (Codec.raw_encode u))
  | _ => Ok s
  end.

(** [Event.decode(s)]: decodes UTF-8 bytes into a unicode string. *)
Definition decode (s : pyval) : result pyval :=
  match s with
  | PyStr u => Ok (PyStr u)
  | PyBytes b =>
      match Codec.utf8_decode b with
      | Some u => Ok (PyStr u)
      | None => Raised UnicodeDecodeError
      end
  | _ => Raised NotImplementedError
  end.

(** [Event.decode_bytes(s)]: decodes raw bytes into a unicode string. *)
Definition decode_bytes (s : pyval) : result pyval :=
  match s with
  | PyStr u => Ok (PyStr u)
  | PyBytes b =>
      match Codec.raw_decode b with
      | Some u => Ok (PyStr u)
      | None => Raised UnicodeDecodeError
      end
  | _ => Ok s
  end.

End Event.

(** ** Objects of [idarling/shared] that the core handles *)

Module Shared.

(** [LocalType(name=, parsedList=, TypeFields=, cmt=, fieldcmts=)]: the
    record of one local type; the class lives in [shared/local_types.py]. *)
Record LocalType : Type := {
  name : pystr;
  parsedList : pyval;
  TypeFields : pybytes;
  cmt : pybytes;
  fieldcmts : pybytes
}.

(** The packets that [Core] hands to [plugin.network.send_packet]. The
    three identifiers are whatever the attributes hold at that moment, so
    they are optional strings like the attributes themselves. *)
Inductive packet : Type :=
| JoinSession (host_id : string) (project binary snapshot : option string)
    (tick : Z) (name : string) (color : Z) (ea : Z)
| LeaveSession (host_id : string) (name : string)
| ListSnapshots_Query (project binary : option string).

(** One entry of [ListSnapshots.Reply.snapshots]. *)
Record Snapshot : Type := { snapshot_name : string; snapshot_tick : Z }.

End Shared.

(** ** [class Core(Module)] *)

Module Core.
Import Shared.

Definition NETNODE_NAME : string := "$ idarling".

Inductive level : Type := TRACE | DEBUG | INFO | WARNING | EXCEPTION.

(** The four hook objects created by [_install]. *)
Inductive hooks : Type := IDBHooks | IDPHooks | HexRaysHooks | UIHooks.

(** The core hooks, which [_install] creates and hooks at once. *)
Inductive core_hooks : Type :=
  IDBHooksCore | IDPHooksCore | UIHooksCore | ViewHooksCore.

(** What a method of [Core] does to the outside, in program order. *)
Inductive effect : Type :=
| Log (lvl : level) (msg : string)      (* self._plugin.logger.<lvl>(msg) *)
| SendPacket (p : packet)               (* self._plugin.network.send_packet(p) *)
| HookCall (h : hooks)                  (* <h>.hook() *)
| UnhookCall (h : hooks)                (* <h>.unhook() *)
| CoreHookCall (h : core_hooks)         (* <h>().hook() *)
| HashsetBuf (key value : string)       (* node.hashset_buf(key, value) *)
| Kill.                                 (* node.kill() *)

(** A roster entry: colour and cursor address of a remote user. *)
Record user : Type := { color : Z; ea : Z }.

(** What the methods read from their surroundings: the plugin
    configuration, the IDA kernel and the network module. *)
Record Env : Type := {
  user_name : string;                   (* config["user"]["name"] *)
  user_color : Z;                       (* config["user"]["color"] *)
  get_screen_ea : Z;                    (* ida_kernwin.get_screen_ea() *)
  connected : bool;                     (* send_packet returns a deferred *)
  get_ordinal_count : Z;                (* ida_typeinf.get_ordinal_count(get_idati()) *)
  ImportLocalType : Z -> option LocalType
}.

(** The attributes of the [Core] object, followed by the mutable
    surroundings: the hash of the netnode ["$ idarling"] in the open idb,
    the number of [ListSnapshots] deferreds that carry [snapshots_listed]
    and have not fired yet, the trace of effects, and the environment.
    A hook attribute is [None] until [_install] creates the object; the
    boolean of [Some b] tells whether the object is hooked into IDA.
    [ticks] is the attribute that [closebase] assigns. *)
Record state : Type := {
  _host_id : string;
  _project : option string;
  _binary : option string;
  _snapshot : option string;
  _tick : Z;
  ticks : option Z;
  _users : gmap string user;
  _session_joined : bool;
  _idb_hooks : option bool;
  _idp_hooks : option bool;
  _hxe_hooks : option bool;
  _ui_hooks : option bool;
  _hooked : bool;
  local_type_map : gmap Z (option LocalType);
  netnode : gmap string string;
  deferreds : nat;
  trace : list effect;
  env : Env
}.

Definition set_project v (s : state) : state :=
  Build_state (_host_id s) v (_binary s) (_snapshot s) (_tick s) (ticks s)
    (_users s) (_session_joined s) (_idb_hooks s) (_idp_hooks s)
    (_hxe_hooks s) (_ui_hooks s) (_hooked s) (local_type_map s) (netnode s)
    (deferreds s) (trace s) (env s).

Definition set_binary v (s : state) : state :=
  Build_state (_host_id s) (_project s) v (_snapshot s) (_tick s) (ticks s)
    (_users s) (_session_joined s) (_idb_hooks s) (_idp_hooks s)
    (_hxe_hooks s) (_ui_hooks s) (_hooked s) (local_type_map s) (netnode s)
    (deferreds s) (trace s) (env s).

Definition set_snapshot v (s : state) : state :=
  Build_state (_host_id s) (_project s) (_binary s) v (_tick s) (ticks s)
    (_users s) (_session_joined s) (_idb_hooks s) (_idp_hooks s)
    (_hxe_hooks s) (_ui_hooks s) (_hooked s) (local_type_map s) (netnode s)
    (deferreds s) (trace s) (env s).

Definition set_tick v (s : state) : state :=
  Build_state (_host_id s) (_project s) (_binary s) (_snapshot s) v
    (ticks s) (_users s) (_session_joined s) (_idb_hooks s) (_idp_hooks s)
    (_hxe_hooks s) (_ui_hooks s) (_hooked s) (local_type_map s) (netnode s)
    (deferreds s) (trace s) (env s).

Definition set_ticks v (s : state) : state :=
  Build_state (_host_id s) (_project s) (_binary s) (_snapshot s) (_tick s)
    v (_users s) (_session_joined s) (_idb_hooks s) (_idp_hooks s)
    (_hxe_hooks s) (_ui_hooks s) (_hooked s) (local_type_map s) (netnode s)
    (deferreds s) (trace s) (env s).

Definition set_users v (s : state) : state :=
  Build_state (_host_id s) (_project s) (_binary s) (_snapshot s) (_tick s)
    (ticks s) v (_session_joined s) (_idb_hooks s) (_idp_hooks s)
    (_hxe_hooks s) (_ui_hooks s) (_hooked s) (local_type_map s) (netnode s)
    (deferreds s) (trace s) (env s).

Definition set_session_joined v (s : state) : state :=
  Build_state (_host_id s) (_project s) (_binary s) (_snapshot s) (_tick s)
    (ticks s) (_users s) v (_idb_hooks s) (_idp_hooks s) (_hxe_hooks s)
    (_ui_hooks s) (_hooked s) (local_type_map s) (netnode s) (deferreds s)
    (trace s) (env s).

Definition set_idb_hooks v (s : state) : state :=
  Build_state (_host_id s) (_project s) (_binary s) (_snapshot s) (_tick s)
    (ticks s) (_users s) (_session_joined s) v (_idp_hooks s) (_hxe_hooks s)
    (_ui_hooks s) (_hooked s) (local_type_map s) (netnode s) (deferreds s)
    (trace s) (env s).

Definition set_idp_hooks v (s : state) : state :=
  Build_state (_host_id s) (_project s) (_binary s) (_snapshot s) (_tick s)
    (ticks s) (_users s) (_session_joined s) (_idb_hooks s) v (_hxe_hooks s)
    (_ui_hooks s) (_hooked s) (local_type_map s) (netnode s) (deferreds s)
    (trace s) (env s).

Definition set_hxe_hooks v (s : state) : state :=
  Build_state (_host_id s) (_project s) (_binary s) (_snapshot s) (_tick s)
    (ticks s) (_users s) (_session_joined s) (_idb_hooks s) (_idp_hooks s) v
    (_ui_hooks s) (_hooked s) (local_type_map s) (netnode s) (deferreds s)
    (trace s) (env s).

Definition set_ui_hooks v (s : state) : state :=
  Build_state (_host_id s) (_project s) (_binary s) (_snapshot s) (_tick s)
    (ticks s) (_users s) (_session_joined s) (_idb_hooks s) (_idp_hooks s)
    (_hxe_hooks s) v (_hooked s) (local_type_map s) (netnode s)
    (deferreds s) (trace s) (env s).

Definition set_hooked v (s : state) : state :=
  Build_state (_host_id s) (_project s) (_binary s) (_snapshot s) (_tick s)
    (ticks s) (_users s) (_session_joined s) (_idb_hooks s) (_idp_hooks s)
    (_hxe_hooks s) (_ui_hooks s) v (local_type_map s) (netnode s)
    (deferreds s) (trace s) (env s).

Definition set_local_type_map v (s : state) : state :=
  Build_state (_host_id s) (_project s) (_binary s) (_snapshot s) (_tick s)
    (ticks s) (_users s) (_session_joined s) (_idb_hooks s) (_idp_hooks s)
    (_hxe_hooks s) (_ui_hooks s) (_hooked s) v (netnode s) (deferreds s)
    (trace s) (env s).

Definition set_netnode v (s : state) : state :=
  Build_state (_host_id s) (_project s) (_binary s) (_snapshot s) (_tick s)
    (ticks s) (_users s) (_session_joined s) (_idb_hooks s) (_idp_hooks s)
    (_hxe_hooks s) (_ui_hooks s) (_hooked s) (local_type_map s) v
    (deferreds s) (trace s) (env s).

Definition set_deferreds v (s : state) : state :=
  Build_state (_host_id s) (_project s) (_binary s) (_snapshot s) (_tick s)
    (ticks s) (_users s) (_session_joined s) (_idb_hooks s) (_idp_hooks s)
    (_hxe_hooks s) (_ui_hooks s) (_hooked s) (local_type_map s) (netnode s)
    v (trace s) (env s).

Definition set_trace v (s : state) : state :=
  Build_state (_host_id s) (_project s) (_binary s) (_snapshot s) (_tick s)
    (ticks s) (_users s) (_session_joined s) (_idb_hooks s) (_idp_hooks s)
    (_hxe_hooks s) (_ui_hooks s) (_hooked s) (local_type_map s) (netnode s)
    (deferreds s) v (env s).

Definition set_env v (s : state) : state :=
  Build_state (_host_id s) (_project s) (_binary s) (_snapshot s) (_tick s)
    (ticks s) (_users s) (_session_joined s) (_idb_hooks s) (_idp_hooks s)
    (_hxe_hooks s) (_ui_hooks s) (_hooked s) (local_type_map s) (netnode s)
    (deferreds s) (trace s) v.

(** Truth value of an identifier: [None] and [""] are false. *)
Definition truthy (o : option string) : bool :=
  match o with
  | Some s => negb (String.eqb s "")
  | None => false
  end.

(** [o or None] and [o or d]. *)
Definition or_None (o : option string) : option string :=
  if truthy o then o else None.

Definition or_str (o : option string) (d : string) : string :=
  match o with
  | Some s => if String.eqb s "" then d else s
  | None => d
  end.

(** [str(o)] for an identifier. *)
Definition str (o : option string) : string :=
  match o with
  | Some s => s
  | None => "None"
  end.

(** ["<verb> netnode: project=%s, binary=%s, snapshot=%s, tick=%d"
     % (self._project, self._binary, self._snapshot, self._tick)] *)
Definition netnode_line (verb : string) (s : state) : string :=
  (verb ++ " netnode: project=" ++ str (_project s)
   ++ ", binary=" ++ str (_binary s)
   ++ ", snapshot=" ++ str (_snapshot s)
   ++ ", tick=" ++ py_str (_tick s))%string.

(** [f"Joining session: {self._host_id}, {self._project}, {self._binary},
      {self._snapshot}"] *)
Definition joining_line (s : state) : string :=
  ("Joining session: " ++ _host_id s ++ ", " ++ str (_project s)
   ++ ", " ++ str (_binary s) ++ ", " ++ str (_snapshot s))%string.

(** [int(s)] *)
Definition int (s : string) : M state Z :=
  match py_int s with
  | Some z => ret z
  | None => raise ValueError
  end.

Definition tell (e : effect) : M state unit :=
  modify (fun s => set_trace (trace s ++ [e]) s).

Definition log (lvl : level) (msg : string) : M state unit :=
  tell (Log lvl msg).

(** [self._plugin.network.send_packet(p)]; the result tells whether a
    deferred came back. *)
Definition send_packet (p : packet) : M state bool :=
  tell (SendPacket p) ;;
  gets (fun s => connected (env s)).

(** *** The netnode [ida_netnode.netnode(Core.NETNODE_NAME, 0, True)] *)

Definition hashstr (key : string) : M state (option string) :=
  gets (fun s => netnode s !! key).

Definition hashset_buf (key value : string) : M state unit :=
  modify (fun s => set_netnode (<[key := value]> (netnode s)) s) ;;
  tell (HashsetBuf key value).

Definition kill : M state unit :=
  modify (set_netnode ∅) ;;
  tell Kill.

(** *** Construction and installation *)

(** [Core.__init__], in an idb whose netnode holds [node]. *)
Definition __init__ (host_id : string) (node : gmap string string)
    (e : Env) : state :=
  {| _host_id := host_id;
     _project := None;
     _binary := None;
     _snapshot := None;
     _tick := -1;
     ticks := None;
     _users := ∅;
     _session_joined := false;
     _idb_hooks := None;
     _idp_hooks := None;
     _hxe_hooks := None;
     _ui_hooks := None;
     _hooked := false;
     local_type_map := ∅;
     netnode := node;
     deferreds := 0;
     trace := [];
     env := e |}.

(** [Core._install]: instantiates the four hook objects, then creates and
    hooks the core hooks, among them the [closebase] handler below. *)
Definition _install : M state bool :=
  modify (set_idb_hooks (Some false)) ;;
  modify (set_idp_hooks (Some false)) ;;
  modify (set_hxe_hooks (Some false)) ;;
  modify (set_ui_hooks (Some false)) ;;
  log DEBUG "Installing core hooks" ;;
  tell (CoreHookCall IDBHooksCore) ;;
  tell (CoreHookCall IDPHooksCore) ;;
  tell (CoreHookCall UIHooksCore) ;;
  tell (CoreHookCall ViewHooksCore) ;;
  ret true.

(** *** Hooks *)

Definition hook_get (h : hooks) : state -> option bool :=
  match h with
  | IDBHooks => _idb_hooks
  | IDPHooks => _idp_hooks
  | HexRaysHooks => _hxe_hooks
  | UIHooks => _ui_hooks
  end.

Definition hook_set (h : hooks) : option bool -> state -> state :=
  match h with
  | IDBHooks => set_idb_hooks
  | IDPHooks => set_idp_hooks
  | HexRaysHooks => set_hxe_hooks
  | UIHooks => set_ui_hooks
  end.

(** [self.<h>.hook()]; an attribute that is still [None] has no [hook]. *)
Definition hook (h : hooks) : M state unit :=
  let! o := gets (hook_get h) in
  match o with
  | None => raise AttributeError
  | Some _ => modify (hook_set h (Some true)) ;; tell (HookCall h)
  end.

Definition unhook (h : hooks) : M state unit :=
  let! o := gets (hook_get h) in
  match o with
  | None => raise AttributeError
  | Some _ => modify (hook_set h (Some false)) ;; tell (UnhookCall h)
  end.

Definition update_local_types_map : M state unit :=
  let! n := gets (fun s => get_ordinal_count (env s)) in
  for_each (seqZ 1 n) (fun i =>
    let! t := gets (fun s => ImportLocalType (env s) i) in
    modify (fun s => set_local_type_map (<[i := t]> (local_type_map s)) s)).

(** Install all the user events hooks. *)
Definition hook_all : M state unit :=
  let! h := gets _hooked in
  if h then ret tt
  else
    log DEBUG "Installing hooks" ;;
    hook IDBHooks ;;
    hook IDPHooks ;;
    hook HexRaysHooks ;;
    hook UIHooks ;;
    modify (set_hooked true) ;;
    update_local_types_map.

(** Uninstall all the user events hooks. *)
Definition unhook_all : M state unit :=
  let! h := gets _hooked in
  if negb h then ret tt
  else
    log DEBUG "Uninstalling hooks" ;;
    unhook IDBHooks ;;
    unhook IDPHooks ;;
    unhook HexRaysHooks ;;
    unhook UIHooks ;;
    modify (set_hooked false).

(** *** Persistence *)

(** Save data into our custom netnode. *)
Definition save_netnode : M state unit :=
  let! project := gets _project in
  (if truthy project then hashset_buf "project" (str project) else ret tt) ;;
  let! binary := gets _binary in
  (if truthy binary then hashset_buf "binary" (str binary) else ret tt) ;;
  let! snapshot := gets _snapshot in
  (if truthy snapshot then hashset_buf "snapshot" (str snapshot) else ret tt) ;;
  let! tick := gets _tick in
  (if negb (tick =? -1) then hashset_buf "tick" (py_str tick) else ret tt) ;;
  let! line := gets (netnode_line "Saved") in
  log DEBUG line.

Definition load_netnode_old : M state unit :=
  log WARNING "Old idb detected, please save your idb as a new snapshot" ;;
  let! group := hashstr "group" in
  modify (set_project (or_None group)) ;;
  let! project := hashstr "project" in
  modify (set_binary (or_None project)) ;;
  let! database := hashstr "database" in
  modify (set_snapshot (or_None database)) ;;
  let! t := hashstr "tick" in
  let! tick := int (or_str t "0") in
  modify (set_tick tick) ;;
  (* Replacing old netnode in local idb *)
  kill ;;
  save_netnode.

(** Load data from our custom netnode. *)
Definition load_netnode : M state unit :=
  let! database := hashstr "database" in
  (if truthy database then load_netnode_old
   else
     let! project := hashstr "project" in
     modify (set_project (or_None project)) ;;
     let! binary := hashstr "binary" in
     modify (set_binary (or_None binary)) ;;
     let! snapshot := hashstr "snapshot" in
     modify (set_snapshot (or_None snapshot)) ;;
     let! t := hashstr "tick" in
     let! tick := int (or_str t "0") in
     modify (set_tick tick)) ;;
  let! line := gets (netnode_line "Loaded") in
  log DEBUG line.

(** *** The property setters: assign, then write through *)

Definition project_setter (project : option string) : M state unit :=
  modify (set_project project) ;; save_netnode.

Definition binary_setter (binary : option string) : M state unit :=
  modify (set_binary binary) ;; save_netnode.

Definition snapshot_setter (snapshot : option string) : M state unit :=
  modify (set_snapshot snapshot) ;; save_netnode.

Definition tick_setter (tick : Z) : M state unit :=
  modify (set_tick tick) ;; save_netnode.

(** *** Joining and leaving *)

(** The callback [snapshots_listed(reply)] that [join_session] attaches to
    the deferred of its query. It closes over [self] only, so it reads the
    attributes as they are when the reply arrives. *)
Definition snapshots_listed (snapshots : list Snapshot) : M state unit :=
  let! snapshot := gets _snapshot in
  if existsb (fun d => bool_decide (Some (snapshot_name d) = snapshot)) snapshots
  then
    log DEBUG "Snapshot is on the server" ;;
    let! name := gets (fun s => user_name (env s)) in
    let! color := gets (fun s => user_color (env s)) in
    let! ea := gets (fun s => get_screen_ea (env s)) in
    let! host_id := gets _host_id in
    let! project := gets _project in
    let! binary := gets _binary in
    let! tick := gets _tick in
    send_packet
      (JoinSession host_id project binary snapshot tick name color ea) ;;
    modify (set_session_joined true) ;;
    hook_all ;;
    modify (set_users ∅)
  else
    log DEBUG "Snapshot is not on the server".   (* Do not go further *)

(** Join the collaborative session. *)
Definition join_session : M state unit :=
  let! project := gets _project in
  let! binary := gets _binary in
  let! snapshot := gets _snapshot in
  if truthy project && truthy binary && truthy snapshot then
    let! joined := gets _session_joined in
    (if joined then log DEBUG "Joining a new session"
     else let! line := gets joining_line in log INFO line) ;;
    let! d := send_packet (ListSnapshots_Query project binary) in
    if d then
      (* d.add_callback(snapshots_listed); d.add_errback(logger.exception) *)
      modify (fun s => set_deferreds (S (deferreds s)) s)
    else ret tt
  else
    log DEBUG "Not joining any session yet" ;;
    modify (set_session_joined false).

(** Leave the collaborative session. *)
Definition leave_session : M state unit :=
  let! joined := gets _session_joined in
  if negb joined then log DEBUG "Already left session"
  else
    log DEBUG "Leaving session" ;;
    let! project := gets _project in
    let! binary := gets _binary in
    let! snapshot := gets _snapshot in
    (if truthy project && truthy binary && truthy snapshot then
       let! name := gets (fun s => user_name (env s)) in
       let! host_id := gets _host_id in
       send_packet (LeaveSession host_id name) ;;
       modify (set_users ∅) ;;
       unhook_all
     else ret tt) ;;
    modify (set_session_joined false).

(** [IDBHooksCore.closebase]: the handler of the idb being closed. *)
Definition closebase : M state Z :=
  log TRACE "Closebase hook" ;;
  leave_session ;;
  save_netnode ;;
  project_setter None ;;
  binary_setter None ;;
  snapshot_setter None ;;
  modify (set_ticks (Some 0)) ;;
  ret 0.

(** *** The reply of the server *)

(** Modelled from the spec: the deferred of [shared/packets.py] is not part
    of the sources at hand. A reply resolves one outstanding deferred
    exactly once: the callback runs with the reply, and an exception that
    escapes the callback goes to the errback, [logger.exception], which
    logs it. Without an outstanding deferred nothing can fire. *)
Definition reply_received (snapshots : list Snapshot) : M state unit :=
  let! n := gets deferreds in
  match n with
  | O => ret tt
  | S n' =>
      modify (set_deferreds n') ;;
      try_except (snapshots_listed snapshots)
        (fun _ => log EXCEPTION "snapshots_listed")
  end.

(** *** The session operations as a transition system *)

Inductive op : Type :=
| Load                                     (* core.load_netnode() *)
| Join                                     (* core.join_session() *)
| Reply (snapshots : list Snapshot)        (* a ListSnapshots.Reply arrives *)
| Leave                                    (* core.leave_session() *)
| Close                                    (* the closebase handler *)
| SetProject (v : option string)           (* core.project = v *)
| SetBinary (v : option string)            (* core.binary = v *)
| SetSnapshot (v : option string)          (* core.snapshot = v *)
| Surroundings (e : Env).                  (* the environment changes *)

Definition run (o : op) : M state unit :=
  match o with
  | Load => load_netnode
  | Join => join_session
  | Reply snapshots => reply_received snapshots
  | Leave => leave_session
  | Close => closebase ;; ret tt
  | SetProject v => project_setter v
  | SetBinary v => binary_setter v
  | SetSnapshot v => snapshot_setter v
  | Surroundings e => modify (set_env e)
  end.

(** An operation that raises leaves the state it reached. *)
Definition step (s : state) (o : op) : state := exec (run o) s.

Definition steps (s : state) (os : list op) : state := foldl step s os.

(** The state of a freshly installed core. *)
Definition installed (host_id : string) (node : gmap string string)
    (e : Env) : state :=
  exec _install (__init__ host_id node e).

Definition identifiers_set (s : state) : bool :=
  truthy (_project s) && truthy (_binary s) && truthy (_snapshot s).

End Core.

(** ** Replayed events of [idarling/core/events.py] *)

Module Events.
Import Shared.

(** Handles returned by IDA lookups, kept symbolic. *)
Inductive func_t : Type := get_func (ea : Z).
Inductive segment_t : Type := getseg (ea : Z).
Inductive struc_t : Type := get_struc (struc_id : Z).

(** [ida_nalt.refinfo_t] after [init(flags, base, target, tdelta)]. *)
Record refinfo_t : Type := {
  ri_flags : pyval; ri_base : pyval; ri_target : pyval; ri_tdelta : pyval
}.

(** [ida_nalt.opinfo_t] as the attribute assignments of
    [_get_member_type] leave it; [None] is a member that was not assigned.
    (The overlay of the members in the underlying C union is outside this
    model.) *)
Record opinfo_t : Type := {
  tid : option Z;
  ri : option refinfo_t;
  ec_serial : option pyval;
  ec_tid : option pyval;
  strtype : option pyval
}.

(** The calls into IDA and into [shared/local_types.py] made on replay. *)
Inductive call : Type :=
| set_func_cmt (func : func_t) (cmt rptble : pyval)
| set_segment_cmt (segment : segment_t) (cmt rptble : pyval)
| request_refresh (iwid : Z)
| refresh_view (widget : string) (redo_mba : bool)
| del_segm (ea flags : Z)
| add_struc_member (sptr : struc_t) (fieldname : pyval) (offset flag : Z)
    (mt : opinfo_t) (nbytes : Z)
| set_member_type (sptr : struc_t) (soff flag : Z) (mt : opinfo_t)
    (nitems : Z)
| DeleteType (name : pystr)
| InsertType (new_type : LocalType) (replace : bool)
| EditTypeInPlace (name : pystr) (new_type : LocalType).

(** What replaying an event does to the outside, in program order. Of a
    printed line the constant text is kept, not the formatted operands. *)
Inductive effect : Type :=
| Call (c : call)
| Print (text : string).

(** The IDA side: constants of the SDK, lookups, and which call raises
    given everything done so far. *)
Class Ida : Type := {
  RANGE_KIND_FUNC : Z;                  (* ida_range.RANGE_KIND_FUNC *)
  RANGE_KIND_SEGMENT : Z;               (* ida_range.RANGE_KIND_SEGMENT *)
  IWID_SEGS : Z;                        (* ida_kernwin.IWID_SEGS *)
  IWID_LOCTYPS : Z;                     (* ida_kernwin.IWID_LOCTYPS *)
  SEGMOD_SILENT : Z;                    (* ida_segment.SEGMOD_SILENT *)
  is_struct : Z -> bool;                (* ida_bytes.is_struct *)
  is_strlit : Z -> bool;                (* ida_bytes.is_strlit *)
  off_flag : Z;                         (* ida_bytes.off_flag() *)
  enum_flag : Z;                        (* ida_bytes.enum_flag() *)
  get_struc_id : pyval -> Z;            (* idc.get_struc_id *)
  find_widget : string -> bool;         (* ida_kernwin.find_widget(name) is not None *)
  entry_ea : string -> Z;               (* get_widget_vdui(widget).cfunc.entry_ea *)
  func_contains : func_t -> Z -> bool;  (* ida_funcs.func_contains *)
  raises : list effect -> call -> option exn
}.

Section Replay.
Context `{ida : Ida}.

(** Replay runs over the trace of effects. *)
Definition E (A : Type) : Type := M (list effect) A.

Definition print (text : string) : E unit :=
  modify (fun tr => tr ++ [Print text]).

(** A call is made, then returns or raises. *)
Definition invoke (c : call) : E unit :=
  let! history := gets (fun tr => tr) in
  modify (fun tr => tr ++ [Call c]) ;;
  match raises history c with
  | Some e => raise e
  | None => ret tt
  end.

(** [extra[key]] *)
Definition getitem (extra : gmap string pyval) (key : string) : result pyval :=
  match extra !! key with
  | Some v => Ok v
  | None => Raised (KeyError key)
  end.

(** *** [HexRaysEvent.refresh_pseudocode_view] *)

(** [["Pseudocode-%c" % chr(ord("A") + i) for i in range(5)]] *)
Definition pseudocode_names : list string :=
  List.map
    (fun i =>
       ("Pseudocode-" ++ String (ascii_of_nat (nat_of_ascii "A" + i)) "")%string)
    (List.seq 0 5).

(** Refreshes the pseudocode view in IDA. *)
Definition refresh_pseudocode_view (ea : Z) : E unit :=
  for_each pseudocode_names (fun name =>
    if find_widget name then
      (* Check if the address is in the same function *)
      let func_ea := entry_ea name in
      let func := get_func func_ea in
      if func_contains func ea then invoke (refresh_view name false)
      else ret tt
    else ret tt).

(** *** [RangeCmtChangedEvent] *)

Record RangeCmtChangedEvent : Type := {
  kind : Z;
  rc_start_ea : Z;
  rc_end_ea : Z;
  rc_cmt : pyval;
  rc_rptble : pyval
}.

Definition RangeCmtChangedEvent__call__ (self : RangeCmtChangedEvent) : E unit :=
  let cmt := rc_cmt self in
  if kind self =? RANGE_KIND_FUNC then
    let func := get_func (rc_start_ea self) in
    invoke (set_func_cmt func cmt (rc_rptble self)) ;;
    refresh_pseudocode_view (rc_start_ea self)
  else if kind self =? RANGE_KIND_SEGMENT then
    let segment := getseg (rc_start_ea self) in
    invoke (set_segment_cmt segment cmt (rc_rptble self)) ;;
    invoke (request_refresh IWID_SEGS)
  else raise (Exception_ ("Unsupported range kind: " ++ py_str (kind self))%string).

(** *** [LocalTypesChangedEvent] *)

(** One side of a pair of [local_types]:
    [(name, parsed_list, type_fields, cmt, field_cmts)]. *)
Record local_type_tuple : Type := {
  lt_name : pystr;
  lt_parsed_list : pyval;
  lt_type_fields : pystr;
  lt_cmt : pystr;
  lt_field_cmts : pystr
}.

(** [s.encode()] *)
Definition str_encode (s : pystr) : result pybytes :=
  match Codec.utf8_encode s with
  | Some b => Ok b
  | None => Raised UnicodeEncodeError
  end.

(** [LocalType(name=name, parsedList=parsed_list,
               TypeFields=type_fields.encode(), cmt=cmt.encode(),
               fieldcmts=field_cmts.encode())] *)
Definition new_LocalType (new_tuple : local_type_tuple) : result LocalType :=
  match str_encode (lt_type_fields new_tuple) with
  | Raised e => Raised e
  | Ok type_fields =>
      match str_encode (lt_cmt new_tuple) with
      | Raised e => Raised e
      | Ok cmt =>
          match str_encode (lt_field_cmts new_tuple) with
          | Raised e => Raised e
          | Ok field_cmts =>
              Ok {| name := lt_name new_tuple;
                    parsedList := lt_parsed_list new_tuple;
                    TypeFields := type_fields;
                    cmt := cmt;
                    fieldcmts := field_cmts |}
          end
      end
  end.

(** The body of the [try] of one iteration. An absent side is [None]. *)
Definition apply_pair (old_tuple new_tuple : option local_type_tuple) : E unit :=
  match new_tuple with
  | None =>
      match old_tuple with
      | Some old => invoke (DeleteType (lt_name old))
      | None => raise TypeError            (* old_tuple[0] on an absent side *)
      end
  | Some new =>
      let! new_type := lift (new_LocalType new) in
      match old_tuple with
      | None => invoke (InsertType new_type true)
      | Some old => invoke (EditTypeInPlace (lt_name old) new_type)
      end
  end.

Definition LocalTypesChangedEvent__call__
    (local_types : list (option local_type_tuple * option local_type_tuple))
    : E unit :=
  for_each local_types (fun p =>
    print "============ callback for local types changed" ;;
    try_except (apply_pair (fst p) (snd p))
      (fun e => print "failed to apply local type change")) ;;
  invoke (request_refresh IWID_LOCTYPS).

(** *** [SegmDeletedEvent] *)

(** An event rebuilt from a packet has the attributes the packet had:
    [sd_flags = None] is an event without a [flags] attribute. *)
Record SegmDeletedEvent : Type := {
  sd_ea : Z;
  sd_flags : option Z
}.

(** Returns [self] as the call leaves it. *)
Definition SegmDeletedEvent__call__ (self : SegmDeletedEvent) : E SegmDeletedEvent :=
  let self :=
    match sd_flags self with
    | None =>
        (* segm_deleted events created prior to IDA 7.7 lack flags *)
        {| sd_ea := sd_ea self; sd_flags := Some 0 |}
    | Some _ => self
    end in
  let flags := default 0 (sd_flags self) in
  invoke (del_segm (sd_ea self) (Z.lor flags SEGMOD_SILENT)) ;;
  ret self.

(** *** [StrucMemberEvent] *)

Definition _get_sptr (struct_name : pyval) : struc_t :=
  let struc_id := get_struc_id struct_name in
  get_struc struc_id.

Definition opinfo_new : opinfo_t :=
  {| tid := None; ri := None; ec_serial := None; ec_tid := None;
     strtype := None |}.

Definition _get_member_type (type_flag : Z) (extra : gmap string pyval)
    : result opinfo_t :=
  let mt := opinfo_new in
  match
    (if is_struct type_flag then
       match getitem extra "struc_name" with
       | Ok n => Ok {| tid := Some (get_struc_id n); ri := ri mt;
                       ec_serial := ec_serial mt; ec_tid := ec_tid mt;
                       strtype := strtype mt |}
       | Raised e => Raised e
       end
     else Ok mt)
  with
  | Raised e => Raised e
  | Ok mt =>
  match
    (if negb (Z.land type_flag off_flag =? 0) then
       match getitem extra "flags", getitem extra "base",
             getitem extra "target", getitem extra "tdelta" with
       | Ok f, Ok b, Ok t, Ok d =>
           Ok {| tid := tid mt;
                 ri := Some {| ri_flags := f; ri_base := b;
                               ri_target := t; ri_tdelta := d |};
                 ec_serial := ec_serial mt; ec_tid := ec_tid mt;
                 strtype := strtype mt |}
       | Raised e, _, _, _ => Raised e
       | _, Raised e, _, _ => Raised e
       | _, _, Raised e, _ => Raised e
       | _, _, _, Raised e => Raised e
       end
     else Ok mt)
  with
  | Raised e => Raised e
  | Ok mt =>
  match
    (if negb (Z.land type_flag enum_flag =? 0) then
       match getitem extra "serial" with
       | Ok serial =>
           (* Backwards compatibility: Past versions didn't store the tid *)
           Ok {| tid := tid mt; ri := ri mt;
                 ec_serial := Some serial;
                 ec_tid := Some (default (PyInt 0) (extra !! "tid"));
                 strtype := strtype mt |}
       | Raised e => Raised e
       end
     else Ok mt)
  with
  | Raised e => Raised e
  | Ok mt =>
    if is_strlit type_flag then
      match getitem extra "strtype" with
      | Ok st => Ok {| tid := tid mt; ri := ri mt;
                       ec_serial := ec_serial mt; ec_tid := ec_tid mt;
                       strtype := Some st |}
      | Raised e => Raised e
      end
    else Ok mt
  end end end.

Record StrucMemberCreatedEvent : Type := {
  smc_sname : pyval;
  smc_fieldname : pyval;
  smc_offset : Z;
  smc_flag : Z;
  smc_nbytes : Z;
  smc_extra : gmap string pyval
}.

Definition StrucMemberCreatedEvent__call__ (self : StrucMemberCreatedEvent) : E unit :=
  let sptr := _get_sptr (smc_sname self) in
  let! mt := lift (_get_member_type (smc_flag self) (smc_extra self)) in
  invoke (add_struc_member sptr (smc_fieldname self) (smc_offset self)
            (smc_flag self) mt (smc_nbytes self)).

Record StrucMemberChangedEvent : Type := {
  smg_sname : pyval;
  smg_soff : Z;
  smg_eoff : Z;
  smg_flag : Z;
  smg_extra : gmap string pyval
}.

Definition StrucMemberChangedEvent__call__ (self : StrucMemberChangedEvent) : E unit :=
  let sptr := _get_sptr (smg_sname self) in
  let! mt := lift (_get_member_type (smg_flag self) (smg_extra self)) in
  invoke (set_member_type sptr (smg_soff self) (smg_flag self) mt
            (smg_eoff self - smg_soff self)).

End Replay.

End Events.

(** ** Vocabulary for the properties of [Core] *)

Module CoreSpec.
Import Shared Core.

(** [_install] has created the four hook objects. *)
Definition hooks_created (s : state) : bool :=
  match _idb_hooks s, _idp_hooks s, _hxe_hooks s, _ui_hooks s with
  | Some _, Some _, Some _, Some _ => true
  | _, _, _, _ => false
  end.


(** The packets handed to the network module, oldest first. *)
Definition packets_sent (tr : list effect) : list packet :=
  flat_map (fun e => match e with SendPacket p => [p] | _ => [] end) tr.

(** The writes to the netnode, oldest first. *)
Definition netnode_writes (tr : list effect) : list effect :=
  flat_map (fun e => match e with HashsetBuf _ _ | Kill => [e] | _ => [] end) tr.

(** The [hashset_buf] calls of one [save_netnode]. *)
Definition save_writes (s : state) : list effect :=
  (if truthy (_project s) then [HashsetBuf "project" (str (_project s))] else [])
  ++ (if truthy (_binary s) then [HashsetBuf "binary" (str (_binary s))] else [])
  ++ (if truthy (_snapshot s) then [HashsetBuf "snapshot" (str (_snapshot s))] else [])
  ++ (if negb (_tick s =? -1) then [HashsetBuf "tick" (py_str (_tick s))] else []).

(** The netnode after one [save_netnode]. *)
Definition saved (s : state) : gmap string string :=
  let m := netnode s in
  let m := if truthy (_project s) then <["project" := str (_project s)]> m else m in
  let m := if truthy (_binary s) then <["binary" := str (_binary s)]> m else m in
  let m := if truthy (_snapshot s) then <["snapshot" := str (_snapshot s)]> m else m in
  if negb (_tick s =? -1) then <["tick" := py_str (_tick s)]> m else m.

(** The log lines that end [save_netnode] and [load_netnode]. *)
Definition SAVED (s : state) : effect := Log DEBUG (netnode_line "Saved" s).

Definition LOADED (s : state) : effect := Log DEBUG (netnode_line "Loaded" s).

(** The attributes after the assignments of [load_netnode_old] and of the
    [else] branch of [load_netnode], reading tick [t]. *)
Definition loaded_old (s : state) (t : Z) : state :=
  set_tick t
    (set_snapshot (or_None (netnode s !! "database"))
       (set_binary (or_None (netnode s !! "project"))
          (set_project (or_None (netnode s !! "group")) s))).

Definition loaded (s : state) (t : Z) : state :=
  set_tick t
    (set_snapshot (or_None (netnode s !! "snapshot"))
       (set_binary (or_None (netnode s !! "binary"))
          (set_project (or_None (netnode s !! "project")) s))).

(** The tick text that [load_netnode] hands to [int]. *)
Definition tick_text (s : state) : string := or_str (netnode s !! "tick") "0".

(** [local_type_map] after [update_local_types_map]. *)
Definition imported (e : Env) (m : gmap Z (option LocalType)) (ordinals : list Z)
    : gmap Z (option LocalType) :=
  foldl (fun m i => <[i := ImportLocalType e i]> m) m ordinals.

(** The state after a [hook_all] that found the hooks uninstalled. *)
Definition hooks_installed (s : state) : state :=
  set_local_type_map
    (imported (env s) (local_type_map s) (seqZ 1 (get_ordinal_count (env s))))
    (set_hooked true
       (set_trace (trace s ++ [Log DEBUG "Installing hooks"; HookCall IDBHooks;
                               HookCall IDPHooks; HookCall HexRaysHooks;
                               HookCall UIHooks])
          (set_ui_hooks (Some true)
             (set_hxe_hooks (Some true)
                (set_idp_hooks (Some true)
                   (set_idb_hooks (Some true) s)))))).

(** The state after an [unhook_all] that found the hooks installed. *)
Definition hooks_uninstalled (s : state) : state :=
  set_hooked false
    (set_trace (trace s ++ [Log DEBUG "Uninstalling hooks"; UnhookCall IDBHooks;
                            UnhookCall IDPHooks; UnhookCall HexRaysHooks;
                            UnhookCall UIHooks])
       (set_ui_hooks (Some false)
          (set_hxe_hooks (Some false)
             (set_idp_hooks (Some false)
                (set_idb_hooks (Some false) s))))).

(** The state after [leave_session] sent its packet: roster cleared, hooks
    uninstalled if they were installed, session parted. *)
Definition parted (s : state) : state :=
  let s1 :=
    set_users ∅
      (set_trace (trace s ++ [Log DEBUG "Leaving session";
                              SendPacket (LeaveSession (_host_id s)
                                            (user_name (env s)))]) s) in
  set_session_joined false (if _hooked s then hooks_uninstalled s1 else s1).

(** The packet that [snapshots_listed] sends from state [s]. *)
Definition join_packet (s : state) : packet :=
  JoinSession (_host_id s) (_project s) (_binary s) (_snapshot s) (_tick s)
    (user_name (env s)) (user_color (env s)) (get_screen_ea (env s)).

(** The state after [snapshots_listed] found the snapshot on the server. *)
Definition joined (s : state) : state :=
  let s1 :=
    set_session_joined true
      (set_trace (trace s ++ [Log DEBUG "Snapshot is on the server";
                              SendPacket (join_packet s)]) s) in
  set_users ∅ (if _hooked s then s1 else hooks_installed s1).

(** The reply lists a snapshot named like the local one. *)
Definition listed (s : state) (snapshots : list Snapshot) : bool :=
  existsb (fun d => bool_decide (Some (snapshot_name d) = _snapshot s)) snapshots.

(** What [closebase] does after [leave_session] returned in state [s1]:
    one save, the three identifiers assigned [None] through their setters,
    and the attribute [ticks] assigned 0. *)
Definition closed (s1 : state) : state :=
  set_ticks (Some 0)
    (exec (snapshot_setter None)
       (exec (binary_setter None)
          (exec (project_setter None)
             (exec save_netnode s1)))).

(** Capture is installed only while a session is joined. *)
Definition capture_joined (s : state) : bool :=
  implb (_hooked s) (_session_joined s).

(** The persisted state agrees with the attributes and has no legacy
    key: what [load_netnode] reads is what the attributes hold. *)
Definition in_sync (s : state) : Prop :=
  netnode s !! "database" = None
  /\ or_None (netnode s !! "project") = _project s
  /\ or_None (netnode s !! "binary") = _binary s
  /\ or_None (netnode s !! "snapshot") = _snapshot s.

(** A run is orderly when a joined session is only ever left, closed or
    re-joined while its three identifiers are set. *)
Definition orderly_op (s : state) (o : op) : bool :=
  match o with
  | Join | Leave | Close => implb (_session_joined s) (identifiers_set s)
  | _ => true
  end.

Fixpoint orderly (s : state) (os : list op) : bool :=
  match os with
  | [] => true
  | o :: os' => orderly_op s o && orderly (step s o) os'
  end.

End CoreSpec.

(** ** Sample data for the worked examples *)

Module Samples.
Import Shared Core.

Definition some_env : Env :=
  {| user_name := "alice"; user_color := 0xFF0000; get_screen_ea := 0x401000;
     connected := true; get_ordinal_count := 0;
     ImportLocalType := fun _ => None |}.

(** The legacy netnode [{group: g, project: p, database: d, tick: 5}]. *)
Definition legacy_node : gmap string string :=
  <["group" := "g"]> (<["project" := "p"]> (<["database" := "d"]>
    (<["tick" := "5"]> ∅))).

(** A netnode in the current layout, at tick 7. *)
Definition joinable_node : gmap string string :=
  <["project" := "proj"]> (<["binary" := "bin"]> (<["snapshot" := "snap_v2"]>
    (<["tick" := "7"]> ∅))).

Definition snap (name : string) : Snapshot :=
  {| snapshot_name := name; snapshot_tick := 0 |}.

(** A core that loaded [joinable_node] and asked the server. *)
Definition asking : state :=
  steps (installed "10.0.0.1" joinable_node some_env) [Load; Join].

(** The same core after the server listed its snapshot: joined. *)
Definition in_session : state :=
  step asking (Reply [snap "snap_v1"; snap "snap_v2"]).

(** A core that has not loaded anything yet, over a netnode that holds
    identifiers. *)
Definition fresh : state := installed "10.0.0.1" joinable_node some_env.

End Samples.

Module CodecSamples.

(** The six bytes backslash, u, 0, 0, 4, 1. *)
Definition escaped_A : pybytes := [x5c; x75; x30; x30; x34; x31].

End CodecSamples.

(** ** Vocabulary for the properties of the replayed events *)

Module EventsSpec.
Import Shared Events.

Section Vocabulary.
Context `{ida : Ida}.

(** The calls among the effects, oldest first. *)
Definition calls_of (tr : list effect) : list call :=
  flat_map (fun e => match e with Call c => [c] | Print _ => [] end) tr.

Definition is_refresh (e : effect) : Prop :=
  match e with
  | Call (refresh_view _ _) => True
  | _ => False
  end.

(** The two lines that [LocalTypesChangedEvent.__call__] prints. *)
Definition STARTED : effect :=
  Print "============ callback for local types changed".

Definition FAILED : effect := Print "failed to apply local type change".

(** The record that the new side of a pair stands for: the name and the
    parsed list as they are, the three texts in UTF-8. There is none when
    one of the texts has no UTF-8 encoding. *)
Definition record_of (new : local_type_tuple) : option LocalType :=
  match Codec.utf8_encode (lt_type_fields new),
        Codec.utf8_encode (lt_cmt new),
        Codec.utf8_encode (lt_field_cmts new) with
  | Some type_fields, Some cmt, Some field_cmts =>
      Some {| name := lt_name new;
              parsedList := lt_parsed_list new;
              TypeFields := type_fields;
              cmt := cmt;
              fieldcmts := field_cmts |}
  | _, _, _ => None
  end.

(** The three-way policy: the call that one pair stands for. A pair
    with both sides absent, or whose new side stands for no record, stands
    for no call. *)
Definition policy
    (p : option local_type_tuple * option local_type_tuple) : list call :=
  match p with
  | (Some old, None) => [DeleteType (lt_name old)]
  | (None, None) => []
  | (None, Some new) =>
      match record_of new with
      | Some new_type => [InsertType new_type true]
      | None => []
      end
  | (Some old, Some new) =>
      match record_of new with
      | Some new_type => [EditTypeInPlace (lt_name old) new_type]
      | None => []
      end
  end.

(** A pair fails when it stands for no call, or when its call raises after
    the effects [history]. *)
Definition fails (history : list effect)
    (p : option local_type_tuple * option local_type_tuple) : bool :=
  match policy p with
  | c :: _ => bool_decide (is_Some (raises history c))
  | [] => true
  end.

(** The effects of replaying the pairs after the effects [tr]: for every
    pair in order the first line, the call of the pair, and the second line
    if the pair failed. *)
Fixpoint replayed
    (local_types : list (option local_type_tuple * option local_type_tuple))
    (tr : list effect) : list effect :=
  match local_types with
  | [] => tr
  | p :: rest =>
      let history := tr ++ [STARTED] in
      replayed rest
        (history ++ List.map Call (policy p)
         ++ (if fails history p then [FAILED] else []))
  end.

(** The keys that [_get_member_type] subscripts for this flag are there. *)
Definition has_keys (type_flag : Z) (extra : gmap string pyval) : bool :=
  (implb (is_struct type_flag) (bool_decide (is_Some (extra !! "struc_name"))))
  && (implb (negb (Z.land type_flag off_flag =? 0))
        (bool_decide (is_Some (extra !! "flags"))
         && bool_decide (is_Some (extra !! "base"))
         && bool_decide (is_Some (extra !! "target"))
         && bool_decide (is_Some (extra !! "tdelta"))))
  && (implb (negb (Z.land type_flag enum_flag =? 0))
        (bool_decide (is_Some (extra !! "serial"))))
  && (implb (is_strlit type_flag) (bool_decide (is_Some (extra !! "strtype")))).

End Vocabulary.

(** An IDA for the worked examples: the range kinds of [range.hpp], two
    open pseudocode widgets, and a type library in which deleting the type
    [gone] raises. *)
Definition gone : pystr := [0x67; 0x6F; 0x6E; 0x65].

Definition sample_ida : Ida :=
  {| RANGE_KIND_FUNC := 1;
     RANGE_KIND_SEGMENT := 2;
     IWID_SEGS := 0x40;
     IWID_LOCTYPS := 0x800;
     SEGMOD_SILENT := 0x4;
     is_struct := fun F => Z.land F 0xF0000000 =? 0x60000000;
     is_strlit := fun F => Z.land F 0xF0000000 =? 0x50000000;
     off_flag := 0x05500000;
     enum_flag := 0x08800000;
     get_struc_id := fun _ => 0xFF000001;
     find_widget := fun name => String.eqb name "Pseudocode-A"
                                || String.eqb name "Pseudocode-C";
     entry_ea := fun _ => 0x401000;
     func_contains := fun f ea => match f with
                                  | get_func start => (start <=? ea) && (ea <? start + 0x100)
                                  end;
     raises := fun _ c => match c with
                          | DeleteType n => if bool_decide (n = gone)
                                            then Some (Exception_ "no such type")
                                            else None
                          | _ => None
                          end |}.

Definition tuple_of (name : pystr) : local_type_tuple :=
  {| lt_name := name; lt_parsed_list := PyNone; lt_type_fields := [];
     lt_cmt := []; lt_field_cmts := [] |}.

(** Three pairs, the first of which raises in [DeleteType]. *)
Definition three_pairs : list (option local_type_tuple * option local_type_tuple) :=
  [(Some (tuple_of gone), None);
   (None, Some (tuple_of [0x41]));
   (Some (tuple_of [0x41]), Some (tuple_of [0x42]))].

Definition type_of (name : pystr) : LocalType :=
  {| name := name; parsedList := PyNone; TypeFields := []; cmt := [];
     fieldcmts := [] |}.

(** The [extra] of an enum member stored by a past version: no ['tid']. *)
Definition enum_extra : gmap string pyval := <["serial" := PyInt 3]> ∅.

End EventsSpec.

(** ** Vocabulary for runs of the session protocol *)

Module SessionSpec.
Import Shared Core CoreSpec.

Definition is_join (p : packet) : bool :=
  match p with
  | JoinSession _ _ _ _ _ _ _ _ => true
  | _ => false
  end.

Definition is_leave (p : packet) : bool :=
  match p with
  | LeaveSession _ _ => true
  | _ => false
  end.

(** How many [JoinSession] and [LeaveSession] packets were sent. *)
Definition joins_sent (tr : list effect) : nat :=
  length (List.filter is_join (packets_sent tr)).

Definition leaves_sent (tr : list effect) : nat :=
  length (List.filter is_leave (packets_sent tr)).

(** The sessions that were joined and not left yet account for every
    [LeaveSession] sent and for the session joined now; and hooks that are
    flagged installed have their objects. *)
Definition accounted (s : state) : Prop :=
  (leaves_sent (trace s) + (if _session_joined s then 1 else 0)
   <= joins_sent (trace s))%nat
  /\ (_hooked s = true -> hooks_created s = true).

End SessionSpec.

(** ** [Core]: the roster and the core hooks *)

Module Interface.
Import Shared Core.

(** What the methods below do besides the effects of [Core.effect]. *)
Inductive ui_effect : Type :=
| PainterRefresh                        (* self._plugin.interface.painter.refresh() *)
| PainterReadyToRun                     (* self._plugin.interface.painter.ready_to_run() *)
| WidgetRefresh.                        (* self._plugin.interface.widget.refresh() *)

(** The [Core] object together with its four core-hook attributes and
    the calls made to the interface module. A core-hook attribute is
    [None] until [_install] assigns the object; the boolean of [Some b]
    tells whether the object is hooked into IDA. *)
Record plugin : Type := {
  core : state;
  _idb_hooks_core : option bool;
  _idp_hooks_core : option bool;
  _ui_hooks_core : option bool;
  _view_hooks_core : option bool;
  interface : list ui_effect
}.

Definition set_core v (p : plugin) : plugin :=
  Build_plugin v (_idb_hooks_core p) (_idp_hooks_core p) (_ui_hooks_core p)
    (_view_hooks_core p) (interface p).

Definition set_idb_hooks_core v (p : plugin) : plugin :=
  Build_plugin (core p) v (_idp_hooks_core p) (_ui_hooks_core p)
    (_view_hooks_core p) (interface p).

Definition set_idp_hooks_core v (p : plugin) : plugin :=
  Build_plugin (core p) (_idb_hooks_core p) v (_ui_hooks_core p)
    (_view_hooks_core p) (interface p).

Definition set_ui_hooks_core v (p : plugin) : plugin :=
  Build_plugin (core p) (_idb_hooks_core p) (_idp_hooks_core p) v
    (_view_hooks_core p) (interface p).

Definition set_view_hooks_core v (p : plugin) : plugin :=
  Build_plugin (core p) (_idb_hooks_core p) (_idp_hooks_core p)
    (_ui_hooks_core p) v (interface p).

Definition set_interface v (p : plugin) : plugin :=
  Build_plugin (core p) (_idb_hooks_core p) (_idp_hooks_core p)
    (_ui_hooks_core p) (_view_hooks_core p) v.

(** A method of [Core] run on the [Core] object of the plugin. *)
Definition on_core {A} (m : M state A) : M plugin A :=
  fun p => let (r, s) := m (core p) in (r, set_core s p).

Definition refresh (e : ui_effect) : M plugin unit :=
  modify (fun p => set_interface (interface p ++ [e]) p).

(** *** The roster *)

Definition add_user (name : string) (u : user) : M plugin unit :=
  on_core (modify (fun s => set_users (<[name := u]> (_users s)) s)) ;;
  refresh PainterRefresh ;;
  refresh WidgetRefresh.

(** [self._users.pop(name)] raises [KeyError] on an absent name. *)
Definition remove_user (name : string) : M plugin user :=
  let! o := on_core (gets (fun s => _users s !! name)) in
  match o with
  | None => raise (KeyError name)
  | Some u =>
      on_core (modify (fun s => set_users (delete name (_users s)) s)) ;;
      refresh PainterRefresh ;;
      refresh WidgetRefresh ;;
      ret u
  end.

Definition get_user (name : string) : M plugin user :=
  let! o := on_core (gets (fun s => _users s !! name)) in
  match o with
  | None => raise (KeyError name)
  | Some u => ret u
  end.

Definition get_users : M plugin (gmap string user) :=
  on_core (gets _users).

(** *** Installing and uninstalling the core hooks *)

(** [Core._install] as above, with the assignments of the four core-hook
    attributes, each object hooked as soon as it is created. *)
Definition _install : M plugin bool :=
  let! r := on_core Core._install in
  modify (set_idb_hooks_core (Some true)) ;;
  modify (set_idp_hooks_core (Some true)) ;;
  modify (set_ui_hooks_core (Some true)) ;;
  modify (set_view_hooks_core (Some true)) ;;
  ret r.

(** [self.<attribute>.unhook()] on a core-hook attribute. *)
Definition unhook_core (get : plugin -> option bool)
    (set : option bool -> plugin -> plugin) : M plugin unit :=
  let! o := gets get in
  match o with
  | None => raise AttributeError
  | Some _ => modify (set (Some false))
  end.

Definition _uninstall : M plugin bool :=
  on_core (log DEBUG "Uninstalling core hooks") ;;
  unhook_core _idb_hooks_core set_idb_hooks_core ;;
  unhook_core _ui_hooks_core set_ui_hooks_core ;;
  unhook_core _view_hooks_core set_view_hooks_core ;;
  on_core unhook_all ;;
  ret true.

(** *** The handlers of the core hooks *)

(** [core._plugin.interface.painter.ready_to_run()]. The painter belongs
    to the interface module, which is not among the sources modelled here:
    the call is recorded, [painter] tells whether it returns or raises, and
    it is taken to leave the attributes of [Core] alone. *)
Definition painter_ready_to_run (painter : result unit) : M plugin unit :=
  modify (fun p => set_interface (interface p ++ [PainterReadyToRun]) p) ;;
  lift painter.

(** [UIHooksCore.ready_to_run]: the handler of IDA being ready to run. *)
Definition ready_to_run (painter : result unit) : M plugin unit :=
  on_core (log TRACE "Ready to run hook") ;;
  on_core load_netnode ;;
  on_core join_session ;;
  (* XXX - calling this function triggered lots of errors
     when moving to Python 3 *)
  painter_ready_to_run painter.

(** The plugin around a newly constructed [Core]. *)
Definition plugin_of (s : state) : plugin :=
  {| core := s; _idb_hooks_core := None; _idp_hooks_core := None;
     _ui_hooks_core := None; _view_hooks_core := None; interface := [] |}.

End Interface.

(** ** Further replayed events of [idarling/core/events.py] *)

Module MoreEvents.
Import Shared.

(** [bool(v)] *)
Definition pytruthy (v : pyval) : bool :=
  match v with
  | PyNone => false
  | PyInt z => negb (z =? 0)
  | PyStr s => match s with [] => false | _ => true end
  | PyBytes b => match b with [] => false | _ => true end
  end.

(** [v == c] for an integer constant [c]. *)
Definition eq_int (v : pyval) (c : Z) : bool :=
  match v with
  | PyInt z => z =? c
  | _ => false
  end.

(** [[f(x) for x in xs]]: the first element on which [f] raises ends the
    comprehension. *)
Fixpoint map_result {A B} (f : A -> result B) (xs : list A) : result (list B) :=
  match xs with
  | [] => Ok []
  | x :: xs' =>
      match f x with
      | Raised e => Raised e
      | Ok y =>
          match map_result f xs' with
          | Raised e => Raised e
          | Ok ys => Ok (y :: ys)
          end
      end
  end.

(** One segment register range, [(start_ea, end_ea, val, tag)]. *)
Record sreg_range : Type := {
  sr_start_ea : Z;
  sr_end_ea : Z;
  sr_val : Z;
  sr_tag : Z
}.

(** The calls into IDA made by the events below. *)
Inductive call : Type :=
| split_sreg_range (ea rg val tag : Z) (silent : bool)
| del_sreg_range (ea rg : Z)
| op_hex (ea n : Z)
| op_bin (ea n : Z)
| op_dec (ea n : Z)
| op_chr (ea n : Z)
| op_oct (ea n : Z)
| op_plain_offset (ea n base : Z)
| op_enum (ea n id : Z) (serial : pyval)
| decode_insn (ea : Z)
| op_stroff (insn_ea n : Z) (path : list Z) (path_len : Z) (delta : pyval)
| op_stkvar (ea n : Z)
| apply_type (type : pyval) (fields : pyval) (ea flags : Z).

(** What replaying one of these events does to the outside, in program
    order: the effects of the events modelled earlier, and the calls
    above. *)
Inductive effect : Type :=
| Earlier (e : Events.effect)
| Call (c : call).

(** The further constants and lookups of the IDA side, the function
    [GetTypeString] of [shared/local_types.py], and which call raises. *)
Class Sdk : Type := {
  IWID_SEGREGS : Z;                     (* ida_kernwin.IWID_SEGREGS *)
  IWID_DISASM : Z;                      (* ida_kernwin.IWID_DISASM *)
  TINFO_DEFINITE : Z;                   (* ida_typeinf.TINFO_DEFINITE *)
  ALOC_NONE : Z;                        (* ida_typeinf.ALOC_NONE *)
  ALOC_STACK : Z;
  ALOC_DIST : Z;
  ALOC_REG1 : Z;
  ALOC_REG2 : Z;
  ALOC_RREL : Z;
  ALOC_STATIC : Z;
  ALOC_CUSTOM : Z;
  get_sreg_ranges_qty : Z -> Z;         (* ida_segregs.get_sreg_ranges_qty(rg) *)
  getn_sreg_range : Z -> Z -> sreg_range; (* what getn_sreg_range(out, rg, n) stores *)
  get_enum : pyval -> Z;                (* idc.get_enum *)
  get_member_by_fullname : pyval -> option Z;
                                        (* r[0].id of a member that was found *)
  GetTypeString : pyval -> result pyval;
  raises : list effect -> call -> option exn
}.

Section Replay.
Context `{ida : Events.Ida} `{sdk : Sdk}.

Definition E (A : Type) : Type := M (list effect) A.

(** A call is made, then returns or raises. *)
Definition invoke (c : call) : E unit :=
  let! history := gets (fun tr => tr) in
  modify (fun tr => tr ++ [Call c]) ;;
  match raises history c with
  | Some e => raise e
  | None => ret tt
  end.

(** The effects of the events modelled earlier, oldest first. *)
Definition earlier (tr : list effect) : list Events.effect :=
  flat_map (fun e => match e with Earlier e => [e] | Call _ => [] end) tr.

(** Code of the events modelled earlier, run here: it sees the effects of
    its own kind, and what it adds to them is added to the trace. *)
Definition of_events {A} (m : Events.E A) : E A :=
  fun tr =>
    let h := earlier tr in
    let (r, h') := m h in
    (r, tr ++ map Earlier (drop (length h) h')).

(** *** [SgrChanged] *)

(** [SgrChanged.get_sreg_ranges(rg)] *)
Definition get_sreg_ranges (rg : Z) : list sreg_range :=
  let sreg_ranges_qty := get_sreg_ranges_qty rg in
  map (fun n => getn_sreg_range rg n) (seqZ 0 sreg_ranges_qty).

Record SgrChanged : Type := {
  sg_rg : Z;
  sg_sreg_ranges : list sreg_range
}.

(** [{r[0]: r for r in ranges}]: a later range replaces an earlier one
    with the same start. *)
Definition by_start (ranges : list sreg_range) : gmap Z sreg_range :=
  foldl (fun m r => <[sr_start_ea r := r]> m) ∅ ranges.

(** [sorted(set(list(new_ranges.keys()) + list(old_ranges.keys())))] *)
Definition sorted_starts (new_ranges old_ranges : gmap Z sreg_range) : list Z :=
  merge_sort Z.le
    (remove_dups ((map_to_list new_ranges).*1 ++ (map_to_list old_ranges).*1)).

Definition SgrChanged__call__ (self : SgrChanged) : E unit :=
  let new_ranges := by_start (sg_sreg_ranges self) in
  let old_ranges := by_start (get_sreg_ranges (sg_rg self)) in
  let start_eas := sorted_starts new_ranges old_ranges in
  for_each start_eas (fun start_ea =>
    let new_range := new_ranges !! start_ea in
    let old_range := old_ranges !! start_ea in
    match new_range, old_range with
    | Some new, None =>
        invoke (split_sreg_range start_ea (sg_rg self) (sr_val new)
                  (sr_tag new) true)
    | _, _ => ret tt
    end ;;
    match new_range, old_range with
    | None, Some _ => invoke (del_sreg_range start_ea (sg_rg self))
    | _, _ => ret tt
    end ;;
    match new_range, old_range with
    | Some new, Some old =>
        if negb (sr_val new =? sr_val old) || negb (sr_tag new =? sr_tag old)
        then invoke (split_sreg_range start_ea (sg_rg self) (sr_val new)
                       (sr_tag new) true)
        else ret tt
    | _, _ => ret tt
    end) ;;
  of_events (Events.invoke (Events.request_refresh IWID_SEGREGS)).

(** *** [OpTypeChangedEvent] *)

(** The dictionary [extra] of an operand event: a field is [None] when the
    key is absent. *)
Record op_extra : Type := {
  ename : option pyval;
  serial : option pyval;
  spath : option (list pyval);
  delta : option pyval
}.

(** [self.extra[key]] *)
Definition subscript {A} (field : option A) (key : string) : result A :=
  match field with
  | Some v => Ok v
  | None => Raised (KeyError key)
  end.

Record OpTypeChangedEvent : Type := {
  ot_ea : Z;
  ot_n : Z;
  ot_op : string;
  ot_extra : op_extra
}.

Definition OpTypeChangedEvent__call__ (self : OpTypeChangedEvent) : E unit :=
  let ea := ot_ea self in
  let n := ot_n self in
  let extra := ot_extra self in
  (if String.eqb (ot_op self) "hex" then invoke (op_hex ea n) else ret tt) ;;
  (if String.eqb (ot_op self) "bin" then invoke (op_bin ea n) else ret tt) ;;
  (if String.eqb (ot_op self) "dec" then invoke (op_dec ea n) else ret tt) ;;
  (if String.eqb (ot_op self) "chr" then invoke (op_chr ea n) else ret tt) ;;
  (if String.eqb (ot_op self) "oct" then invoke (op_oct ea n) else ret tt) ;;
  (if String.eqb (ot_op self) "offset"
   then invoke (op_plain_offset ea n 0) else ret tt) ;;
  (if String.eqb (ot_op self) "enum" then
     let! name := lift (subscript (ename extra) "ename") in
     let id := get_enum name in
     let! serial := lift (subscript (serial extra) "serial") in
     invoke (op_enum ea n id serial)
   else ret tt) ;;
  (if String.eqb (ot_op self) "struct" then
     let! spath := lift (subscript (spath extra) "spath") in
     let path_len := Z.of_nat (length spath) in
     let path := map Events.get_struc_id spath in
     invoke (decode_insn ea) ;;
     let! delta := lift (subscript (delta extra) "delta") in
     invoke (op_stroff ea n path path_len delta)
   else ret tt) ;;
  (if String.eqb (ot_op self) "stkvar" then invoke (op_stkvar ea n)
   else ret tt).

(** *** [TiChangedEvent] *)

Record TiChangedEvent : Type := {
  ti_ea : Z;
  ti_py_type : list pyval;
  ti_name : pyval
}.

(** [TiChangedEvent(ea, py_type, name)]; [py_type] may be [None]. *)
Definition TiChangedEvent__init__ (ea : Z) (py_type : option (list pyval))
    (name : pyval) : result TiChangedEvent :=
  match
    match py_type with
    | Some (t :: ts) => map_result Event.decode_bytes (t :: ts)
    | _ => Ok []
    end
  with
  | Raised e => Raised e
  | Ok decoded => Ok {| ti_ea := ea; ti_py_type := decoded; ti_name := name |}
  end.

(** Returns [self] as the call leaves it. *)
Definition TiChangedEvent__call__ (self : TiChangedEvent) : E TiChangedEvent :=
  let! py_type := lift (map_result Event.encode_bytes (ti_py_type self)) in
  let py_type :=
    if (length py_type =? 3)%nat then drop 1 py_type else py_type in
  match py_type with
  | type0 :: type1 :: _ =>
      let self :=
        if pytruthy (ti_name self) then
          match get_member_by_fullname (ti_name self) with
          | Some id => {| ti_ea := id; ti_py_type := ti_py_type self;
                          ti_name := ti_name self |}
          | None => self
          end
        else self in
      let! type_string := lift (GetTypeString type0) in
      invoke (apply_type type_string type1 (ti_ea self) TINFO_DEFINITE) ;;
      of_events (Events.invoke (Events.request_refresh IWID_DISASM)) ;;
      of_events (Events.refresh_pseudocode_view (ti_ea self)) ;;
      ret self
  | _ => ret self
  end.

(** *** [UserLvarSettingsEvent._get_vdloc] *)

(** [ida_hexrays.vdloc_t] as [_get_vdloc] leaves it. *)
Inductive vdloc_t : Type :=
| vdloc_new                             (* vdloc_t(), nothing set *)
| set_stkoff (stkoff : pyval)
| set_reg1 (reg1 : pyval)
| set_reg2 (reg1 reg2 : pyval)
| set_ea (ea : pyval).

Definition _get_vdloc (dct : gmap string pyval) : result vdloc_t :=
  let location := vdloc_new in
  match Events.getitem dct "atype" with
  | Raised e => Raised e
  | Ok atype =>
      if eq_int atype ALOC_NONE then Ok location
      else if eq_int atype ALOC_STACK then
        match Events.getitem dct "stkoff" with
        | Ok stkoff => Ok (set_stkoff stkoff)
        | Raised e => Raised e
        end
      else if eq_int atype ALOC_DIST then Ok location   (* FIXME: Not supported *)
      else if eq_int atype ALOC_REG1 then
        match Events.getitem dct "reg1" with
        | Ok reg1 => Ok (set_reg1 reg1)
        | Raised e => Raised e
        end
      else if eq_int atype ALOC_REG2 then
        match Events.getitem dct "reg1" with
        | Ok reg1 =>
            match Events.getitem dct "reg2" with
            | Ok reg2 => Ok (set_reg2 reg1 reg2)
            | Raised e => Raised e
            end
        | Raised e => Raised e
        end
      else if eq_int atype ALOC_RREL then Ok location   (* FIXME: Not supported *)
      else if eq_int atype ALOC_STATIC then
        match Events.getitem dct "ea" with
        | Ok ea => Ok (set_ea ea)
        | Raised e => Raised e
        end
      else if eq_int atype ALOC_CUSTOM then Ok location (* FIXME: Not supported *)
      else Ok location
  end.

End Replay.

End MoreEvents.

(** ** Vocabulary for the properties of the further events *)

Module MoreEventsSpec.
Import Shared MoreEvents.

Section Vocabulary.
Context `{ida : Events.Ida} `{sdk : Sdk}.

(** The calls above among the effects, oldest first. *)
Definition calls_of (tr : list effect) : list call :=
  flat_map (fun e => match e with Call c => [c] | Earlier _ => [] end) tr.

(** The call that [SgrChanged.__call__] makes for one start address, given
    the range of the event and the range of IDA at that address. *)
Definition action (rg start_ea : Z) (new_range old_range : option sreg_range)
    : list call :=
  match new_range, old_range with
  | Some new, None =>
      [split_sreg_range start_ea rg (sr_val new) (sr_tag new) true]
  | None, Some _ => [del_sreg_range start_ea rg]
  | Some new, Some old =>
      if (sr_val new =? sr_val old) && (sr_tag new =? sr_tag old) then []
      else [split_sreg_range start_ea rg (sr_val new) (sr_tag new) true]
  | None, None => []
  end.

(** The calls of one replay of [self], in order. *)
Definition plan (self : SgrChanged) : list call :=
  let new_ranges := by_start (sg_sreg_ranges self) in
  let old_ranges := by_start (get_sreg_ranges (sg_rg self)) in
  flat_map (fun start_ea =>
              action (sg_rg self) start_ea (new_ranges !! start_ea)
                (old_ranges !! start_ea))
    (sorted_starts new_ranges old_ranges).

(** The address that a segment register call works on. *)
Definition call_ea (c : call) : Z :=
  match c with
  | split_sreg_range ea _ _ _ _ => ea
  | del_sreg_range ea _ => ea
  | _ => 0
  end.

(** The operand kinds with a call that takes the address and the operand
    number only. *)
Definition simple_op (op : string) : option (Z -> Z -> call) :=
  if String.eqb op "hex" then Some op_hex
  else if String.eqb op "bin" then Some op_bin
  else if String.eqb op "dec" then Some op_dec
  else if String.eqb op "chr" then Some op_chr
  else if String.eqb op "oct" then Some op_oct
  else if String.eqb op "offset" then Some (fun ea n => op_plain_offset ea n 0)
  else if String.eqb op "stkvar" then Some op_stkvar
  else None.

(** The two types that [TiChangedEvent.__call__] applies, out of the list
    it holds. *)
Definition chosen (py_type : list pyval) : option (pyval * pyval) :=
  match py_type with
  | [_; type0; type1] => Some (type0, type1)
  | type0 :: type1 :: _ => Some (type0, type1)
  | _ => None
  end.

(** The address at which [TiChangedEvent.__call__] applies the type. *)
Definition target_ea (self : TiChangedEvent) : Z :=
  if pytruthy (ti_name self)
  then default (ti_ea self) (get_member_by_fullname (ti_name self))
  else ti_ea self.

(** A request to refresh, or the refresh of a pseudocode view. *)
Definition is_refreshing (e : effect) : Prop :=
  match e with
  | Earlier (Events.Call (Events.request_refresh _)) => True
  | Earlier (Events.Call (Events.refresh_view _ _)) => True
  | _ => False
  end.

(** Raw bytes in which no backslash is directly followed by [u] or [U]. *)
Definition plain_bytes (v : pyval) : Prop :=
  match v with
  | PyBytes b => Codec.escape_free b = true
  | _ => False
  end.

(** The pseudocode widgets that exist and show the function of [ea], out
    of the five that IDA can open. *)
Definition showing (ea : Z) : list string :=
  List.filter (fun name =>
            Events.find_widget name
            && Events.func_contains (Events.get_func (Events.entry_ea name)) ea)
    ["Pseudocode-A"; "Pseudocode-B"; "Pseudocode-C"; "Pseudocode-D";
     "Pseudocode-E"].

End Vocabulary.

(** An IDA for the worked examples: two segment register ranges of
    register 29, the location kinds of [typeinf.hpp], no member names. *)
Definition sample_sdk : Sdk :=
  {| IWID_SEGREGS := 0x400;
     IWID_DISASM := 0x10;
     TINFO_DEFINITE := 1;
     ALOC_NONE := 0;
     ALOC_STACK := 1;
     ALOC_DIST := 2;
     ALOC_REG1 := 3;
     ALOC_REG2 := 4;
     ALOC_RREL := 5;
     ALOC_STATIC := 6;
     ALOC_CUSTOM := 7;
     get_sreg_ranges_qty := fun rg => if rg =? 29 then 2 else 0;
     getn_sreg_range := fun rg n =>
       if n =? 0
       then {| sr_start_ea := 0x1000; sr_end_ea := 0x2000; sr_val := 0;
               sr_tag := 2 |}
       else {| sr_start_ea := 0x2000; sr_end_ea := 0x3000; sr_val := 1;
               sr_tag := 2 |};
     get_enum := fun _ => 0xFF000002;
     get_member_by_fullname := fun _ => None;
     GetTypeString := fun v => Ok v;
     raises := fun _ _ => None |}.

End MoreEventsSpec.

(** * Properties *)

(** ** Bytes and bit arithmetic *)

Module BitFacts.

Lemma ord_bounds (b : byte) : 0 <= ord b < 256.
Proof.
  unfold ord. pose proof (Byte.to_N_bounded b). lia.
Qed.

Lemma chr8_ord (b : byte) : chr8 (ord b) = b.
Proof.
  unfold chr8, ord. rewrite N2Z.id, Byte.of_to_N. reflexivity.
Qed.

Lemma ord_chr8 (z : Z) : 0 <= z < 256 -> ord (chr8 z) = z.
Proof.
  intros Hz. unfold chr8, ord.
  destruct (Byte.of_N (Z.to_N z)) as [b|] eqn:Hb.
  - apply Byte.to_of_N in Hb. simpl. rewrite Hb. lia.
  - exfalso. apply Byte.of_N_None_iff in Hb. lia.
Qed.

Lemma lor_shiftl_add (hi lo k : Z) :
  0 <= k -> 0 <= lo < 2 ^ k -> Z.lor (Z.shiftl hi k) lo = hi * 2 ^ k + lo.
Proof.
  intros Hk Hlo.
  assert (Hland : Z.land (Z.shiftl hi k) lo = 0).
  { apply Z.bits_inj'. intros n Hn.
    rewrite Z.land_spec, Z.bits_0.
    destruct (Z.lt_ge_cases n k) as [Hlt|Hge].
    - rewrite Z.shiftl_spec_low by lia. reflexivity.
    - assert (Hbit : Z.testbit lo n = false).
      { apply Z.testbit_false; [lia|].
        rewrite Z.div_small; [reflexivity|].
        split; [lia|]. apply Z.lt_le_trans with (2 ^ k); [lia|].
        apply Z.pow_le_mono_r; lia. }
      rewrite Hbit. apply andb_false_r. }
  rewrite <- Z.lxor_lor by exact Hland.
  rewrite <- Z.add_nocarry_lxor by exact Hland.
  rewrite Z.shiftl_mul_pow2 by lia. reflexivity.
Qed.

Lemma lor_C0 x : 0 <= x < 64 -> Z.lor 0xC0 x = 0xC0 + x.
Proof.
  intros Hx. pose proof (lor_shiftl_add 3 x 6) as H.
  change (Z.shiftl 3 6) with 0xC0 in H. change (2 ^ 6) with 64 in H. lia.
Qed.

Lemma lor_80 x : 0 <= x < 64 -> Z.lor 0x80 x = 0x80 + x.
Proof.
  intros Hx. pose proof (lor_shiftl_add 2 x 6) as H.
  change (Z.shiftl 2 6) with 0x80 in H. change (2 ^ 6) with 64 in H. lia.
Qed.

Lemma lor_E0 x : 0 <= x < 16 -> Z.lor 0xE0 x = 0xE0 + x.
Proof.
  intros Hx. pose proof (lor_shiftl_add 14 x 4) as H.
  change (Z.shiftl 14 4) with 0xE0 in H. change (2 ^ 4) with 16 in H. lia.
Qed.

Lemma lor_F0 x : 0 <= x < 8 -> Z.lor 0xF0 x = 0xF0 + x.
Proof.
  intros Hx. pose proof (lor_shiftl_add 30 x 3) as H.
  change (Z.shiftl 30 3) with 0xF0 in H. change (2 ^ 3) with 8 in H. lia.
Qed.

Lemma land_3F x : Z.land x 0x3F = x mod 64.
Proof. change 0x3F with (Z.ones 6). rewrite Z.land_ones by lia. reflexivity. Qed.

Lemma shiftr_6 x : Z.shiftr x 6 = x / 64.
Proof. rewrite Z.shiftr_div_pow2 by lia. reflexivity. Qed.

Lemma shiftr_12 x : Z.shiftr x 12 = x / 4096.
Proof. rewrite Z.shiftr_div_pow2 by lia. reflexivity. Qed.

Lemma shiftr_18 x : Z.shiftr x 18 = x / 262144.
Proof. rewrite Z.shiftr_div_pow2 by lia. reflexivity. Qed.

Lemma shiftl_6 x : Z.shiftl x 6 = x * 64.
Proof. rewrite Z.shiftl_mul_pow2 by lia. reflexivity. Qed.

Lemma shiftl_12 x : Z.shiftl x 12 = x * 4096.
Proof. rewrite Z.shiftl_mul_pow2 by lia. reflexivity. Qed.

Lemma shiftl_18 x : Z.shiftl x 18 = x * 262144.
Proof. rewrite Z.shiftl_mul_pow2 by lia. reflexivity. Qed.

End BitFacts.

(** ** UTF-8 round trips *)

Module Utf8Facts.
Import BitFacts Codec.

Ltac div_lia := Z.to_euclidean_division_equations; lia.

(** Turns the boolean tests met while stepping through the codec into
    arithmetic facts. *)
Ltac bool_to_Z :=
  unfold is_continuation, is_surrogate in *;
  repeat match goal with
  | H : negb _ = true |- _ => apply negb_true_iff in H
  | H : negb _ = false |- _ => apply negb_false_iff in H
  | H : (_ && _) = true |- _ => apply andb_true_iff in H; destruct H
  | H : (_ && _) = false |- _ => apply andb_false_iff in H
  | H : (_ || _) = true |- _ => apply orb_true_iff in H
  | H : (_ || _) = false |- _ => apply orb_false_iff in H; destruct H
  | H : (_ <? _) = true |- _ => apply Z.ltb_lt in H
  | H : (_ <? _) = false |- _ => apply Z.ltb_ge in H
  | H : (_ <=? _) = true |- _ => apply Z.leb_le in H
  | H : (_ <=? _) = false |- _ => apply Z.leb_gt in H
  | H : (_ =? _) = true |- _ => apply Z.eqb_eq in H
  | H : (_ =? _) = false |- _ => apply Z.eqb_neq in H
  end.

Ltac decide_tests :=
  repeat match goal with
  | |- context [?a <? ?b] => destruct (Z.ltb_spec a b); try lia
  | |- context [?a <=? ?b] => destruct (Z.leb_spec a b); try lia
  end; cbn [orb andb negb].

Lemma encode_char_1 c :
  0 <= c < 0x80 -> utf8_encode_char c = Some [chr8 c].
Proof. intros. unfold utf8_encode_char. decide_tests. reflexivity. Qed.

Lemma encode_char_2 c :
  0x80 <= c < 0x800 ->
  utf8_encode_char c = Some [chr8 (0xC0 + c / 64); chr8 (0x80 + c mod 64)].
Proof.
  intros. unfold utf8_encode_char. decide_tests.
  rewrite shiftr_6, land_3F, lor_C0, lor_80 by div_lia. reflexivity.
Qed.

Lemma encode_char_3 c :
  0x800 <= c < 0x10000 -> is_surrogate c = false ->
  utf8_encode_char c =
    Some [chr8 (0xE0 + c / 4096); chr8 (0x80 + (c / 64) mod 64);
          chr8 (0x80 + c mod 64)].
Proof.
  intros Hc Hs. unfold utf8_encode_char. rewrite Hs. decide_tests.
  rewrite shiftr_6, shiftr_12, !land_3F, lor_E0, !lor_80 by div_lia.
  reflexivity.
Qed.

Lemma encode_char_4 c :
  0x10000 <= c <= 0x10FFFF ->
  utf8_encode_char c =
    Some [chr8 (0xF0 + c / 262144); chr8 (0x80 + (c / 4096) mod 64);
          chr8 (0x80 + (c / 64) mod 64); chr8 (0x80 + c mod 64)].
Proof.
  intros Hc. unfold utf8_encode_char.
  assert (Hs : is_surrogate c = false).
  { unfold is_surrogate. apply andb_false_iff. right. apply Z.leb_gt. lia. }
  rewrite Hs. decide_tests.
  rewrite shiftr_6, shiftr_12, shiftr_18, !land_3F, lor_F0, !lor_80
    by div_lia.
  reflexivity.
Qed.

Lemma chr8_eq (b : byte) (z : Z) : z = ord b -> chr8 z = b.
Proof. intros ->. apply chr8_ord. Qed.

(** Whatever the strict decoder accepts, the encoder writes back. *)
Lemma utf8_decode_encode_bounded (n : nat) :
  forall (bs : pybytes) (s : pystr),
    (length bs <= n)%nat ->
    utf8_decode bs = Some s -> utf8_encode s = Some bs.
Proof.
  induction n as [|n IH]; intros bs s Hlen Hdec.
  - destruct bs; [|simpl in Hlen; lia]. inversion Hdec. reflexivity.
  - destruct bs as [|b1 r1]; [inversion Hdec; reflexivity|].
    cbn [utf8_decode] in Hdec. cbv zeta in Hdec.
    pose proof (ord_bounds b1) as Hb1.
    repeat match type of Hdec with
           | context [if ?c then _ else _] =>
               destruct c eqn:?; try discriminate
           | context [match ?l with [] => _ | _ :: _ => _ end] =>
               destruct l; try discriminate
           end;
    match type of Hdec with
    | _ <$> utf8_decode ?r = _ =>
        destruct (utf8_decode r) as [s'|] eqn:Hr; [|discriminate];
        cbn in Hdec; injection Hdec as <-;
        apply IH in Hr; [|simpl in Hlen |- *; lia]
    end;
    repeat match goal with
           | b : byte |- _ =>
               lazymatch goal with
               | H : 0 <= ord b < 256 |- _ => fail
               | _ => pose proof (ord_bounds b)
               end
           end;
    rewrite ?shiftl_6, ?shiftl_12, ?shiftl_18 in *;
    bool_to_Z; cbn [utf8_encode]; rewrite Hr.
    + rewrite encode_char_1 by lia. cbn. rewrite chr8_ord. reflexivity.
    + rewrite encode_char_2 by lia. cbn.
      repeat f_equal; apply chr8_eq; div_lia.
    + rewrite encode_char_3; [| lia |].
      * cbn. repeat f_equal; apply chr8_eq; div_lia.
      * unfold is_surrogate. apply andb_false_iff.
        rewrite Z.leb_gt, Z.leb_gt. lia.
    + rewrite encode_char_4 by lia. cbn.
      repeat f_equal; apply chr8_eq; div_lia.
Qed.

Lemma utf8_decode_encode (bs : pybytes) (s : pystr) :
  utf8_decode bs = Some s -> utf8_encode s = Some bs.
Proof. apply (utf8_decode_encode_bounded (length bs)). lia. Qed.

Ltac decide_all_tests :=
  unfold is_continuation;
  repeat match goal with
  | |- context [?a <? ?b] => destruct (Z.ltb_spec a b); try div_lia
  | |- context [?a <=? ?b] => destruct (Z.leb_spec a b); try div_lia
  | |- context [?a =? ?b] => destruct (Z.eqb_spec a b); try div_lia
  end; cbn [orb andb negb].

Lemma decode_1 c r :
  0 <= c < 0x80 -> utf8_decode (chr8 c :: r) = cons c <$> utf8_decode r.
Proof.
  intros. cbn [utf8_decode]. cbv zeta. rewrite !ord_chr8 by lia.
  decide_all_tests. reflexivity.
Qed.

Lemma decode_2 c r :
  0x80 <= c < 0x800 ->
  utf8_decode (chr8 (0xC0 + c / 64) :: chr8 (0x80 + c mod 64) :: r)
  = cons c <$> utf8_decode r.
Proof.
  intros. cbn [utf8_decode]. cbv zeta. rewrite !ord_chr8 by div_lia.
  rewrite !shiftl_6. decide_all_tests; f_equal; f_equal; div_lia.
Qed.

Lemma decode_3 c r :
  0x800 <= c < 0x10000 -> is_surrogate c = false ->
  utf8_decode (chr8 (0xE0 + c / 4096) :: chr8 (0x80 + (c / 64) mod 64)
               :: chr8 (0x80 + c mod 64) :: r)
  = cons c <$> utf8_decode r.
Proof.
  intros Hc Hs. cbn [utf8_decode]. cbv zeta. rewrite !ord_chr8 by div_lia.
  rewrite !shiftl_6, !shiftl_12.
  unfold is_surrogate in Hs. apply andb_false_iff in Hs.
  rewrite !Z.leb_gt in Hs.
  decide_all_tests; f_equal; f_equal; div_lia.
Qed.

Lemma decode_4 c r :
  0x10000 <= c <= 0x10FFFF ->
  utf8_decode (chr8 (0xF0 + c / 262144) :: chr8 (0x80 + (c / 4096) mod 64)
               :: chr8 (0x80 + (c / 64) mod 64) :: chr8 (0x80 + c mod 64)
               :: r)
  = cons c <$> utf8_decode r.
Proof.
  intros Hc. cbn [utf8_decode]. cbv zeta. rewrite !ord_chr8 by div_lia.
  rewrite !shiftl_6, !shiftl_12, !shiftl_18.
  decide_all_tests; f_equal; f_equal; div_lia.
Qed.

(** The encoder accepts a character exactly when it is a scalar value. *)
Lemma encode_char_scalar c :
  is_scalar c -> exists b, utf8_encode_char c = Some b /\
                           forall r, utf8_decode (b ++ r) = cons c <$> utf8_decode r.
Proof.
  intros [[Hlo Hhi] Hs].
  destruct (Z.lt_ge_cases c 0x80); [|destruct (Z.lt_ge_cases c 0x800);
    [|destruct (Z.lt_ge_cases c 0x10000)]].
  - eexists. split; [apply encode_char_1; lia|].
    intros r. apply decode_1. lia.
  - eexists. split; [apply encode_char_2; lia|].
    intros r. apply decode_2. lia.
  - eexists. split; [apply encode_char_3; [lia|exact Hs]|].
    intros r. apply decode_3; [lia|exact Hs].
  - eexists. split; [apply encode_char_4; lia|].
    intros r. apply decode_4. lia.
Qed.

Lemma encode_char_Some c b : utf8_encode_char c = Some b -> is_scalar c.
Proof.
  unfold utf8_encode_char. intros H.
  assert (Hc : is_char c).
  { destruct ((c <? 0) || (0x10FFFF <? c)) eqn:Hr; [discriminate|].
    bool_to_Z. unfold is_char. lia. }
  split; [exact Hc|].
  destruct (is_surrogate c) eqn:Hs; [exfalso|reflexivity].
  unfold is_surrogate in Hs. unfold is_char in Hc. bool_to_Z.
  revert H. decide_tests. discriminate.
Qed.

Lemma utf8_encode_Some (s : pystr) :
  Forall is_scalar s -> exists bs, utf8_encode s = Some bs.
Proof.
  induction 1 as [|c s Hc _ [bs IH]]; [exists []; reflexivity|].
  destruct (encode_char_scalar c Hc) as (b & Hb & _).
  exists (b ++ bs). cbn [utf8_encode]. rewrite Hb, IH. reflexivity.
Qed.

Lemma utf8_encode_decode (s : pystr) (bs : pybytes) :
  utf8_encode s = Some bs -> utf8_decode bs = Some s.
Proof.
  revert bs. induction s as [|c s IH]; intros bs H.
  - inversion H. reflexivity.
  - cbn [utf8_encode] in H.
    destruct (utf8_encode_char c) as [b|] eqn:Hb; [|discriminate].
    destruct (utf8_encode s) as [bs'|] eqn:Hs; [|discriminate].
    injection H as <-.
    destruct (encode_char_scalar c (encode_char_Some c b Hb))
      as (b' & Hb' & Hdec).
    rewrite Hb in Hb'. injection Hb' as <-.
    rewrite Hdec, (IH bs' eq_refl). reflexivity.
Qed.

End Utf8Facts.

(** ** raw_unicode_escape *)

Module RawFacts.
Import BitFacts Codec.

Lemma raw_encode_ord (bs : pybytes) : raw_encode (map ord bs) = bs.
Proof.
  induction bs as [|b bs IH]; [reflexivity|].
  cbn [map raw_encode flat_map]. fold (raw_encode (map ord bs)). rewrite IH.
  unfold raw_encode_char. pose proof (ord_bounds b).
  destruct (Z.ltb_spec (ord b) 0x100); [|lia].
  rewrite chr8_ord. reflexivity.
Qed.

Lemma escape_free_tail c r : escape_free (c :: r) = true -> escape_free r = true.
Proof. cbn [escape_free]. intros H. apply andb_true_iff in H. apply H. Qed.

Lemma raw_decode_escape_free_bounded (n : nat) :
  forall bs : pybytes,
    (length bs <= n)%nat -> escape_free bs = true ->
    raw_decode bs = Some (map ord bs).
Proof.
  induction n as [|n IH]; intros bs Hlen Hfree.
  - destruct bs; [reflexivity|simpl in Hlen; lia].
  - destruct bs as [|c r]; [reflexivity|].
    pose proof (escape_free_tail _ _ Hfree) as Hr.
    cbn [raw_decode].
    destruct (Byte.eqb c backslash) eqn:Hc; cbn [negb].
    + destruct r as [|c2 r2]; [reflexivity|].
      pose proof (escape_free_tail _ _ Hr) as Hr2.
      cbn [escape_free] in Hfree. rewrite Hc in Hfree.
      apply andb_true_iff in Hfree. destruct Hfree as [Hesc _].
      cbn [andb] in Hesc. apply negb_true_iff, orb_false_iff in Hesc.
      destruct Hesc as [-> ->].
      rewrite IH by (simpl in Hlen |- *; first [exact Hr2 | lia]).
      reflexivity.
    + rewrite IH by (simpl in Hlen |- *; first [exact Hr | lia]).
      reflexivity.
Qed.

Lemma raw_decode_escape_free (bs : pybytes) :
  escape_free bs = true -> raw_decode bs = Some (map ord bs).
Proof. apply (raw_decode_escape_free_bounded (length bs)). lia. Qed.

End RawFacts.

(** ** The codec helpers of [Event] *)

Module CodecFacts.
Import Codec CodecSamples.

(** C8, as stated, fails: [decode_bytes] reads the six bytes of
    [escaped_A] as the one character A, which [encode_bytes] writes back
    as a single byte; and [encode] raises on a string holding a lone
    surrogate. *)
Lemma codec_round_trip_fails :
  and_then (Event.decode_bytes (PyBytes escaped_A)) Event.encode_bytes
    = Ok (PyBytes [x41])
  /\ PyBytes [x41] <> PyBytes escaped_A
  /\ and_then (Event.encode (PyStr [0xD800])) Event.decode
    = Raised UnicodeEncodeError.
Proof.
  split; [reflexivity|]. split; [discriminate|reflexivity].
Qed.

(** C8, amended: [encode(decode(b)) == b] for every byte string [b] that
    is valid UTF-8; [decode(encode(s)) == s] for every string [s] without
    surrogate code points; [encode_bytes(decode_bytes(b)) == b] for every
    byte string [b] in which no backslash is directly followed by [u] or
    [U]. *)
Theorem codec_round_trip :
  (forall b : pybytes,
      is_ok (Event.decode (PyBytes b)) = true ->
      and_then (Event.decode (PyBytes b)) Event.encode = Ok (PyBytes b))
  /\ (forall s : pystr,
      Forall is_scalar s ->
      and_then (Event.encode (PyStr s)) Event.decode = Ok (PyStr s))
  /\ (forall b : pybytes,
      escape_free b = true ->
      and_then (Event.decode_bytes (PyBytes b)) Event.encode_bytes
        = Ok (PyBytes b)).
Proof.
  split; [|split].
  - intros b Hok. unfold Event.decode in *.
    destruct (utf8_decode b) as [u|] eqn:Hdec; [|discriminate].
    cbn. rewrite (Utf8Facts.utf8_decode_encode _ _ Hdec). reflexivity.
  - intros s Hs. unfold Event.encode.
    destruct (Utf8Facts.utf8_encode_Some s Hs) as [bs Hbs].
    rewrite Hbs. cbn. rewrite (Utf8Facts.utf8_encode_decode _ _ Hbs).
    reflexivity.
  - intros b Hfree. unfold Event.decode_bytes.
    rewrite (RawFacts.raw_decode_escape_free _ Hfree). cbn.
    rewrite RawFacts.raw_encode_ord. reflexivity.
Qed.

Lemma codec_round_trip_witness :
  and_then (Event.decode (PyBytes [xe2; x82; xac])) Event.encode
    = Ok (PyBytes [xe2; x82; xac])
  /\ and_then (Event.encode (PyStr [0x20AC; 0x41])) Event.decode
    = Ok (PyStr [0x20AC; 0x41])
  /\ and_then (Event.decode_bytes (PyBytes [x5c; x6e; xff]))
       Event.encode_bytes = Ok (PyBytes [x5c; x6e; xff]).
Proof.
  destruct codec_round_trip as (H1 & H2 & H3).
  split; [|split].
  - apply H1. reflexivity.
  - apply H2. repeat constructor; unfold is_char; lia.
  - apply H3. reflexivity.
Defined.

End CodecFacts.

(** ** [Core]: hooks and persistence *)

Module CoreFacts.
Import Shared Core CoreSpec.

(** Runs the monadic code of a method as far as the state allows. *)
Ltac py :=
  cbv [bind ret gets modify raise lift tell log send_packet hashset_buf kill
       hashstr try_except exec outcome hook unhook hook_get hook_set int
       fst snd _host_id _project _binary _snapshot _tick ticks _users
       _session_joined _idb_hooks _idp_hooks _hxe_hooks _ui_hooks _hooked
       local_type_map netnode deferreds trace env
       set_project set_binary set_snapshot set_tick set_ticks set_users
       set_session_joined set_idb_hooks set_idp_hooks set_hxe_hooks
       set_ui_hooks set_hooked set_local_type_map set_netnode set_deferreds
       set_trace set_env negb andb orb implb identifiers_set hooks_created
       orderly_op listed join_packet capture_joined netnode_line
       joining_line SAVED LOADED] in *.

Lemma state_eta (s : state) :
  s = Build_state (_host_id s) (_project s) (_binary s) (_snapshot s)
        (_tick s) (ticks s) (_users s) (_session_joined s) (_idb_hooks s)
        (_idp_hooks s) (_hxe_hooks s) (_ui_hooks s) (_hooked s)
        (local_type_map s) (netnode s) (deferreds s) (trace s) (env s).
Proof. destruct s. reflexivity. Qed.

Lemma for_each_import (e : Env) (ordinals : list Z) :
  forall s : state,
    env s = e ->
    for_each ordinals (fun i =>
      let! t := gets (fun s => ImportLocalType (env s) i) in
      modify (fun s => set_local_type_map (<[i := t]> (local_type_map s)) s)) s
    = (Ok tt, set_local_type_map (imported e (local_type_map s) ordinals) s).
Proof.
  induction ordinals as [|i l IH]; intros s He.
  - cbn. destruct s. reflexivity.
  - cbn [for_each imported foldl]. unfold bind at 1. py.
    rewrite IH by (py; exact He). py. rewrite He. reflexivity.
Qed.

Lemma update_local_types_map_spec (s : state) :
  update_local_types_map s
  = (Ok tt, set_local_type_map
              (imported (env s) (local_type_map s)
                 (seqZ 1 (get_ordinal_count (env s)))) s).
Proof.
  unfold update_local_types_map. unfold bind at 1, gets at 1.
  apply for_each_import. reflexivity.
Qed.

Lemma hook_all_hooked (s : state) :
  _hooked s = true -> hook_all s = (Ok tt, s).
Proof. intros H. unfold hook_all. py. rewrite H. reflexivity. Qed.

Lemma unhook_all_unhooked (s : state) :
  _hooked s = false -> unhook_all s = (Ok tt, s).
Proof. intros H. unfold unhook_all. py. rewrite H. reflexivity. Qed.

Lemma hook_all_spec (s : state) :
  hooks_created s = true -> _hooked s = false ->
  hook_all s = (Ok tt, hooks_installed s).
Proof.
  intros Hc Hh. unfold hook_all, hooks_installed.
  unfold bind at 1, gets at 1. rewrite Hh.
  destruct s as [? ? ? ? ? ? ? ? [?|] [?|] [?|] [?|] ? ? ? ? ? ?];
    try discriminate Hc.
  py. rewrite update_local_types_map_spec. py.
  rewrite <- !app_assoc. reflexivity.
Qed.

Lemma unhook_all_spec (s : state) :
  hooks_created s = true -> _hooked s = true ->
  unhook_all s = (Ok tt, hooks_uninstalled s).
Proof.
  intros Hc Hh. unfold unhook_all, hooks_uninstalled.
  unfold bind at 1, gets at 1. rewrite Hh.
  destruct s as [? ? ? ? ? ? ? ? [?|] [?|] [?|] [?|] ? ? ? ? ? ?];
    try discriminate Hc.
  py. rewrite <- !app_assoc. reflexivity.
Qed.


(** Conditions on which the code branches and that do not reduce. *)
Ltac stuck c :=
  first [ is_var c
        | lazymatch c with
          | truthy _ => idtac
          | (_ =? _)%Z => idtac
          | String.eqb _ _ => idtac
          | py_int _ => idtac
          | connected _ => idtac
          | existsb _ _ => idtac
          end ].

Ltac py_cases :=
  repeat (py;
          match goal with
          | |- context [if ?c then _ else _] => stuck c; destruct c eqn:?
          | |- context [match ?c with Some _ => _ | None => _ end] =>
              stuck c; destruct c eqn:?
          | |- context [match ?c with O => _ | S _ => _ end] =>
              stuck c; destruct c eqn:?
          end);
  py.

(** *** [str] and [int] on integers *)

Import Numeral.

Lemma digits_plain (d : uint) : plain (NilEmpty.string_of_uint d).
Proof.
  induction d; intros c; cbn; try tauto; intros [<-|H]; auto.
Qed.

Lemma digit_not_space c : is_digit c = true -> is_space c = false.
Proof. unfold is_digit, is_space. cbv zeta. lia. Qed.

Lemma digit_not_mark c : is_digit c = true ->
  Ascii.eqb c "_" = false /\ Ascii.eqb c "+" = false /\ Ascii.eqb c "-" = false.
Proof.
  intros H. repeat split; destruct (Ascii.eqb_spec c "_"), (Ascii.eqb_spec c "+"), (Ascii.eqb_spec c "-"); subst; try reflexivity; discriminate H.
Qed.

Lemma plain_cons c s : plain (String c s) -> is_digit c = true /\ plain s.
Proof. intros H. split; [apply H; now left|]. intros x Hx. apply H. now right. Qed.

Lemma lstrip_plain c s : is_space c = false -> lstrip (String c s) = String c s.
Proof. intros H. cbn. now rewrite H. Qed.

Lemma rstrip_plain s : plain s -> rstrip s = s.
Proof.
  induction s as [|c s IH]; [reflexivity|]. intros H.
  apply plain_cons in H as [Hc Hs]. cbn. rewrite (IH Hs).
  destruct s; [|reflexivity]. now rewrite (digit_not_space _ Hc).
Qed.

Lemma ungroup_plain s : plain s -> forall b, ungroup b s = Some s.
Proof.
  induction s as [|c s IH]; [reflexivity|]. intros H b.
  apply plain_cons in H as [Hc Hs]. cbn.
  destruct (digit_not_mark _ Hc) as (-> & _ & _). now rewrite (IH Hs).
Qed.

Lemma unsigned_digits (d : uint) :
  d <> Nil -> unsigned (NilEmpty.string_of_uint d) = Some (Z.of_uint d).
Proof.
  intros H. unfold unsigned. rewrite ungroup_plain by apply digits_plain.
  replace (NilEmpty.string_of_uint d) with (NilZero.string_of_uint d)
    by (destruct d; [contradiction|reflexivity..]).
  now rewrite NilZero.usu.
Qed.

Lemma digits_head (d : uint) :
  d <> Nil -> exists c s, NilEmpty.string_of_uint d = String c s /\ is_digit c = true.
Proof.
  intros H. destruct d; [contradiction|..]; cbn; eexists _, _; split; reflexivity.
Qed.

Lemma py_int_digits (d : uint) :
  d <> Nil ->
  py_int (NilEmpty.string_of_uint d) = Some (Z.of_uint d)
  /\ py_int (String "-" (NilEmpty.string_of_uint d)) = Some (- Z.of_uint d).
Proof.
  intros H. pose proof (unsigned_digits d H) as U.
  pose proof (digits_plain d) as P.
  destruct (digits_head d H) as (c & s & E & Hc).
  unfold py_int. split.
  - rewrite E in *. rewrite lstrip_plain by now apply digit_not_space.
    rewrite rstrip_plain by exact P.
    destruct (digit_not_mark _ Hc) as (_ & -> & ->). exact U.
  - rewrite lstrip_plain by reflexivity.
    assert (R : rstrip (String "-" (NilEmpty.string_of_uint d))
                = String "-" (NilEmpty.string_of_uint d)).
    { cbn [rstrip]. rewrite rstrip_plain by exact P. now rewrite E. }
    rewrite R. cbn [Ascii.eqb Bool.eqb]. now rewrite U.
Qed.

Lemma py_int_str (z : Z) : py_int (py_str z) = Some z.
Proof.
  unfold py_str. destruct z as [|p|p]; [reflexivity|..]; cbn [Z.to_int NilZero.string_of_int].
  - pose proof (Unsigned.to_uint_nonnil p) as N.
    replace (NilZero.string_of_uint (Pos.to_uint p))
      with (NilEmpty.string_of_uint (Pos.to_uint p))
      by (destruct (Pos.to_uint p); [contradiction|reflexivity..]).
    rewrite (proj1 (py_int_digits _ N)). f_equal.
    exact (DecimalZ.of_to (Z.pos p)).
  - pose proof (Unsigned.to_uint_nonnil p) as N.
    replace (NilZero.string_of_uint (Pos.to_uint p))
      with (NilEmpty.string_of_uint (Pos.to_uint p))
      by (destruct (Pos.to_uint p); [contradiction|reflexivity..]).
    rewrite (proj2 (py_int_digits _ N)). f_equal.
    exact (DecimalZ.of_to (Z.neg p)).
Qed.

(** Some spellings that [int] reads, and some that it refuses. *)
Lemma py_int_spellings :
  py_int " 5" = Some 5 /\ py_int "+5" = Some 5 /\ py_int "007" = Some 7
  /\ py_int "1_000" = Some 1000 /\ py_int "-1_0 " = Some (-10)
  /\ py_int "1__0" = None /\ py_int "_1" = None /\ py_int "1_" = None
  /\ py_int "+-5" = None /\ py_int "- 5" = None /\ py_int "0x10" = None
  /\ py_int "-" = None /\ py_int EmptyString = None.
Proof. vm_compute. repeat split; reflexivity. Qed.

Lemma py_str_inj (a b : Z) : py_str a = py_str b -> a = b.
Proof.
  intros H. pose proof (py_int_str a) as Ha. rewrite H, py_int_str in Ha.
  congruence.
Qed.

Lemma or_str_py_str (z : Z) (d : string) : or_str (Some (py_str z)) d = py_str z.
Proof.
  unfold or_str. destruct (String.eqb_spec (py_str z) "") as [E|]; [|reflexivity].
  pose proof (py_int_str z) as H. rewrite E in H. discriminate.
Qed.

Lemma or_None_str (o : option string) : truthy o = true -> Some (str o) = o.
Proof. destruct o; [reflexivity|discriminate]. Qed.

Lemma or_None_truthy (o : option string) : truthy (or_None o) = truthy o.
Proof. unfold or_None. destruct (truthy o) eqn:E; [exact E|reflexivity]. Qed.

Lemma or_None_idem (o : option string) : or_None (or_None o) = or_None o.
Proof. unfold or_None at 1. rewrite or_None_truthy. unfold or_None.
       destruct (truthy o); reflexivity. Qed.

(** *** [save_netnode] *)

Lemma save_netnode_spec (s : state) :
  save_netnode s
  = (Ok tt, set_trace (trace s ++ save_writes s ++ [SAVED s])
              (set_netnode (saved s) s)).
Proof.
  unfold save_netnode, save_writes, saved. destruct s.
  py_cases; rewrite <- ?app_assoc; reflexivity.
Qed.

Lemma project_setter_spec v s :
  project_setter v s = save_netnode (set_project v s).
Proof. reflexivity. Qed.

Lemma binary_setter_spec v s :
  binary_setter v s = save_netnode (set_binary v s).
Proof. reflexivity. Qed.

Lemma snapshot_setter_spec v s :
  snapshot_setter v s = save_netnode (set_snapshot v s).
Proof. reflexivity. Qed.

(** The netnode entry of key [k] after [save_netnode]. *)
Lemma saved_lookup (s : state) (k : string) :
  saved s !! k =
    if String.eqb k "tick" then
      if _tick s =? -1 then netnode s !! k else Some (py_str (_tick s))
    else if String.eqb k "snapshot" then
      if truthy (_snapshot s) then _snapshot s else netnode s !! k
    else if String.eqb k "binary" then
      if truthy (_binary s) then _binary s else netnode s !! k
    else if String.eqb k "project" then
      if truthy (_project s) then _project s else netnode s !! k
    else netnode s !! k.
Proof.
  unfold saved.
  destruct (String.eqb_spec k "tick") as [->|Ht].
  { destruct (_tick s =? -1); cbn [negb].
    - destruct (truthy (_snapshot s)), (truthy (_binary s)),
        (truthy (_project s)); rewrite ?lookup_insert_ne by discriminate;
        reflexivity.
    - apply lookup_insert_eq. }
  assert (Hskip : forall m : gmap string string,
             (if negb (_tick s =? -1) then <["tick" := py_str (_tick s)]> m else m) !! k
             = m !! k).
  { intros m. destruct (negb (_tick s =? -1)); [|reflexivity].
    apply lookup_insert_ne. congruence. }
  rewrite Hskip. clear Hskip.
  destruct (String.eqb_spec k "snapshot") as [->|Hs].
  { destruct (truthy (_snapshot s)) eqn:E.
    - rewrite lookup_insert_eq. apply or_None_str, E.
    - destruct (truthy (_binary s)), (truthy (_project s));
        rewrite ?lookup_insert_ne by discriminate; reflexivity. }
  destruct (String.eqb_spec k "binary") as [->|Hb].
  { destruct (truthy (_snapshot s));
      rewrite ?lookup_insert_ne by discriminate.
    all: destruct (truthy (_binary s)) eqn:E.
    all: rewrite ?lookup_insert_eq; try (apply or_None_str, E).
    all: destruct (truthy (_project s));
      rewrite ?lookup_insert_ne by discriminate; reflexivity. }
  destruct (String.eqb_spec k "project") as [->|Hp].
  { destruct (truthy (_snapshot s)), (truthy (_binary s));
      rewrite ?lookup_insert_ne by discriminate.
    all: destruct (truthy (_project s)) eqn:E.
    all: rewrite ?lookup_insert_eq; try (apply or_None_str, E); reflexivity. }
  destruct (truthy (_snapshot s)), (truthy (_binary s)), (truthy (_project s));
    rewrite ?lookup_insert_ne by congruence; reflexivity.
Qed.


(** *** [load_netnode] *)

Lemma load_netnode_normal (s : state) (t : Z) :
  truthy (netnode s !! "database") = false ->
  py_int (tick_text s) = Some t ->
  load_netnode s
  = (Ok tt, set_trace (trace s ++ [LOADED (loaded s t)]) (loaded s t)).
Proof.
  intros Hd Ht. unfold load_netnode, loaded, tick_text in *.
  destruct s. py. rewrite Hd. py. rewrite Ht. reflexivity.
Qed.

Lemma load_netnode_legacy (s : state) (t : Z) :
  truthy (netnode s !! "database") = true ->
  py_int (tick_text s) = Some t ->
  load_netnode s
  = (Ok tt,
     let s1 := set_netnode ∅ (loaded_old s t) in
     set_trace
       (trace s
        ++ [Log WARNING "Old idb detected, please save your idb as a new snapshot";
            Kill] ++ save_writes s1 ++ [SAVED s1; LOADED s1])
       (set_netnode (saved s1) s1)).
Proof.
  intros Hd Ht. unfold load_netnode, load_netnode_old, loaded_old,
    tick_text in *.
  destruct s. py. rewrite Hd. py. rewrite Ht.
  rewrite save_netnode_spec. py.
  rewrite <- !app_assoc. reflexivity.
Qed.


(** *** Joining and leaving *)

Lemma leave_session_not_joined (s : state) :
  _session_joined s = false ->
  leave_session s
  = (Ok tt, set_trace (trace s ++ [Log DEBUG "Already left session"]) s).
Proof.
  intros H. unfold leave_session. destruct s. py. rewrite H. reflexivity.
Qed.

Lemma leave_session_unset (s : state) :
  _session_joined s = true -> identifiers_set s = false ->
  leave_session s
  = (Ok tt, set_session_joined false
              (set_trace (trace s ++ [Log DEBUG "Leaving session"]) s)).
Proof.
  intros Hj Hi. unfold leave_session. destruct s. py. rewrite Hj.
  py_cases; try discriminate; reflexivity.
Qed.

Lemma leave_session_joined (s : state) :
  _session_joined s = true -> identifiers_set s = true ->
  hooks_created s = true ->
  leave_session s = (Ok tt, parted s).
Proof.
  intros Hj Hi Hc. unfold leave_session, parted, unhook_all, hooks_uninstalled.
  destruct s as [? ? ? ? ? ? ? ? [?|] [?|] [?|] [?|] ? ? ? ? ? ?];
    try discriminate Hc.
  py. rewrite Hj.
  py_cases; try discriminate; rewrite <- ?app_assoc; reflexivity.
Qed.

Lemma join_session_set (s : state) :
  identifiers_set s = true ->
  join_session s
  = (Ok tt,
     let s1 :=
       set_trace
         (trace s
          ++ [if _session_joined s then Log DEBUG "Joining a new session"
              else Log INFO (joining_line s);
              SendPacket (ListSnapshots_Query (_project s) (_binary s))]) s in
     if connected (env s) then set_deferreds (S (deferreds s)) s1 else s1).
Proof.
  intros Hi. unfold join_session. destruct s.
  py_cases; try discriminate; rewrite <- ?app_assoc; reflexivity.
Qed.

Lemma join_session_unset (s : state) :
  identifiers_set s = false ->
  join_session s
  = (Ok tt, set_session_joined false
              (set_trace (trace s ++ [Log DEBUG "Not joining any session yet"]) s)).
Proof.
  intros Hi. unfold join_session. destruct s.
  py_cases; try discriminate; reflexivity.
Qed.

Lemma snapshots_listed_absent (s : state) (snapshots : list Snapshot) :
  listed s snapshots = false ->
  snapshots_listed snapshots s
  = (Ok tt, set_trace (trace s ++ [Log DEBUG "Snapshot is not on the server"]) s).
Proof.
  intros H. unfold snapshots_listed. destruct s. py. rewrite H. reflexivity.
Qed.

Lemma snapshots_listed_present (s : state) (snapshots : list Snapshot) :
  listed s snapshots = true -> hooks_created s = true ->
  snapshots_listed snapshots s = (Ok tt, joined s).
Proof.
  intros H Hc. unfold snapshots_listed, joined.
  destruct (_hooked s) eqn:Hh.
  - destruct s. py. rewrite H. rewrite hook_all_hooked by exact Hh.
    rewrite <- ?app_assoc. reflexivity.
  - destruct s. py. rewrite H. rewrite hook_all_spec; [|exact Hc|exact Hh].
    unfold hooks_installed. py. rewrite <- ?app_assoc. reflexivity.
Qed.

Lemma reply_received_spec (s : state) (n : nat) (snapshots : list Snapshot) :
  deferreds s = S n ->
  reply_received snapshots s
  = try_except (snapshots_listed snapshots)
      (fun _ => log EXCEPTION "snapshots_listed") (set_deferreds n s).
Proof.
  intros H. unfold reply_received. unfold bind at 1, gets at 1. rewrite H.
  reflexivity.
Qed.

End CoreFacts.

(** ** [Core]: the session protocol *)

Module SessionFacts.
Import Shared Core CoreSpec CoreFacts.

Lemma packets_sent_app (a b : list effect) :
  packets_sent (a ++ b) = packets_sent a ++ packets_sent b.
Proof. apply flat_map_app. Qed.




End SessionFacts.

Module HookFacts.
Import Shared Core CoreSpec CoreFacts.

Lemma bind_raised {S A B} (m : M S A) (k : A -> M S B) s e s' :
  m s = (Raised e, s') -> bind m k s = (Raised e, s').
Proof. intros H. unfold bind. rewrite H. reflexivity. Qed.

Lemma bind_ok {S A B} (m : M S A) (k : A -> M S B) s a s' :
  m s = (Ok a, s') -> bind m k s = k a s'.
Proof. intros H. unfold bind. rewrite H. reflexivity. Qed.

Lemma hook_all_cases (s : state) :
  (exists s', hook_all s = (Ok tt, s') /\ _hooked s' = true)
  \/ (exists e s', hook_all s = (Raised e, s')).
Proof.
  destruct (_hooked s) eqn:Hh.
  - left. exists s. split; [apply hook_all_hooked, Hh|exact Hh].
  - destruct (hooks_created s) eqn:Hc.
    + left. exists (hooks_installed s).
      split; [apply hook_all_spec; assumption|reflexivity].
    + right. unfold hook_all. unfold bind at 1, gets at 1. rewrite Hh.
      destruct s as [? ? ? ? ? ? ? ? [?|] [?|] [?|] [?|] ? ? ? ? ? ?];
        try discriminate Hc; py; eauto.
Qed.

Lemma unhook_all_cases (s : state) :
  (exists s', unhook_all s = (Ok tt, s') /\ _hooked s' = false)
  \/ (exists e s', unhook_all s = (Raised e, s')).
Proof.
  destruct (_hooked s) eqn:Hh.
  - destruct (hooks_created s) eqn:Hc.
    + left. exists (hooks_uninstalled s).
      split; [apply unhook_all_spec; assumption|reflexivity].
    + right. unfold unhook_all. unfold bind at 1, gets at 1. rewrite Hh.
      destruct s as [? ? ? ? ? ? ? ? [?|] [?|] [?|] [?|] ? ? ? ? ? ?];
        try discriminate Hc; py; eauto.
  - left. exists s. split; [apply unhook_all_unhooked, Hh|exact Hh].
Qed.

(** C9. [hook_all] on installed hooks and [unhook_all] on uninstalled
    hooks do nothing: the state, trace included, is returned as it was.
    Hence enabling twice is enabling once and disabling twice is disabling
    once, from any state. *)
Theorem hook_all_idempotent (s : state) :
  (_hooked s = true -> hook_all s = (Ok tt, s))
  /\ (_hooked s = false -> unhook_all s = (Ok tt, s))
  /\ (hook_all ;; hook_all) s = hook_all s
  /\ (unhook_all ;; unhook_all) s = unhook_all s.
Proof.
  split; [apply hook_all_hooked|]. split; [apply unhook_all_unhooked|].
  split.
  - destruct (hook_all_cases s) as [(s' & H & Hh)|(e & s' & H)].
    + rewrite (bind_ok _ _ _ _ _ H), H. apply hook_all_hooked, Hh.
    + rewrite (bind_raised _ _ _ _ _ H), H. reflexivity.
  - destruct (unhook_all_cases s) as [(s' & H & Hh)|(e & s' & H)].
    + rewrite (bind_ok _ _ _ _ _ H), H. apply unhook_all_unhooked, Hh.
    + rewrite (bind_raised _ _ _ _ _ H), H. reflexivity.
Qed.

End HookFacts.

(** ** [Core]: the netnode *)

Module NetnodeFacts.
Import Shared Core CoreSpec CoreFacts Samples.

Lemma netnode_writes_app (a b : list effect) :
  netnode_writes (a ++ b) = netnode_writes a ++ netnode_writes b.
Proof. apply flat_map_app. Qed.

Lemma netnode_writes_save (s : state) :
  netnode_writes (save_writes s) = save_writes s.
Proof.
  unfold save_writes.
  destruct (truthy (_project s)), (truthy (_binary s)),
    (truthy (_snapshot s)), (negb (_tick s =? -1)); reflexivity.
Qed.

Lemma truthy_or_None_lookup (o : option string) :
  (if truthy (or_None o) then or_None o else None) = or_None o.
Proof.
  rewrite or_None_truthy. unfold or_None. destruct (truthy o); reflexivity.
Qed.

Lemma load_in_sync (s : state) (t : Z) :
  in_sync s -> py_int (tick_text s) = Some t ->
  let s' := exec load_netnode s in
  in_sync s' /\ tick_text s' = tick_text s
  /\ _project s' = _project s /\ _binary s' = _binary s
  /\ _snapshot s' = _snapshot s /\ _tick s' = t
  /\ netnode s' = netnode s
  /\ netnode_writes (trace s') = netnode_writes (trace s).
Proof.
  intros (Hd & Hp & Hb & Hs) Ht s'. subst s'. unfold exec.
  rewrite (load_netnode_normal s t); [|rewrite Hd; reflexivity|exact Ht].
  unfold loaded, in_sync, tick_text. destruct s. py.
  rewrite netnode_writes_app, app_nil_r, Hp, Hb, Hs.
  repeat split; try reflexivity; assumption.
Qed.

Lemma loads_in_sync (m : nat) (s : state) (t : Z) :
  in_sync s -> py_int (tick_text s) = Some t ->
  let sm := Nat.iter m (exec load_netnode) s in
  in_sync sm /\ tick_text sm = tick_text s
  /\ _project sm = _project s /\ _binary sm = _binary s
  /\ _snapshot sm = _snapshot s
  /\ _tick sm = match m with O => _tick s | S _ => t end
  /\ netnode sm = netnode s
  /\ netnode_writes (trace sm) = netnode_writes (trace s).
Proof.
  intros Hsync Ht. induction m as [|m IH]; [cbn; tauto|].
  cbv zeta in IH |- *. rewrite Nat.iter_succ.
  destruct IH as (H1 & H2 & H3 & H4 & H5 & _ & H7 & H8).
  destruct (load_in_sync (Nat.iter m (exec load_netnode) s) t H1)
    as (G1 & G2 & G3 & G4 & G5 & G6 & G7 & G8); [congruence|].
  split; [exact G1|]. repeat split; congruence.
Qed.

(** C2. A netnode in the legacy layout (a non-empty ["database"] entry) is
    migrated by [load_netnode]: group, project and database become project,
    binary and snapshot, the tick is read, the old netnode is killed and
    the values are written once under the new keys; every later load reads
    the new keys, yields the same identifiers and writes nothing. *)
Theorem legacy_migration (s : state) (t : Z) :
  truthy (netnode s !! "database") = true ->
  py_int (tick_text s) = Some t ->
  let s' := exec load_netnode s in
  outcome load_netnode s = Ok tt
  /\ _project s' = or_None (netnode s !! "group")
  /\ _binary s' = or_None (netnode s !! "project")
  /\ _snapshot s' = or_None (netnode s !! "database")
  /\ _tick s' = t
  /\ netnode_writes (trace s')
     = netnode_writes (trace s) ++ Kill :: save_writes s'
  /\ netnode s' !! "project" = _project s'
  /\ netnode s' !! "binary" = _binary s'
  /\ netnode s' !! "snapshot" = _snapshot s'
  /\ netnode s' !! "tick" = (if t =? -1 then None else Some (py_str t))
  /\ netnode s' !! "group" = None
  /\ netnode s' !! "database" = None
  /\ forall m : nat,
       let sm := Nat.iter m (exec load_netnode) s' in
       _project sm = _project s' /\ _binary sm = _binary s'
       /\ _snapshot sm = _snapshot s'
       /\ _tick sm = match m with
                     | O => t
                     | S _ => if t =? -1 then 0 else t
                     end
       /\ netnode sm = netnode s'
       /\ netnode_writes (trace sm) = netnode_writes (trace s').
Proof.
  intros Hd Ht s'.
  assert (Hs' : load_netnode s
                = (Ok tt,
                   let s1 := set_netnode ∅ (loaded_old s t) in
                   set_trace
                     (trace s
                      ++ [Log WARNING "Old idb detected, please save your idb as a new snapshot";
                          Kill] ++ save_writes s1 ++ [SAVED s1; LOADED s1])
                     (set_netnode (saved s1) s1)))
    by (apply load_netnode_legacy; assumption).
  cbv zeta in Hs'.
  assert (Hlook : forall k, netnode s' !! k
                            = saved (set_netnode ∅ (loaded_old s t)) !! k).
  { intros k. subst s'. unfold exec. rewrite Hs'. reflexivity. }
  assert (Hp : _project s' = or_None (netnode s !! "group"))
    by (subst s'; unfold exec; rewrite Hs'; reflexivity).
  assert (Hb : _binary s' = or_None (netnode s !! "project"))
    by (subst s'; unfold exec; rewrite Hs'; reflexivity).
  assert (Hn : _snapshot s' = or_None (netnode s !! "database"))
    by (subst s'; unfold exec; rewrite Hs'; reflexivity).
  assert (Htk : _tick s' = t)
    by (subst s'; unfold exec; rewrite Hs'; reflexivity).
  assert (L1 : netnode s' !! "project" = _project s').
  { rewrite Hlook, saved_lookup, Hp. cbn.
    rewrite lookup_empty. apply truthy_or_None_lookup. }
  assert (L2 : netnode s' !! "binary" = _binary s').
  { rewrite Hlook, saved_lookup, Hb. cbn.
    rewrite lookup_empty. apply truthy_or_None_lookup. }
  assert (L3 : netnode s' !! "snapshot" = _snapshot s').
  { rewrite Hlook, saved_lookup, Hn. cbn.
    rewrite lookup_empty. apply truthy_or_None_lookup. }
  assert (L4 : netnode s' !! "tick" = (if t =? -1 then None else Some (py_str t))).
  { rewrite Hlook, saved_lookup. cbn. rewrite lookup_empty. reflexivity. }
  assert (L5 : netnode s' !! "group" = None).
  { rewrite Hlook, saved_lookup. cbn. apply lookup_empty. }
  assert (L6 : netnode s' !! "database" = None).
  { rewrite Hlook, saved_lookup. cbn. apply lookup_empty. }
  split; [unfold outcome; rewrite Hs'; reflexivity|].
  do 4 (split; [assumption|]).
  split.
  { assert (Htr : trace s'
                  = trace s
                    ++ [Log WARNING "Old idb detected, please save your idb as a new snapshot";
                        Kill] ++ save_writes s' ++ [SAVED s'; LOADED s'])
      by (subst s'; unfold exec; rewrite Hs'; reflexivity).
    rewrite Htr, !netnode_writes_app, netnode_writes_save.
    cbn [netnode_writes flat_map SAVED LOADED app].
    rewrite app_nil_r. reflexivity. }
  do 6 (split; [assumption|]).
  intros m.
  assert (Hsync : in_sync s').
  { unfold in_sync. rewrite L1, L2, L3, L6, Hp, Hb, Hn, !or_None_idem.
    tauto. }
  assert (Ht' : py_int (tick_text s') = Some (if t =? -1 then 0 else t)).
  { unfold tick_text. rewrite L4. destruct (t =? -1); [reflexivity|].
    rewrite or_str_py_str. apply py_int_str. }
  destruct (loads_in_sync m s' _ Hsync Ht')
    as (_ & _ & H3 & H4 & H5 & H6 & H7 & H8).
  rewrite Htk in H6. cbv zeta. repeat split; assumption.
Qed.

Lemma legacy_migration_witness :
  let s := installed "10.0.0.1" legacy_node some_env in
  let s' := exec load_netnode s in
  _project s' = Some "g" /\ _binary s' = Some "p" /\ _snapshot s' = Some "d"
  /\ _tick s' = 5
  /\ netnode_writes (trace s')
     = [Kill; HashsetBuf "project" "g"; HashsetBuf "binary" "p";
        HashsetBuf "snapshot" "d"; HashsetBuf "tick" "5"]
  /\ netnode s' !! "database" = None
  /\ _tick (Nat.iter 3 (exec load_netnode) s') = 5.
Proof.
  intros s s'.
  destruct (legacy_migration s 5) as
    (_ & H2 & H3 & H4 & H5 & H6 & _ & _ & _ & _ & _ & H12 & H13);
    [reflexivity|reflexivity|].
  destruct (H13 3%nat) as (_ & _ & _ & H14 & _).
  repeat split; assumption.
Defined.

End NetnodeFacts.

Module SaveFacts.
Import Shared Core CoreSpec CoreFacts.

Lemma save_writes_In (s : state) (k v : string) :
  In (HashsetBuf k v) (save_writes s) ->
  (k = "project" /\ truthy (_project s) = true /\ Some v = _project s)
  \/ (k = "binary" /\ truthy (_binary s) = true /\ Some v = _binary s)
  \/ (k = "snapshot" /\ truthy (_snapshot s) = true /\ Some v = _snapshot s)
  \/ (k = "tick" /\ _tick s <> -1 /\ v = py_str (_tick s)).
Proof.
  unfold save_writes. rewrite !in_app_iff.
  intros [H|[H|[H|H]]].
  - destruct (truthy (_project s)) eqn:E; [|destruct H].
    destruct H as [[= <- <-]|[]]. left.
    rewrite or_None_str by exact E. auto.
  - destruct (truthy (_binary s)) eqn:E; [|destruct H].
    destruct H as [[= <- <-]|[]]. right. left.
    rewrite or_None_str by exact E. auto.
  - destruct (truthy (_snapshot s)) eqn:E; [|destruct H].
    destruct H as [[= <- <-]|[]]. right. right. left.
    rewrite or_None_str by exact E. auto.
  - destruct (Z.eqb_spec (_tick s) (-1)) as [E|E]; [destruct H|].
    destruct H as [[= <- <-]|[]]. right. right. right. auto.
Qed.

Lemma saved_unset_key (s : state) :
  saved (set_project None s) !! "project" = netnode s !! "project"
  /\ saved (set_binary None s) !! "binary" = netnode s !! "binary"
  /\ saved (set_snapshot None s) !! "snapshot" = netnode s !! "snapshot".
Proof. rewrite !saved_lookup. repeat split; reflexivity. Qed.

(** C10. [save_netnode] writes a key only when the attribute behind it is
    set: an identifier that is [None] or empty, and the tick while it is
    the sentinel -1, are skipped, and the value stored under the skipped
    key stays what it was. Assigning [None] to an identifier therefore
    leaves its stored key alone, and the text ["-1"] is never written as
    the tick. *)
Theorem save_netnode_frame (s : state) :
  let s' := exec save_netnode s in
  outcome save_netnode s = Ok tt
  /\ trace s' = trace s ++ save_writes s ++ [SAVED s]
  /\ (forall k v, In (HashsetBuf k v) (save_writes s) ->
        (k = "project" /\ truthy (_project s) = true /\ Some v = _project s)
        \/ (k = "binary" /\ truthy (_binary s) = true /\ Some v = _binary s)
        \/ (k = "snapshot" /\ truthy (_snapshot s) = true
            /\ Some v = _snapshot s)
        \/ (k = "tick" /\ _tick s <> -1 /\ v = py_str (_tick s)))
  /\ ~ In Kill (save_writes s)
  /\ (truthy (_project s) = false ->
      netnode s' !! "project" = netnode s !! "project")
  /\ (truthy (_binary s) = false ->
      netnode s' !! "binary" = netnode s !! "binary")
  /\ (truthy (_snapshot s) = false ->
      netnode s' !! "snapshot" = netnode s !! "snapshot")
  /\ (_tick s = -1 -> netnode s' !! "tick" = netnode s !! "tick")
  /\ ~ In (HashsetBuf "tick" "-1") (save_writes s)
  /\ (netnode s' !! "tick" = Some "-1" -> netnode s !! "tick" = Some "-1")
  /\ netnode (exec (project_setter None) s) !! "project"
     = netnode s !! "project"
  /\ netnode (exec (binary_setter None) s) !! "binary"
     = netnode s !! "binary"
  /\ netnode (exec (snapshot_setter None) s) !! "snapshot"
     = netnode s !! "snapshot".
Proof.
  intros s'.
  assert (Hn : forall k, netnode s' !! k = saved s !! k).
  { intros k. subst s'. unfold exec. rewrite save_netnode_spec. reflexivity. }
  split; [unfold outcome; rewrite save_netnode_spec; reflexivity|].
  split; [subst s'; unfold exec; rewrite save_netnode_spec; reflexivity|].
  split; [apply save_writes_In|].
  split.
  { intros H. unfold save_writes in H. rewrite !in_app_iff in H.
    destruct (truthy (_project s)), (truthy (_binary s)),
      (truthy (_snapshot s)), (negb (_tick s =? -1));
      cbn in H; intuition discriminate. }
  split; [intros E; rewrite Hn, saved_lookup, E; reflexivity|].
  split; [intros E; rewrite Hn, saved_lookup, E; reflexivity|].
  split; [intros E; rewrite Hn, saved_lookup, E; reflexivity|].
  split; [intros E; rewrite Hn, saved_lookup, E; reflexivity|].
  split.
  { intros H. apply save_writes_In in H.
    destruct H as [(H & _)|[(H & _)|[(H & _)|(_ & Hne & Hv)]]];
      try discriminate H.
    change "-1" with (py_str (-1)) in Hv. apply py_str_inj in Hv. lia. }
  split.
  { rewrite Hn, saved_lookup. cbn [String.eqb Ascii.eqb Bool.eqb].
    destruct (Z.eqb_spec (_tick s) (-1)) as [E|E]; [tauto|].
    intros [= Hv]. change "-1" with (py_str (-1)) in Hv.
    apply py_str_inj in Hv. lia. }
  unfold exec. rewrite project_setter_spec, binary_setter_spec,
    snapshot_setter_spec, !save_netnode_spec.
  cbn [snd]. apply (saved_unset_key s).
Qed.

End SaveFacts.

Module CloseFacts.
Import Shared Core CoreSpec CoreFacts SessionFacts HookFacts.

Lemma save_netnode_total (s : state) :
  save_netnode s = (Ok tt, exec save_netnode s).
Proof. unfold exec. rewrite save_netnode_spec. reflexivity. Qed.

Lemma packets_sent_save (s : state) : packets_sent (save_writes s) = [].
Proof.
  unfold save_writes.
  destruct (truthy (_project s)), (truthy (_binary s)),
    (truthy (_snapshot s)), (negb (_tick s =? -1)); reflexivity.
Qed.

Lemma closebase_after_leave (s s1 : state) :
  leave_session (set_trace (trace s ++ [Log TRACE "Closebase hook"]) s)
    = (Ok tt, s1) ->
  closebase s = (Ok 0, closed s1).
Proof.
  intros H. unfold closebase, closed.
  rewrite (bind_ok (log TRACE "Closebase hook") _ s tt
             (set_trace (trace s ++ [Log TRACE "Closebase hook"]) s))
    by reflexivity.
  rewrite (bind_ok _ _ _ _ _ H).
  rewrite (bind_ok _ _ _ _ _ (save_netnode_total s1)).
  unfold project_setter, binary_setter, snapshot_setter.
  unfold bind, modify, ret, exec. rewrite !save_netnode_spec. reflexivity.
Qed.

Lemma closed_fields (s1 : state) :
  _session_joined (closed s1) = _session_joined s1
  /\ _users (closed s1) = _users s1
  /\ _hooked (closed s1) = _hooked s1
  /\ _project (closed s1) = None
  /\ _binary (closed s1) = None
  /\ _snapshot (closed s1) = None
  /\ _tick (closed s1) = _tick s1
  /\ ticks (closed s1) = Some 0
  /\ packets_sent (trace (closed s1)) = packets_sent (trace s1)
  /\ netnode (closed s1) = saved s1.
Proof.
  unfold closed, project_setter, binary_setter, snapshot_setter, exec.
  unfold bind, modify. rewrite !save_netnode_spec. cbn [snd].
  do 8 (split; [reflexivity|]).
  split.
  - destruct s1. py.
    rewrite !packets_sent_app, !packets_sent_save. cbn.
    rewrite !app_nil_r. reflexivity.
  - apply map_eq. intros k. destruct s1. py.
    repeat (rewrite saved_lookup; py; cbn [truthy]).
    repeat match goal with
           | |- context [if ?c then _ else _] => destruct c eqn:?
           end; reflexivity.
Qed.

End CloseFacts.

(** ** [Core]: capture and the session flag *)

Module InvariantFacts.
Import Shared Core CoreSpec CoreFacts SessionFacts HookFacts CloseFacts.

Lemma run_pair {S A} (m : M S A) (s : S) : m s = (outcome m s, exec m s).
Proof. unfold outcome, exec. destruct (m s). reflexivity. Qed.

Lemma hook_all_raises (s : state) :
  _hooked s = false -> hooks_created s = false ->
  exists s', hook_all s = (Raised AttributeError, s')
             /\ _session_joined s' = _session_joined s
             /\ _hooked s' = false.
Proof.
  intros Hh Hc. unfold hook_all. unfold bind at 1, gets at 1. rewrite Hh.
  destruct s as [? ? ? ? ? ? ? ? [?|] [?|] [?|] [?|] ? ? ? ? ? ?];
    try discriminate Hc; py;
    (eexists; split; [reflexivity|]; split; [reflexivity|exact Hh]).
Qed.

Lemma hook_all_frame (s : state) :
  _session_joined (exec hook_all s) = _session_joined s
  /\ (is_ok (outcome hook_all s) = false -> _hooked (exec hook_all s) = _hooked s).
Proof.
  destruct (_hooked s) eqn:Hh.
  - unfold exec, outcome. rewrite hook_all_hooked by exact Hh. auto.
  - destruct (hooks_created s) eqn:Hc.
    + unfold exec, outcome. rewrite hook_all_spec by assumption.
      split; [reflexivity|discriminate].
    + destruct (hook_all_raises s Hh Hc) as (s' & H & Hj & Hh').
      unfold exec, outcome. rewrite H. cbn [fst snd]. split; [exact Hj|].
      intros _. exact Hh'.
Qed.

Lemma load_netnode_inv (s : state) :
  capture_joined (exec load_netnode s) = capture_joined s.
Proof.
  unfold load_netnode, load_netnode_old, save_netnode. destruct s.
  py_cases; first [reflexivity | discriminate].
Qed.

Lemma save_netnode_inv (s : state) :
  capture_joined (exec save_netnode s) = capture_joined s.
Proof. unfold exec. rewrite save_netnode_spec. reflexivity. Qed.

Lemma join_session_inv (s : state) :
  capture_joined s = true -> orderly_op s Join = true ->
  capture_joined (exec join_session s) = true.
Proof.
  unfold join_session. destruct s. py_cases; try discriminate; auto.
Qed.

Lemma leave_session_inv (s : state) :
  capture_joined s = true -> orderly_op s Leave = true ->
  capture_joined (exec leave_session s) = true.
Proof.
  unfold leave_session, unhook_all.
  destruct s as [? ? ? ? ? ? ? ? [?|] [?|] [?|] [?|] ? ? ? ? ? ?].
  all: py_cases; try discriminate; auto.
Qed.

Lemma snapshots_listed_factored (s : state) (snapshots : list Snapshot) :
  listed s snapshots = true ->
  snapshots_listed snapshots s
  = (hook_all ;; modify (set_users ∅))
      (set_session_joined true
         (set_trace (trace s ++ [Log DEBUG "Snapshot is on the server";
                                 SendPacket (join_packet s)]) s)).
Proof.
  intros Hl. unfold snapshots_listed. destruct s. py. rewrite Hl.
  rewrite <- app_assoc. reflexivity.
Qed.

Lemma snapshots_listed_inv (s : state) (snapshots : list Snapshot) :
  capture_joined s = true ->
  capture_joined (exec (snapshots_listed snapshots) s) = true.
Proof.
  intros Hinv. destruct (listed s snapshots) eqn:Hl.
  - unfold exec. rewrite snapshots_listed_factored by exact Hl.
    set (s1 := set_session_joined true _).
    destruct (hook_all_frame s1) as [Hj _].
    unfold bind. rewrite (run_pair hook_all s1).
    destruct (outcome hook_all s1) as [[]|e]; unfold modify; cbn [fst snd];
      unfold capture_joined; cbn [set_users _hooked _session_joined];
      rewrite Hj; apply implb_true_r.
  - unfold exec. rewrite snapshots_listed_absent by exact Hl. exact Hinv.
Qed.

Lemma reply_received_inv (s : state) (snapshots : list Snapshot) :
  capture_joined s = true ->
  capture_joined (exec (reply_received snapshots) s) = true.
Proof.
  intros Hinv. destruct (deferreds s) as [|n] eqn:Hd.
  - unfold reply_received, exec. unfold bind at 1, gets at 1. rewrite Hd.
    exact Hinv.
  - unfold exec. rewrite (reply_received_spec s n) by exact Hd.
    unfold try_except.
    pose proof (snapshots_listed_inv (set_deferreds n s) snapshots Hinv)
      as H1.
    rewrite (run_pair (snapshots_listed snapshots) (set_deferreds n s)).
    destruct (outcome (snapshots_listed snapshots) (set_deferreds n s)).
    + exact H1.
    + exact H1.
Qed.

Lemma closebase_inv (s : state) :
  capture_joined s = true -> orderly_op s Close = true ->
  capture_joined (exec closebase s) = true.
Proof.
  intros Hinv Ho.
  set (s0 := set_trace (trace s ++ [Log TRACE "Closebase hook"]) s).
  pose proof (leave_session_inv s0 Hinv Ho) as Hl.
  pose proof (run_pair leave_session s0) as Hp.
  destruct (outcome leave_session s0) as [[]|e].
  - unfold exec at 1. rewrite (closebase_after_leave s _ Hp). cbn [snd].
    destruct (closed_fields (exec leave_session s0))
      as (Hj & _ & Hh & _).
    unfold capture_joined in *. rewrite Hj, Hh. exact Hl.
  - unfold exec at 1, closebase.
    rewrite (bind_ok (log TRACE "Closebase hook") _ s tt s0) by reflexivity.
    rewrite (bind_raised _ _ _ _ _ Hp). exact Hl.
Qed.

Lemma step_inv (s : state) (o : op) :
  capture_joined s = true -> orderly_op s o = true ->
  capture_joined (step s o) = true.
Proof.
  intros Hinv Ho. unfold step. destruct o; cbn [run].
  - rewrite load_netnode_inv. exact Hinv.
  - apply join_session_inv; assumption.
  - apply reply_received_inv; assumption.
  - apply leave_session_inv; assumption.
  - pose proof (closebase_inv s Hinv Ho) as Hc.
    pose proof (run_pair closebase s) as Hp. unfold exec at 1, bind.
    rewrite Hp. destruct (outcome closebase s); exact Hc.
  - unfold exec. rewrite project_setter_spec, save_netnode_spec. exact Hinv.
  - unfold exec. rewrite binary_setter_spec, save_netnode_spec. exact Hinv.
  - unfold exec. rewrite snapshot_setter_spec, save_netnode_spec. exact Hinv.
  - exact Hinv.
Qed.

Lemma steps_inv (os : list op) :
  forall s : state,
    capture_joined s = true -> orderly s os = true ->
    capture_joined (steps s os) = true.
Proof.
  induction os as [|o os IH]; intros s Hinv Ho; [exact Hinv|].
  cbn [orderly] in Ho. apply andb_true_iff in Ho. destruct Ho as [Ho Hos].
  unfold steps. cbn [foldl]. apply IH; [|exact Hos].
  apply step_inv; assumption.
Qed.

End InvariantFacts.

Module TeardownFacts.
Import Shared Core CoreSpec CoreFacts SessionFacts HookFacts CloseFacts.
Import InvariantFacts Samples.

(** C3, as stated, fails: a core that joined its session, had its project
    identifier cleared through the setter and then left the session keeps
    its hooks installed while no session is joined. *)
Lemma capture_while_unjoined :
  let s := steps in_session [SetProject None; Leave] in
  _hooked s = true /\ _session_joined s = false.
Proof. vm_compute. split; reflexivity. Qed.

(** C3, amended: in every state reached from a freshly installed core by
    session operations, as long as [join_session], [leave_session] and the
    [closebase] handler are never run while a session is joined and one of
    the three identifiers is unset, installed hooks imply a joined session.
    ([leave_session] uninstalls the hooks only under its guard on the three
    identifiers, and the not-joinable branch of [join_session] clears the
    flag without touching the hooks.) *)
Theorem capture_only_while_joined
    (host_id : string) (node : gmap string string) (e : Env) (os : list op) :
  orderly (installed host_id node e) os = true ->
  _hooked (steps (installed host_id node e) os) = true ->
  _session_joined (steps (installed host_id node e) os) = true.
Proof.
  intros Ho Hh.
  pose proof (steps_inv os (installed host_id node e) eq_refl Ho) as Hinv.
  unfold capture_joined in Hinv. rewrite Hh in Hinv. exact Hinv.
Qed.

Lemma capture_only_while_joined_witness :
  _session_joined
    (steps (installed "10.0.0.1" joinable_node some_env)
       [Load; Join; Reply [snap "snap_v1"; snap "snap_v2"]]) = true.
Proof.
  apply capture_only_while_joined; vm_compute; reflexivity.
Defined.

(** [leave_session] never touches the netnode. *)
Lemma leave_session_netnode (s : state) :
  hooks_created s = true -> netnode (exec leave_session s) = netnode s.
Proof.
  intros Hc. unfold exec.
  destruct (_session_joined s) eqn:Hj;
    [destruct (identifiers_set s) eqn:Hi|].
  - rewrite leave_session_joined by assumption.
    unfold parted, hooks_uninstalled. destruct s, _hooked0; reflexivity.
  - rewrite leave_session_unset by assumption. reflexivity.
  - rewrite leave_session_not_joined by assumption. reflexivity.
Qed.

(** C4, as stated, fails: closing the idb of a joined session leaves the
    three identifiers in the netnode. *)
Lemma closebase_keeps_persisted :
  let s' := exec closebase in_session in
  _project s' = None
  /\ netnode s' !! "project" = Some "proj"
  /\ netnode s' !! "binary" = Some "bin"
  /\ netnode s' !! "snapshot" = Some "snap_v2".
Proof. vm_compute. repeat split; reflexivity. Qed.

(** [closebase] assigns the attribute [ticks]; [_tick] keeps its value. *)
Lemma closebase_tick (s : state) :
  hooks_created s = true ->
  _tick (exec closebase s) = _tick s /\ ticks (exec closebase s) = Some 0.
Proof.
  intros Hc.
  set (s0 := set_trace (trace s ++ [Log TRACE "Closebase hook"]) s).
  assert (Hl : exists s1, leave_session s0 = (Ok tt, s1) /\ _tick s1 = _tick s).
  { destruct (_session_joined s) eqn:Hj;
      [destruct (identifiers_set s) eqn:Hi|].
    - exists (parted s0). split; [apply leave_session_joined; assumption|].
      unfold parted, hooks_uninstalled. subst s0.
      destruct s, _hooked0; reflexivity.
    - eexists. split; [apply leave_session_unset; assumption|reflexivity].
    - eexists. split; [apply leave_session_not_joined; assumption|reflexivity]. }
  destruct Hl as (s1 & Hl & Ht).
  unfold exec. rewrite (closebase_after_leave s s1 Hl). cbn [snd].
  destruct (closed_fields s1) as (_ & _ & _ & _ & _ & _ & H7 & H8 & _).
  rewrite H7, H8, Ht. auto.
Qed.

(** C4, amended: the [closebase] handler leaves the session (if one was
    joined and the three identifiers are set, [LeaveSession] is sent, the
    roster is cleared and the hooks are uninstalled; [_session_joined] is
    false afterwards in any case) and sets the attributes project, binary
    and snapshot to [None]. The identifiers in the netnode are not
    cleared: each of the entries [project], [binary] and [snapshot] holds
    the attribute as it was before the close when that was set, and is left
    as it was otherwise, so every identifier stored before is still stored;
    the entries under other keys than these and [tick] are left alone. An
    ordinary leave does not touch the netnode either. *)
Theorem closebase_teardown (s : state) :
  hooks_created s = true ->
  let s' := exec closebase s in
  outcome closebase s = Ok 0
  /\ _session_joined s' = false
  /\ _project s' = None /\ _binary s' = None /\ _snapshot s' = None
  /\ (_session_joined s = true -> identifiers_set s = true ->
      packets_sent (trace s')
      = packets_sent (trace s)
        ++ [LeaveSession (_host_id s) (user_name (env s))]
      /\ _users s' = ∅ /\ _hooked s' = false)
  /\ (_session_joined s = false ->
      packets_sent (trace s') = packets_sent (trace s)
      /\ _users s' = _users s /\ _hooked s' = _hooked s)
  /\ netnode s' !! "project"
     = (if truthy (_project s) then _project s else netnode s !! "project")
  /\ netnode s' !! "binary"
     = (if truthy (_binary s) then _binary s else netnode s !! "binary")
  /\ netnode s' !! "snapshot"
     = (if truthy (_snapshot s) then _snapshot s else netnode s !! "snapshot")
  /\ (forall k, k <> "project" -> k <> "binary" -> k <> "snapshot" ->
                k <> "tick" -> netnode s' !! k = netnode s !! k)
  /\ (forall k, k = "project" \/ k = "binary" \/ k = "snapshot" ->
                is_Some (netnode s !! k) -> is_Some (netnode s' !! k))
  /\ netnode (exec leave_session s) = netnode s.
Proof.
  intros Hc s'.
  set (s0 := set_trace (trace s ++ [Log TRACE "Closebase hook"]) s).
  assert (Hl : exists s1,
             leave_session s0 = (Ok tt, s1)
             /\ _session_joined s1 = false
             /\ saved s1 = saved s
             /\ (_session_joined s = true -> identifiers_set s = true ->
                 packets_sent (trace s1)
                 = packets_sent (trace s)
                   ++ [LeaveSession (_host_id s) (user_name (env s))]
                 /\ _users s1 = ∅ /\ _hooked s1 = false)
             /\ (_session_joined s = false ->
                 packets_sent (trace s1) = packets_sent (trace s)
                 /\ _users s1 = _users s /\ _hooked s1 = _hooked s)).
  { destruct (_session_joined s) eqn:Hj;
      [destruct (identifiers_set s) eqn:Hi|].
    - exists (parted s0). split; [apply leave_session_joined; assumption|].
      unfold parted, hooks_uninstalled, saved. subst s0.
      destruct s, _hooked0; py;
        rewrite ?packets_sent_app; cbn [packets_sent flat_map app];
        rewrite ?app_nil_r; repeat split; first [reflexivity|discriminate].
    - eexists. split; [apply leave_session_unset; assumption|].
      repeat split; first [reflexivity|discriminate].
    - eexists. split; [apply leave_session_not_joined; assumption|].
      subst s0. exact Hj || (destruct s; py;
        rewrite ?packets_sent_app; cbn [packets_sent flat_map app];
        rewrite ?app_nil_r; repeat split;
        first [reflexivity|discriminate|assumption]). }
  destruct Hl as (s1 & Hl & Hj1 & Hsv & Hjoined & Hnot).
  assert (Hcl : closebase s = (Ok 0, closed s1))
    by (apply closebase_after_leave; exact Hl).
  destruct (closed_fields s1)
    as (F1 & F2 & F3 & F4 & F5 & F6 & _ & _ & F9 & F10).
  assert (Hs' : s' = closed s1) by (subst s'; unfold exec; rewrite Hcl; reflexivity).
  rewrite Hs'.
  assert (Hp : netnode (closed s1) !! "project"
               = (if truthy (_project s) then _project s
                  else netnode s !! "project")).
  { rewrite F10, Hsv, saved_lookup. reflexivity. }
  assert (Hb : netnode (closed s1) !! "binary"
               = (if truthy (_binary s) then _binary s
                  else netnode s !! "binary")).
  { rewrite F10, Hsv, saved_lookup. reflexivity. }
  assert (Hs : netnode (closed s1) !! "snapshot"
               = (if truthy (_snapshot s) then _snapshot s
                  else netnode s !! "snapshot")).
  { rewrite F10, Hsv, saved_lookup. reflexivity. }
  split; [unfold outcome; rewrite Hcl; reflexivity|].
  split; [congruence|].
  do 3 (split; [assumption|]).
  split; [intros Hj Hi; destruct (Hjoined Hj Hi) as (P1 & P2 & P3);
          repeat split; congruence|].
  split; [intros Hj; destruct (Hnot Hj) as (P1 & P2 & P3);
          repeat split; congruence|].
  do 3 (split; [assumption|]).
  split.
  { intros k K1 K2 K3 K4. rewrite F10, Hsv, saved_lookup.
    destruct (String.eqb_spec k "tick"); [contradiction|].
    destruct (String.eqb_spec k "snapshot"); [contradiction|].
    destruct (String.eqb_spec k "binary"); [contradiction|].
    destruct (String.eqb_spec k "project"); [contradiction|].
    reflexivity. }
  split.
  - intros k Hk [v Hv].
    destruct Hk as [-> | [-> | ->]];
      rewrite ?Hp, ?Hb, ?Hs.
    + destruct (_project s) eqn:E; cbn [truthy];
        [destruct (negb _)|]; eauto.
    + destruct (_binary s) eqn:E; cbn [truthy];
        [destruct (negb _)|]; eauto.
    + destruct (_snapshot s) eqn:E; cbn [truthy];
        [destruct (negb _)|]; eauto.
  - apply leave_session_netnode. exact Hc.
Qed.

Lemma closebase_teardown_witness :
  _session_joined (exec closebase in_session) = false
  /\ packets_sent (trace (exec closebase in_session))
     = packets_sent (trace in_session)
       ++ [LeaveSession (_host_id in_session) (user_name (env in_session))]
  /\ _hooked (exec closebase in_session) = false
  /\ netnode (exec closebase in_session) !! "snapshot" = Some "snap_v2".
Proof.
  destruct (closebase_teardown in_session) as
    (_ & H2 & _ & _ & _ & H6 & _ & _ & _ & H10 & _);
    [vm_compute; reflexivity|].
  destruct H6 as (P1 & _ & P3); [vm_compute; reflexivity ..|].
  split; [exact H2|]. split; [exact P1|]. split; [exact P3|].
  rewrite H10. vm_compute. reflexivity.
Defined.

End TeardownFacts.

(** ** Worked examples of the session theorems *)

Module CoreExamples.
Import Shared Core CoreSpec CoreFacts SessionFacts HookFacts Samples.
Import SaveFacts.


Lemma hook_all_idempotent_witness :
  hook_all in_session = (Ok tt, in_session)
  /\ unhook_all asking = (Ok tt, asking)
  /\ (hook_all ;; hook_all) asking = hook_all asking.
Proof.
  destruct (hook_all_idempotent in_session) as (H1 & _ & _ & _).
  destruct (hook_all_idempotent asking) as (_ & H2 & H3 & _).
  split; [apply H1; vm_compute; reflexivity|].
  split; [apply H2; vm_compute; reflexivity|exact H3].
Defined.

Lemma save_netnode_frame_witness :
  netnode (exec save_netnode fresh) !! "project" = netnode fresh !! "project"
  /\ netnode (exec save_netnode fresh) !! "tick" = netnode fresh !! "tick"
  /\ trace (exec save_netnode fresh) = trace fresh ++ save_writes fresh ++ [SAVED fresh]
  /\ netnode (exec (snapshot_setter None) in_session) !! "snapshot"
     = netnode in_session !! "snapshot".
Proof.
  destruct (save_netnode_frame fresh)
    as (_ & H2 & _ & _ & H5 & _ & _ & H8 & _).
  destruct (save_netnode_frame in_session)
    as (_ & _ & _ & _ & _ & _ & _ & _ & _ & _ & _ & _ & H13).
  split; [apply H5; reflexivity|].
  split; [apply H8; reflexivity|].
  split; [exact H2|exact H13].
Defined.

End CoreExamples.

(** ** Replayed events *)

Module EventsFacts.
Import Shared Events EventsSpec.

Section Facts.
Context `{ida : Ida}.

Lemma invoke_spec (c : call) (tr : list effect) :
  invoke c tr
  = (match raises tr c with Some e => Raised e | None => Ok tt end,
     tr ++ [Call c]).
Proof.
  unfold invoke, bind, gets, modify, raise, ret.
  destruct (raises tr c); reflexivity.
Qed.

Lemma calls_of_app (a b : list effect) :
  calls_of (a ++ b) = calls_of a ++ calls_of b.
Proof. apply flat_map_app. Qed.

(** *** [refresh_pseudocode_view] only refreshes views *)

Lemma refresh_body_effects (ea : Z) (name : string) (tr : list effect) :
  exists rest,
    exec (if find_widget name then
            if func_contains (get_func (entry_ea name)) ea
            then invoke (refresh_view name false) else ret tt
          else ret tt) tr = tr ++ rest
    /\ Forall is_refresh rest.
Proof.
  destruct (find_widget name);
    [destruct (func_contains (get_func (entry_ea name)) ea)|].
  - exists [Call (refresh_view name false)]. unfold exec.
    rewrite invoke_spec. split; [reflexivity|]. repeat constructor.
  - exists []. split; [symmetry; apply app_nil_r|constructor].
  - exists []. split; [symmetry; apply app_nil_r|constructor].
Qed.

Lemma for_each_effects {A} (P : effect -> Prop) (body : A -> E unit)
    (xs : list A) :
  (forall x tr, exists rest, exec (body x) tr = tr ++ rest /\ Forall P rest) ->
  forall tr, exists rest,
    exec (for_each xs body) tr = tr ++ rest /\ Forall P rest.
Proof.
  intros Hbody. induction xs as [|x xs IH]; intros tr.
  - exists []. split; [symmetry; apply app_nil_r|constructor].
  - cbn [for_each]. unfold exec, bind.
    destruct (Hbody x tr) as (r1 & H1 & P1). unfold exec in H1.
    destruct (body x tr) as [[[]|e] tr1]; cbn [snd] in *; subst tr1.
    + destruct (IH (tr ++ r1)) as (r2 & H2 & P2). unfold exec in H2.
      exists (r1 ++ r2). rewrite H2, app_assoc. split; [reflexivity|].
      apply Forall_app. auto.
    + exists r1. auto.
Qed.

Lemma refresh_pseudocode_view_effects (ea : Z) (tr : list effect) :
  exists rest,
    exec (refresh_pseudocode_view ea) tr = tr ++ rest
    /\ Forall is_refresh rest.
Proof.
  unfold refresh_pseudocode_view. apply for_each_effects.
  intros name tr'. apply refresh_body_effects.
Qed.

(** C7. Replaying a range-comment-changed event sets the function
    comment when its kind is the function range kind, sets the segment
    comment when its kind is the segment range kind, and for every other
    kind raises without having called anything. *)
Theorem range_kind_closed (self : RangeCmtChangedEvent) (tr : list effect) :
  RANGE_KIND_FUNC <> RANGE_KIND_SEGMENT ->
  let tr' := exec (RangeCmtChangedEvent__call__ self) tr in
  (kind self = RANGE_KIND_FUNC ->
   exists rest,
     tr' = tr ++ Call (set_func_cmt (get_func (rc_start_ea self))
                         (rc_cmt self) (rc_rptble self)) :: rest
     /\ Forall is_refresh rest)
  /\ (kind self = RANGE_KIND_SEGMENT ->
      exists rest,
        tr' = tr ++ Call (set_segment_cmt (getseg (rc_start_ea self))
                            (rc_cmt self) (rc_rptble self)) :: rest
        /\ (rest = [] \/ rest = [Call (request_refresh IWID_SEGS)]))
  /\ (kind self <> RANGE_KIND_FUNC -> kind self <> RANGE_KIND_SEGMENT ->
      RangeCmtChangedEvent__call__ self tr
      = (Raised (Exception_ ("Unsupported range kind: "
                             ++ py_str (kind self))%string), tr)).
Proof.
  intros Hne tr'. subst tr'. unfold RangeCmtChangedEvent__call__.
  split; [|split].
  - intros Hk. rewrite Hk, Z.eqb_refl. unfold exec, bind.
    rewrite invoke_spec.
    destruct (raises tr _).
    + exists []. cbn [snd]. split; [reflexivity|constructor].
    + destruct (refresh_pseudocode_view_effects (rc_start_ea self)
                  (tr ++ [Call (set_func_cmt (get_func (rc_start_ea self))
                                  (rc_cmt self) (rc_rptble self))]))
        as (rest & Hr & Pr).
      exists rest. unfold exec in Hr. rewrite Hr, <- app_assoc.
      split; [reflexivity|exact Pr].
  - intros Hk. rewrite Hk.
    destruct (Z.eqb_spec RANGE_KIND_SEGMENT RANGE_KIND_FUNC) as [E|_];
      [congruence|].
    rewrite Z.eqb_refl. unfold exec, bind. rewrite invoke_spec.
    destruct (raises tr _).
    + exists []. cbn [snd]. auto.
    + rewrite invoke_spec. exists [Call (request_refresh IWID_SEGS)].
      cbn [snd]. rewrite <- app_assoc. auto.
  - intros H1 H2.
    destruct (Z.eqb_spec (kind self) RANGE_KIND_FUNC); [contradiction|].
    destruct (Z.eqb_spec (kind self) RANGE_KIND_SEGMENT); [contradiction|].
    reflexivity.
Qed.

(** *** Local types *)

Lemma new_LocalType_record (new : local_type_tuple) :
  new_LocalType new
  = match record_of new with
    | Some new_type => Ok new_type
    | None => Raised UnicodeEncodeError
    end.
Proof.
  unfold new_LocalType, record_of, str_encode.
  destruct (Codec.utf8_encode (lt_type_fields new)); [|reflexivity].
  destruct (Codec.utf8_encode (lt_cmt new)); [|reflexivity].
  destruct (Codec.utf8_encode (lt_field_cmts new)); reflexivity.
Qed.

(** What the body of the [try] does for one pair: the call of the pair,
    and it returns unless the pair fails. *)
Lemma apply_pair_spec (p : option local_type_tuple * option local_type_tuple)
    (tr : list effect) :
  exec (apply_pair (fst p) (snd p)) tr = tr ++ map Call (policy p)
  /\ is_ok (outcome (apply_pair (fst p) (snd p)) tr) = negb (fails tr p).
Proof.
  unfold fails.
  destruct p as [[old|] [new|]]; cbn [fst snd apply_pair policy];
    unfold exec, outcome, bind, lift, raise;
    rewrite ?new_LocalType_record.
  - destruct (record_of new); cbn [fst snd map is_ok negb].
    + rewrite invoke_spec. cbn [fst snd].
      destruct (raises tr _) eqn:E; cbn [is_ok].
      * rewrite bool_decide_eq_true_2 by eauto. auto.
      * rewrite bool_decide_eq_false_2 by (intros [? ?]; discriminate). auto.
    + rewrite app_nil_r. auto.
  - rewrite invoke_spec. cbn [fst snd map].
    destruct (raises tr _) eqn:E; cbn [is_ok].
    + rewrite bool_decide_eq_true_2 by eauto. auto.
    + rewrite bool_decide_eq_false_2 by (intros [? ?]; discriminate). auto.
  - destruct (record_of new); cbn [fst snd map is_ok negb].
    + rewrite invoke_spec. cbn [fst snd].
      destruct (raises tr _) eqn:E; cbn [is_ok].
      * rewrite bool_decide_eq_true_2 by eauto. auto.
      * rewrite bool_decide_eq_false_2 by (intros [? ?]; discriminate). auto.
    + rewrite app_nil_r. auto.
  - cbn [fst snd map is_ok negb]. rewrite app_nil_r. auto.
Qed.

(** One iteration of the loop never raises. *)
Lemma iteration_spec (p : option local_type_tuple * option local_type_tuple)
    (tr : list effect) :
  (print "============ callback for local types changed" ;;
   try_except (apply_pair (fst p) (snd p))
     (fun e => print "failed to apply local type change")) tr
  = (Ok tt,
     (tr ++ [STARTED]) ++ map Call (policy p)
     ++ (if fails (tr ++ [STARTED]) p then [FAILED] else [])).
Proof.
  unfold bind, print, modify, try_except, STARTED, FAILED.
  set (tr0 := tr ++ [Print "============ callback for local types changed"]).
  destruct (apply_pair_spec p tr0) as [He Ho].
  unfold exec, outcome in He, Ho.
  destruct (apply_pair (fst p) (snd p) tr0) as [[[]|e] tr1];
    cbn [fst snd is_ok] in *; subst tr1.
  - destruct (fails tr0 p); [discriminate Ho|].
    rewrite app_nil_r. reflexivity.
  - destruct (fails tr0 p); [|discriminate Ho].
    rewrite app_assoc. reflexivity.
Qed.

Lemma loop_spec
    (local_types : list (option local_type_tuple * option local_type_tuple)) :
  forall tr : list effect,
    for_each local_types (fun p =>
      print "============ callback for local types changed" ;;
      try_except (apply_pair (fst p) (snd p))
        (fun e => print "failed to apply local type change")) tr
    = (Ok tt, replayed local_types tr).
Proof.
  induction local_types as [|p ps IH]; intros tr; [reflexivity|].
  cbn [for_each replayed]. unfold bind at 1.
  rewrite iteration_spec. apply IH.
Qed.

Lemma calls_of_replayed
    (local_types : list (option local_type_tuple * option local_type_tuple)) :
  forall tr : list effect,
    calls_of (replayed local_types tr)
    = calls_of tr ++ flat_map policy local_types.
Proof.
  assert (Hcalls : forall cs, calls_of (map Call cs) = cs).
  { induction cs as [|c cs IHc]; [reflexivity|]. cbn. f_equal. exact IHc. }
  induction local_types as [|p ps IH]; intros tr.
  - cbn. symmetry. apply app_nil_r.
  - cbn [replayed flat_map]. rewrite IH, !calls_of_app, Hcalls.
    destruct (fails _ p); cbn [calls_of flat_map STARTED FAILED app];
      rewrite ?app_nil_r, <- ?app_assoc; reflexivity.
Qed.

Lemma replayed_app
    (before after : list (option local_type_tuple * option local_type_tuple)) :
  forall tr : list effect,
    replayed (before ++ after) tr = replayed after (replayed before tr).
Proof.
  induction before as [|p ps IH]; intros tr; [reflexivity|].
  cbn [app replayed]. apply IH.
Qed.

(** C5. Replaying a local-types-changed event goes through its pairs in
    order. A pair with an old side only stands for a delete of the old
    type, a pair with a new side only for an insert with replace, a pair
    with both for an edit in place, where the type inserted or edited has
    the name and the parsed list of the new side and its three texts in
    UTF-8. Every pair prints a first line, makes its call and, if it has no
    call or the call raises, prints the failure: whatever a pair raises is
    caught inside its own iteration, so that the pairs after it are applied
    all the same and the refresh request is made at the end, the only call
    whose exception leaves the handler. *)
Theorem local_types_replayed
    (local_types : list (option local_type_tuple * option local_type_tuple))
    (tr : list effect) :
  let tr' := exec (LocalTypesChangedEvent__call__ local_types) tr in
  tr' = replayed local_types tr ++ [Call (request_refresh IWID_LOCTYPS)]
  /\ outcome (LocalTypesChangedEvent__call__ local_types) tr
     = match raises (replayed local_types tr) (request_refresh IWID_LOCTYPS) with
       | Some e => Raised e
       | None => Ok tt
       end
  /\ calls_of tr'
     = calls_of tr ++ flat_map policy local_types
       ++ [request_refresh IWID_LOCTYPS]
  /\ (forall before p after,
         local_types = before ++ p :: after ->
         let history := replayed before tr ++ [Print "============ callback for local types changed"] in
         replayed local_types tr
         = replayed after
             (history ++ map Call (policy p)
              ++ (if fails history p
                  then [Print "failed to apply local type change"] else [])))
  /\ (forall history p,
         fails history p = true
         <-> policy p = []
             \/ exists c e, policy p = [c] /\ raises history c = Some e)
  /\ (forall old, policy (Some old, None) = [DeleteType (lt_name old)])
  /\ (forall new type_fields cmt field_cmts,
         Codec.utf8_encode (lt_type_fields new) = Some type_fields ->
         Codec.utf8_encode (lt_cmt new) = Some cmt ->
         Codec.utf8_encode (lt_field_cmts new) = Some field_cmts ->
         policy (None, Some new)
         = [InsertType {| name := lt_name new;
                          parsedList := lt_parsed_list new;
                          TypeFields := type_fields;
                          cmt := cmt;
                          fieldcmts := field_cmts |} true])
  /\ (forall old new type_fields cmt field_cmts,
         Codec.utf8_encode (lt_type_fields new) = Some type_fields ->
         Codec.utf8_encode (lt_cmt new) = Some cmt ->
         Codec.utf8_encode (lt_field_cmts new) = Some field_cmts ->
         policy (Some old, Some new)
         = [EditTypeInPlace (lt_name old)
              {| name := lt_name new;
                 parsedList := lt_parsed_list new;
                 TypeFields := type_fields;
                 cmt := cmt;
                 fieldcmts := field_cmts |}])
  /\ (forall old new,
         Codec.utf8_encode (lt_type_fields new) = None
         \/ Codec.utf8_encode (lt_cmt new) = None
         \/ Codec.utf8_encode (lt_field_cmts new) = None ->
         policy (old, Some new) = [])
  /\ policy (None, None) = [].
Proof.
  intros tr'.
  assert (E : LocalTypesChangedEvent__call__ local_types tr
              = (match raises (replayed local_types tr)
                         (request_refresh IWID_LOCTYPS) with
                 | Some e => Raised e
                 | None => Ok tt
                 end,
                 replayed local_types tr
                 ++ [Call (request_refresh IWID_LOCTYPS)])).
  { unfold LocalTypesChangedEvent__call__. unfold bind at 1.
    rewrite loop_spec. apply invoke_spec. }
  subst tr'. unfold exec, outcome. rewrite E. cbn [fst snd].
  split; [reflexivity|]. split; [reflexivity|].
  split; [rewrite calls_of_app, calls_of_replayed, <- app_assoc; reflexivity|].
  split; [intros before p after ->; rewrite replayed_app; reflexivity|].
  split.
  { intros history p. unfold fails. destruct (policy p) as [|c cs] eqn:Hp.
    - split; auto.
    - assert (cs = []) as ->.
      { destruct p as [[old|] [new|]]; cbn [policy] in Hp;
          try destruct (record_of new); congruence. }
      rewrite bool_decide_eq_true. split.
      + intros [e He]. right. eauto.
      + intros [H|(c' & e & [= <-] & He)]; [discriminate H|eauto]. }
  split; [reflexivity|].
  split; [intros new a b c Ha Hb Hc; cbn [policy]; unfold record_of;
          rewrite Ha, Hb, Hc; reflexivity|].
  split; [intros old new a b c Ha Hb Hc; cbn [policy]; unfold record_of;
          rewrite Ha, Hb, Hc; reflexivity|].
  split; [|reflexivity].
  intros old new H.
  assert (record_of new = None) as Hr.
  { unfold record_of. destruct H as [->|[H|H]]; [reflexivity|..].
    - rewrite H. destruct (Codec.utf8_encode (lt_type_fields new)); reflexivity.
    - rewrite H. destruct (Codec.utf8_encode (lt_type_fields new)),
        (Codec.utf8_encode (lt_cmt new)); reflexivity. }
  destruct old; cbn [policy]; rewrite Hr; reflexivity.
Qed.

(** *** Missing optional fields *)

Lemma _get_member_type_enum (type_flag : Z) (extra : gmap string pyval)
    (mt : opinfo_t) :
  Z.land type_flag enum_flag <> 0 ->
  _get_member_type type_flag extra = Ok mt ->
  ec_tid mt = Some (default (PyInt 0) (extra !! "tid"))
  /\ ec_serial mt = extra !! "serial".
Proof.
  intros He. unfold _get_member_type, getitem.
  destruct (Z.eqb_spec (Z.land type_flag enum_flag) 0) as [E|_];
    [contradiction|].
  cbn [negb].
  destruct (is_struct type_flag), (negb (Z.land type_flag off_flag =? 0)),
    (is_strlit type_flag);
    repeat match goal with
           | |- context [match ?m !! ?k with Some _ => _ | None => _ end] =>
               destruct (m !! k) eqn:?
           end;
    cbn; intros [= <-]; cbn; auto; discriminate.
Qed.

Lemma _get_member_type_returns (type_flag : Z) (extra : gmap string pyval) :
  has_keys type_flag extra = true ->
  exists mt, _get_member_type type_flag extra = Ok mt.
Proof.
  unfold has_keys, _get_member_type, getitem. intros H.
  repeat (apply andb_true_iff in H; destruct H as [H ?]).
  destruct (is_struct type_flag), (negb (Z.land type_flag off_flag =? 0)),
    (negb (Z.land type_flag enum_flag =? 0)), (is_strlit type_flag);
    cbn [implb] in *;
    repeat match goal with
           | H : _ && _ = true |- _ =>
               apply andb_true_iff in H; destruct H
           | H : bool_decide (is_Some _) = true |- _ =>
               apply bool_decide_eq_true in H; destruct H as [? H];
               rewrite H
           end;
    eexists; reflexivity.
Qed.

(** C6. An event that lacks an optional field behaves as if the field
    were zero: a segment-deleted event without [flags] makes the call of
    the same event with [flags = 0], deleting the segment with flags
    [0 | SEGMOD_SILENT]; and a struct-member event whose [extra] has no
    ['tid'] entry builds its enum descriptor with tid 0, which is the
    descriptor handed to IDA. *)
Theorem missing_fields_default_to_zero :
  (forall ea tr,
      SegmDeletedEvent__call__ {| sd_ea := ea; sd_flags := None |} tr
      = SegmDeletedEvent__call__ {| sd_ea := ea; sd_flags := Some 0 |} tr
      /\ exec (SegmDeletedEvent__call__ {| sd_ea := ea; sd_flags := None |}) tr
         = tr ++ [Call (del_segm ea (Z.lor 0 SEGMOD_SILENT))])
  /\ (forall type_flag extra,
         Z.land type_flag enum_flag <> 0 ->
         extra !! "tid" = None ->
         has_keys type_flag extra = true ->
         exists mt,
           _get_member_type type_flag extra = Ok mt
           /\ ec_tid mt = Some (PyInt 0)
           /\ ec_serial mt = extra !! "serial")
  /\ (forall self tr,
         Z.land (smc_flag self) enum_flag <> 0 ->
         smc_extra self !! "tid" = None ->
         has_keys (smc_flag self) (smc_extra self) = true ->
         exists mt,
           ec_tid mt = Some (PyInt 0)
           /\ exec (StrucMemberCreatedEvent__call__ self) tr
              = tr ++ [Call (add_struc_member (_get_sptr (smc_sname self))
                               (smc_fieldname self) (smc_offset self)
                               (smc_flag self) mt (smc_nbytes self))]).
Proof.
  split; [|split].
  - intros ea tr. split; [reflexivity|].
    unfold SegmDeletedEvent__call__, exec, bind. cbn [sd_flags sd_ea default].
    rewrite invoke_spec. destruct (raises tr _); reflexivity.
  - intros type_flag extra He Ht Hk.
    destruct (_get_member_type_returns _ _ Hk) as [mt Hmt].
    destruct (_get_member_type_enum _ _ _ He Hmt) as [H1 H2].
    rewrite Ht in H1. exists mt. auto.
  - intros self tr He Ht Hk.
    destruct (_get_member_type_returns _ _ Hk) as [mt Hmt].
    destruct (_get_member_type_enum _ _ _ He Hmt) as [H1 _].
    rewrite Ht in H1. exists mt. split; [exact H1|].
    unfold StrucMemberCreatedEvent__call__, exec, bind, lift.
    rewrite Hmt, invoke_spec. reflexivity.
Qed.

End Facts.

End EventsFacts.

(** ** Worked examples of the replay theorems *)

Module EventsExamples.
Import Shared Events EventsSpec EventsFacts.

Lemma range_kind_closed_witness :
  (exists rest,
      exec (@RangeCmtChangedEvent__call__ sample_ida
              {| kind := 1; rc_start_ea := 0x401010; rc_end_ea := 0x401080;
                 rc_cmt := PyStr [0x68; 0x69]; rc_rptble := PyInt 0 |}) []
      = [] ++ Call (set_func_cmt (get_func 0x401010) (PyStr [0x68; 0x69])
                      (PyInt 0)) :: rest
      /\ Forall is_refresh rest)
  /\ @RangeCmtChangedEvent__call__ sample_ida
       {| kind := 3; rc_start_ea := 0x401010; rc_end_ea := 0x401080;
          rc_cmt := PyStr [0x68; 0x69]; rc_rptble := PyInt 0 |} []
     = (Raised (Exception_ "Unsupported range kind: 3"), []).
Proof.
  split.
  - destruct (@range_kind_closed sample_ida
                {| kind := 1; rc_start_ea := 0x401010; rc_end_ea := 0x401080;
                   rc_cmt := PyStr [0x68; 0x69]; rc_rptble := PyInt 0 |} [])
      as (H & _ & _); [vm_compute; intros H; discriminate H|].
    apply H. reflexivity.
  - destruct (@range_kind_closed sample_ida
                {| kind := 3; rc_start_ea := 0x401010; rc_end_ea := 0x401080;
                   rc_cmt := PyStr [0x68; 0x69]; rc_rptble := PyInt 0 |} [])
      as (_ & _ & H); [vm_compute; intros H; discriminate H|].
    apply H; vm_compute; intros E; discriminate E.
Defined.

(** The failure of the first pair is printed, and the two pairs after it
    are applied. *)
Lemma local_types_replayed_witness :
  exec (@LocalTypesChangedEvent__call__ sample_ida three_pairs) []
  = [Print "============ callback for local types changed";
     Call (DeleteType gone);
     Print "failed to apply local type change";
     Print "============ callback for local types changed";
     Call (InsertType (type_of [0x41]) true);
     Print "============ callback for local types changed";
     Call (EditTypeInPlace [0x41] (type_of [0x42]));
     Call (request_refresh 0x800)]
  /\ outcome (@LocalTypesChangedEvent__call__ sample_ida three_pairs) []
     = Ok tt.
Proof.
  destruct (@local_types_replayed sample_ida three_pairs [])
    as (H1 & H2 & _).
  split; [rewrite H1|rewrite H2]; vm_compute; reflexivity.
Defined.

Lemma missing_fields_default_to_zero_witness :
  exec (@SegmDeletedEvent__call__ sample_ida
          {| sd_ea := 0x401000; sd_flags := None |}) []
  = [Call (del_segm 0x401000 (Z.lor 0 4))]
  /\ exists mt,
       @_get_member_type sample_ida 0x00800000 enum_extra = Ok mt
       /\ ec_tid mt = Some (PyInt 0)
       /\ ec_serial mt = Some (PyInt 3).
Proof.
  destruct (@missing_fields_default_to_zero sample_ida) as (H1 & H2 & _).
  split; [apply H1|].
  destruct (H2 0x00800000 enum_extra) as (mt & Hmt & Ht & Hs);
    [vm_compute; intros H; discriminate H|reflexivity|reflexivity|].
  exists mt. split; [exact Hmt|]. split; [exact Ht|exact Hs].
Defined.

End EventsExamples.

(** ** Further laws of the codec helpers *)

Module CodecLaws.
Import BitFacts Codec.

Ltac div_lia := Z.to_euclidean_division_equations; lia.

Lemma land_F x : Z.land x 0xF = x mod 16.
Proof. change 0xF with (Z.ones 4). rewrite Z.land_ones by lia. reflexivity. Qed.

Lemma shiftr_div (x k : Z) : 0 <= k -> Z.shiftr x k = x / 2 ^ k.
Proof. intros. apply Z.shiftr_div_pow2. assumption. Qed.

Lemma shiftl_4 x : Z.shiftl x 4 = x * 16.
Proof. rewrite Z.shiftl_mul_pow2 by lia. reflexivity. Qed.

Lemma hexval_hexdigit (n : Z) : 0 <= n < 16 -> hexval (hexdigit n) = Some n.
Proof.
  intros H. unfold hexval, hexdigit. cbv zeta.
  destruct (Z.ltb_spec n 10); rewrite ord_chr8 by lia;
    repeat match goal with
           | |- context [?a <=? ?b] => destruct (Z.leb_spec a b); try lia
           end;
    cbn [andb]; f_equal; lia.
Qed.

Lemma not_backslash (c : Z) :
  0 <= c < 0x100 -> c <> 0x5C -> Byte.eqb (chr8 c) backslash = false.
Proof.
  intros Hc Hne. destruct (Byte.eqb (chr8 c) backslash) eqn:E; [|reflexivity].
  apply Byte.byte_dec_bl in E. exfalso. apply Hne.
  rewrite <- (ord_chr8 c Hc), E. reflexivity.
Qed.

(** One character written by the encoder is read back by the decoder,
    unless the character is the backslash. *)
Lemma raw_decode_encode_char (c : Z) (r : pybytes) :
  is_char c -> c <> 0x5C ->
  raw_decode (raw_encode_char c ++ r) = cons c <$> raw_decode r.
Proof.
  intros [Hlo Hhi] Hne. unfold raw_encode_char.
  destruct (Z.ltb_spec c 0x100) as [H1|H1];
    [|destruct (Z.ltb_spec c 0x10000) as [H2|H2]].
  - cbn [app raw_decode]. rewrite not_backslash by lia. cbn [negb].
    rewrite ord_chr8 by lia. reflexivity.
  - cbn [app raw_decode]. change (Byte.eqb backslash backslash) with true.
    change (Byte.eqb lower_u lower_u) with true. cbn [negb hexvalue].
    rewrite !land_F, !shiftr_div by lia.
    rewrite !hexval_hexdigit by div_lia. rewrite !shiftl_4.
    match goal with
    | |- context [cons ?x <$> _ = _] => replace x with c by div_lia
    end.
    reflexivity.
  - cbn [app raw_decode]. change (Byte.eqb backslash backslash) with true.
    change (Byte.eqb upper_U lower_u) with false.
    change (Byte.eqb upper_U upper_U) with true. cbn [negb hexvalue].
    change (hexval x30) with (Some 0).
    rewrite !land_F, !shiftr_div by lia.
    rewrite !hexval_hexdigit by div_lia. rewrite !shiftl_4.
    match goal with
    | |- context [_ <? ?x] => replace x with c by div_lia
    end.
    destruct (Z.ltb_spec 0x10FFFF c); [lia|]. reflexivity.
Qed.

Lemma raw_decode_encode (s : pystr) :
  Forall is_char s -> ~ In 0x5C s -> raw_decode (raw_encode s) = Some s.
Proof.
  induction 1 as [|c s Hc _ IH]; intros Hb; [reflexivity|].
  cbn [raw_encode flat_map]. fold (raw_encode s).
  rewrite raw_decode_encode_char;
    [|exact Hc|intros E; apply Hb; left; exact E].
  rewrite IH; [reflexivity|]. intros Hin. apply Hb. right. exact Hin.
Qed.

(** X1. [decode_bytes(encode_bytes(s)) == s] for every string [s] that
    holds no backslash: the raw representation written for a string is read
    back as that string. *)
Theorem decode_bytes_after_encode_bytes (s : pystr) :
  Forall is_char s -> ~ In 0x5C s ->
  and_then (Event.encode_bytes (PyStr s)) Event.decode_bytes = Ok (PyStr s).
Proof.
  intros Hs Hb. cbn. rewrite (raw_decode_encode s Hs Hb). reflexivity.
Qed.

Lemma decode_bytes_after_encode_bytes_witness :
  and_then (Event.encode_bytes (PyStr [0x20AC; 0x41; 0x1F600; 0xFF]))
    Event.decode_bytes = Ok (PyStr [0x20AC; 0x41; 0x1F600; 0xFF]).
Proof.
  apply decode_bytes_after_encode_bytes.
  - repeat constructor; unfold is_char; lia.
  - cbn. intros H. repeat (destruct H as [H|H]; [discriminate H|]). exact H.
Defined.

Lemma utf8_encode_ascii (s : pystr) :
  Forall (fun c => 0 <= c < 0x80) s -> utf8_encode s = Some (raw_encode s).
Proof.
  induction 1 as [|c s Hc _ IH]; [reflexivity|].
  cbn [utf8_encode raw_encode flat_map]. fold (raw_encode s). rewrite IH.
  rewrite Utf8Facts.encode_char_1 by exact Hc.
  unfold raw_encode_char. destruct (Z.ltb_spec c 0x100); [reflexivity|lia].
Qed.

Lemma utf8_decode_ascii (b : pybytes) :
  Forall (fun x => ord x < 0x80) b -> utf8_decode b = Some (map ord b).
Proof.
  induction 1 as [|x b Hx _ IH]; [reflexivity|].
  cbn [utf8_decode map]. cbv zeta.
  destruct (Z.ltb_spec (ord x) 0x80); [|lia]. rewrite IH. reflexivity.
Qed.

(** X2. On ASCII text the two codecs agree: [encode] and [encode_bytes]
    give the same bytes for a string of code points below 128, and [decode]
    and [decode_bytes] give the same string for bytes below 128 in which no
    backslash is directly followed by [u] or [U]. *)
Theorem codecs_agree_on_ascii :
  (forall s : pystr,
      Forall (fun c => 0 <= c < 0x80) s ->
      Event.encode (PyStr s) = Event.encode_bytes (PyStr s))
  /\ (forall b : pybytes,
      Forall (fun x => ord x < 0x80) b -> escape_free b = true ->
      Event.decode (PyBytes b) = Event.decode_bytes (PyBytes b)).
Proof.
  split.
  - intros s Hs. cbn. rewrite (utf8_encode_ascii s Hs). reflexivity.
  - intros b Hb Hf. cbn. rewrite (utf8_decode_ascii b Hb).
    rewrite (RawFacts.raw_decode_escape_free b Hf). reflexivity.
Qed.

Lemma codecs_agree_on_ascii_witness :
  Event.encode (PyStr [0x6D; 0x61; 0x69; 0x6E])
  = Event.encode_bytes (PyStr [0x6D; 0x61; 0x69; 0x6E])
  /\ Event.decode (PyBytes [x6d; x5c; x6e])
     = Event.decode_bytes (PyBytes [x6d; x5c; x6e]).
Proof.
  destruct codecs_agree_on_ascii as [H1 H2]. split.
  - apply H1. repeat constructor; lia.
  - apply H2; [repeat constructor; vm_compute; reflexivity|reflexivity].
Defined.

End CodecLaws.

(** ** [Core]: persistence and the session protocol, continued *)

Module CoreLaws.
Import Shared Core CoreSpec CoreFacts SessionFacts HookFacts CloseFacts.
Import InvariantFacts.

Lemma netnode_after_save (s : state) :
  netnode (exec save_netnode s) = saved s.
Proof. unfold exec. rewrite save_netnode_spec. reflexivity. Qed.

(** X3. What [save_netnode] writes, [load_netnode] reads back: when the
    three identifiers are set, the tick is not -1 and the netnode holds no
    legacy [database] entry, a core that loads the saved netnode gets the
    same project, binary, snapshot and tick, and writes nothing. *)
Theorem saved_then_loaded (s s2 : state) :
  identifiers_set s = true -> _tick s <> -1 ->
  truthy (netnode s !! "database") = false ->
  netnode s2 = netnode (exec save_netnode s) ->
  let s' := exec load_netnode s2 in
  outcome load_netnode s2 = Ok tt
  /\ _project s' = _project s /\ _binary s' = _binary s
  /\ _snapshot s' = _snapshot s /\ _tick s' = _tick s
  /\ netnode s' = netnode s2.
Proof.
  intros Hi Ht Hd Hn s'. subst s'. rewrite netnode_after_save in Hn.
  unfold identifiers_set in Hi.
  apply andb_true_iff in Hi. destruct Hi as [Hi Hs].
  apply andb_true_iff in Hi. destruct Hi as [Hp Hb].
  assert (Htick : (_tick s =? -1) = false) by (apply Z.eqb_neq; exact Ht).
  assert (Ld : netnode s2 !! "database" = netnode s !! "database").
  { rewrite Hn, saved_lookup. reflexivity. }
  assert (Lt : netnode s2 !! "tick" = Some (py_str (_tick s))).
  { rewrite Hn, saved_lookup. cbn. rewrite Htick. reflexivity. }
  assert (Lp : netnode s2 !! "project" = _project s).
  { rewrite Hn, saved_lookup. cbn. rewrite Hp. reflexivity. }
  assert (Lb : netnode s2 !! "binary" = _binary s).
  { rewrite Hn, saved_lookup. cbn. rewrite Hb. reflexivity. }
  assert (Ls : netnode s2 !! "snapshot" = _snapshot s).
  { rewrite Hn, saved_lookup. cbn. rewrite Hs. reflexivity. }
  unfold outcome, exec.
  rewrite (load_netnode_normal s2 (_tick s)).
  - unfold loaded. cbn. rewrite Lp, Lb, Ls. unfold or_None.
    rewrite Hp, Hb, Hs. repeat split; reflexivity.
  - rewrite Ld. exact Hd.
  - unfold tick_text. rewrite Lt, or_str_py_str. apply py_int_str.
Qed.

(** X4. [join_session] never joins by itself. With the three identifiers
    set it sends one [ListSnapshots.Query] and, if the network module
    returned a deferred, registers the callback; otherwise it sends nothing
    and clears [_session_joined]. In both cases it returns normally and
    leaves hooks, roster, identifiers, tick and netnode alone. *)
Theorem join_session_only_asks (s : state) :
  let s' := exec join_session s in
  outcome join_session s = Ok tt
  /\ packets_sent (trace s')
     = packets_sent (trace s)
       ++ (if identifiers_set s
           then [ListSnapshots_Query (_project s) (_binary s)] else [])
  /\ _session_joined s' = identifiers_set s && _session_joined s
  /\ deferreds s'
     = (if identifiers_set s && connected (env s)
        then S (deferreds s) else deferreds s)
  /\ _hooked s' = _hooked s /\ _users s' = _users s
  /\ netnode s' = netnode s
  /\ _project s' = _project s /\ _binary s' = _binary s
  /\ _snapshot s' = _snapshot s /\ _tick s' = _tick s.
Proof.
  intros s'. subst s'. unfold outcome, exec.
  destruct (identifiers_set s) eqn:Hi.
  - rewrite join_session_set by exact Hi. cbn [fst snd andb].
    destruct (connected (env s)); cbn.
    all: rewrite packets_sent_app.
    all: destruct (_session_joined s); cbn; repeat split; reflexivity.
  - rewrite join_session_unset by exact Hi. cbn.
    rewrite packets_sent_app. cbn. rewrite app_nil_r.
    repeat split; reflexivity.
Qed.

Lemma leave_session_cases (s : state) :
  hooks_created s = true ->
  leave_session s
  = (Ok tt,
     if _session_joined s then
       if identifiers_set s then parted s
       else set_session_joined false
              (set_trace (trace s ++ [Log DEBUG "Leaving session"]) s)
     else set_trace (trace s ++ [Log DEBUG "Already left session"]) s).
Proof.
  intros Hc. destruct (_session_joined s) eqn:Hj.
  - destruct (identifiers_set s) eqn:Hi.
    + apply leave_session_joined; assumption.
    + apply leave_session_unset; assumption.
  - apply leave_session_not_joined. exact Hj.
Qed.

Lemma parted_fields (s : state) :
  _session_joined (parted s) = false
  /\ packets_sent (trace (parted s))
     = packets_sent (trace s)
       ++ [LeaveSession (_host_id s) (user_name (env s))].
Proof.
  unfold parted. destruct s. py.
  match goal with
  | |- context [if ?c then _ else _] => destruct c
  end; unfold hooks_uninstalled; py;
    rewrite ?packets_sent_app; cbn; rewrite ?app_nil_r;
    repeat split; reflexivity.
Qed.

(** X5. Leaving is idempotent. [leave_session] always ends with
    [_session_joined] false and sends [LeaveSession] only if a session was
    joined with the three identifiers set; a second [leave_session] sends
    nothing and changes nothing but the log. *)
Theorem leave_session_twice (s : state) :
  hooks_created s = true ->
  let s1 := exec leave_session s in
  let s2 := exec leave_session s1 in
  outcome leave_session s = Ok tt
  /\ _session_joined s1 = false
  /\ packets_sent (trace s1)
     = packets_sent (trace s)
       ++ (if _session_joined s && identifiers_set s
           then [LeaveSession (_host_id s) (user_name (env s))] else [])
  /\ leave_session s1
     = (Ok tt, set_trace (trace s1 ++ [Log DEBUG "Already left session"]) s1)
  /\ packets_sent (trace s2) = packets_sent (trace s1).
Proof.
  intros Hc s1 s2.
  assert (H1 : outcome leave_session s = Ok tt
               /\ _session_joined s1 = false
               /\ packets_sent (trace s1)
                  = packets_sent (trace s)
                    ++ (if _session_joined s && identifiers_set s
                        then [LeaveSession (_host_id s) (user_name (env s))]
                        else [])).
  { subst s1. unfold outcome, exec.
    rewrite leave_session_cases by exact Hc. cbn [fst snd].
    destruct (_session_joined s) eqn:Hj; [destruct (identifiers_set s)|];
      cbn [andb].
    - destruct (parted_fields s) as (A & B). auto.
    - cbn. rewrite packets_sent_app. cbn. rewrite app_nil_r. auto.
    - cbn. rewrite packets_sent_app. cbn. rewrite app_nil_r. auto. }
  destruct H1 as (A & B & C).
  assert (H2 : leave_session s1
               = (Ok tt, set_trace (trace s1 ++ [Log DEBUG "Already left session"]) s1)).
  { apply leave_session_not_joined. exact B. }
  split; [exact A|]. split; [exact B|]. split; [exact C|].
  split; [exact H2|].
  subst s2. unfold exec at 1. rewrite H2. cbn.
  rewrite packets_sent_app. cbn. apply app_nil_r.
Qed.

(** X6. A session that is joined and then left is undone. From a core
    with its identifiers set, hooks created but not installed and no session
    joined: [join_session], the callback on a reply that lists the
    snapshot, then [leave_session] send exactly the query, [JoinSession]
    and [LeaveSession], and end with the hooks uninstalled, the roster
    empty, [_session_joined] false and identifiers, tick and netnode as
    before. *)
Theorem join_then_leave (s : state) (snapshots : list Snapshot) :
  hooks_created s = true -> identifiers_set s = true ->
  _hooked s = false -> listed s snapshots = true ->
  let m := join_session ;; snapshots_listed snapshots ;; leave_session in
  let s' := exec m s in
  outcome m s = Ok tt
  /\ packets_sent (trace s')
     = packets_sent (trace s)
       ++ [ListSnapshots_Query (_project s) (_binary s);
           join_packet s;
           LeaveSession (_host_id s) (user_name (env s))]
  /\ _hooked s' = false /\ _session_joined s' = false /\ _users s' = ∅
  /\ _idb_hooks s' = Some false /\ _idp_hooks s' = Some false
  /\ _hxe_hooks s' = Some false /\ _ui_hooks s' = Some false
  /\ _project s' = _project s /\ _binary s' = _binary s
  /\ _snapshot s' = _snapshot s /\ _tick s' = _tick s
  /\ netnode s' = netnode s.
Proof.
  intros Hc Hi Hh Hl m s'.
  set (asked := set_trace
                  (trace s
                   ++ [if _session_joined s
                       then Log DEBUG "Joining a new session"
                       else Log INFO (joining_line s);
                       SendPacket (ListSnapshots_Query (_project s)
                                     (_binary s))]) s).
  assert (E : exists n, m s = (Ok tt, parted (joined (set_deferreds n asked)))).
  { exists (if connected (env s) then S (deferreds s) else deferreds s).
    set (s1 := set_deferreds _ asked).
    assert (Hs1 : join_session s = (Ok tt, s1)).
    { rewrite join_session_set by exact Hi. subst s1 asked. cbv zeta.
      destruct (connected (env s)); destruct s; reflexivity. }
    assert (Hs2 : snapshots_listed snapshots s1 = (Ok tt, joined s1)).
    { apply snapshots_listed_present; subst s1 asked; destruct s;
        [exact Hl|exact Hc]. }
    assert (Hs3 : leave_session (joined s1) = (Ok tt, parted (joined s1))).
    { apply leave_session_joined; subst s1 asked; unfold joined;
        destruct s; py; rewrite Hh; unfold hooks_installed; py;
        first [reflexivity | exact Hi]. }
    subst m. rewrite (bind_ok _ _ _ _ _ Hs1), (bind_ok _ _ _ _ _ Hs2).
    exact Hs3. }
  destruct E as [n E]. subst s'. unfold outcome, exec. rewrite E.
  cbn [fst snd]. subst asked.
  unfold parted, joined. destruct s. py. rewrite Hh. py.
  unfold hooks_installed, hooks_uninstalled. py.
  rewrite !packets_sent_app.
  match goal with
  | |- context [packets_sent [?e; SendPacket ?p]] =>
      replace (packets_sent [e; SendPacket p]) with [p]
        by (destruct _session_joined0; reflexivity)
  end.
  cbn. rewrite <- !app_assoc. cbn.
  repeat split; reflexivity.
Qed.

(** What the ready-to-run handler does on [Core] before it turns to the
    painter, on an idb that does not hold all three identifiers. *)
Lemma opened_without_identifiers (s : state) (t : Z) :
  truthy (netnode s !! "database") = false ->
  truthy (netnode s !! "project") && truthy (netnode s !! "binary")
    && truthy (netnode s !! "snapshot") = false ->
  py_int (tick_text s) = Some t ->
  exists s',
    (log TRACE "Ready to run hook" ;; load_netnode ;; join_session) s
    = (Ok tt, s')
    /\ packets_sent (trace s') = packets_sent (trace s)
    /\ _session_joined s' = false /\ _tick s' = t
    /\ _project s' = or_None (netnode s !! "project")
    /\ _binary s' = or_None (netnode s !! "binary")
    /\ _snapshot s' = or_None (netnode s !! "snapshot")
    /\ netnode s' = netnode s /\ deferreds s' = deferreds s
    /\ _hooked s' = _hooked s /\ _users s' = _users s.
Proof.
  intros Hd Hi Ht.
  set (s0 := set_trace (trace s ++ [Log TRACE "Ready to run hook"]) s).
  set (s1 := set_trace (trace s0 ++ [LOADED (loaded s0 t)]) (loaded s0 t)).
  assert (H0 : log TRACE "Ready to run hook" s = (Ok tt, s0)) by reflexivity.
  assert (H1 : load_netnode s0 = (Ok tt, s1)).
  { apply load_netnode_normal; subst s0; destruct s; assumption. }
  assert (H2 : join_session s1
               = (Ok tt, set_session_joined false
                           (set_trace
                              (trace s1 ++ [Log DEBUG "Not joining any session yet"])
                              s1))).
  { apply join_session_unset. subst s1 s0. unfold loaded. destruct s. py.
    rewrite !or_None_truthy. exact Hi. }
  eexists. split.
  { rewrite (bind_ok _ _ _ _ _ H0), (bind_ok _ _ _ _ _ H1). exact H2. }
  subst s1 s0. unfold loaded. destruct s. py.
  rewrite !packets_sent_app. cbn. rewrite !app_nil_r.
  repeat split; reflexivity.
Qed.

Lemma imported_lookup (e : Env) (l : list Z) :
  forall (m : gmap Z (option LocalType)) (i : Z),
    imported e m l !! i
    = if bool_decide (i ∈ l) then Some (ImportLocalType e i) else m !! i.
Proof.
  unfold imported. induction l as [|j l IH]; intros m i; cbn [foldl].
  - rewrite bool_decide_eq_false_2 by set_solver. reflexivity.
  - rewrite IH. destruct (decide (i ∈ l)) as [Hin|Hin].
    + rewrite !bool_decide_eq_true_2 by set_solver. reflexivity.
    + rewrite (bool_decide_eq_false_2 _ Hin).
      destruct (decide (i = j)) as [->|Hne].
      * rewrite bool_decide_eq_true_2 by set_solver.
        apply lookup_insert_eq.
      * rewrite bool_decide_eq_false_2
          by (intros [E|E]%elem_of_cons; [exact (Hne E)|exact (Hin E)]).
        apply lookup_insert_ne. congruence.
Qed.

(** X8. [update_local_types_map] refreshes the entries of the ordinals
    [1 .. get_ordinal_count] with what [ImportLocalType] returns and keeps
    every other entry: an entry above the current count is never removed.
    It returns normally and touches nothing but [local_type_map]. *)
Theorem local_type_map_refreshed (s : state) :
  let n := get_ordinal_count (env s) in
  let s' := exec update_local_types_map s in
  outcome update_local_types_map s = Ok tt
  /\ (forall i, 1 <= i <= n ->
        local_type_map s' !! i = Some (ImportLocalType (env s) i))
  /\ (forall i, ~ (1 <= i <= n) ->
        local_type_map s' !! i = local_type_map s !! i)
  /\ s' = set_local_type_map (local_type_map s') s.
Proof.
  intros n s'. subst s' n. unfold outcome, exec.
  rewrite update_local_types_map_spec. cbn [fst snd].
  split; [reflexivity|]. split; [|split].
  - intros i Hi. cbn. rewrite imported_lookup.
    rewrite bool_decide_eq_true_2; [reflexivity|].
    apply elem_of_seqZ. lia.
  - intros i Hi. cbn. rewrite imported_lookup.
    rewrite bool_decide_eq_false_2; [reflexivity|].
    rewrite elem_of_seqZ. lia.
  - destruct s. reflexivity.
Qed.

(** X9. [hook_all] and [unhook_all] need the hook objects of [_install]
    only when they have work to do. [hook_all] returns normally exactly
    when the hooks are flagged installed or all four objects exist, and
    [unhook_all] exactly when the hooks are flagged uninstalled or all four
    objects exist; otherwise the call raises [AttributeError] and leaves
    [_hooked] as it was. *)
Theorem hooks_need_install (s : state) :
  (outcome hook_all s = Ok tt <-> _hooked s = true \/ hooks_created s = true)
  /\ (outcome hook_all s <> Ok tt ->
      outcome hook_all s = Raised AttributeError
      /\ _hooked (exec hook_all s) = false)
  /\ (outcome unhook_all s = Ok tt
      <-> _hooked s = false \/ hooks_created s = true)
  /\ (outcome unhook_all s <> Ok tt ->
      outcome unhook_all s = Raised AttributeError
      /\ _hooked (exec unhook_all s) = true).
Proof.
  assert (Hu : _hooked s = true -> hooks_created s = false ->
               outcome unhook_all s = Raised AttributeError
               /\ _hooked (exec unhook_all s) = true).
  { intros Hh Hc.
    assert (E : exists s', unhook_all s = (Raised AttributeError, s')
                           /\ _hooked s' = true).
    { unfold unhook_all. unfold bind at 1, gets at 1. rewrite Hh.
      destruct s as [? ? ? ? ? ? ? ? [?|] [?|] [?|] [?|] ? ? ? ? ? ?];
        try discriminate Hc; py;
        (eexists; split; [reflexivity|exact Hh]). }
    destruct E as (s' & E & Hh'). unfold outcome, exec. rewrite E. auto. }
  assert (Hk : _hooked s = false -> hooks_created s = false ->
               outcome hook_all s = Raised AttributeError
               /\ _hooked (exec hook_all s) = false).
  { intros Hh Hc. destruct (hook_all_raises s Hh Hc) as (s' & H & _ & Hh').
    unfold outcome, exec. rewrite H. auto. }
  destruct (_hooked s) eqn:Hh; destruct (hooks_created s) eqn:Hc.
  - unfold outcome, exec. rewrite hook_all_hooked by exact Hh.
    rewrite unhook_all_spec by assumption. cbn.
    repeat split; auto; try (intros []; congruence); congruence.
  - destruct (Hu eq_refl eq_refl) as [A B].
    unfold outcome at 1 2 3, exec at 1. rewrite hook_all_hooked by exact Hh.
    cbn [fst snd]. rewrite A.
    repeat split; auto; try congruence.
    intros [|]; discriminate.
  - unfold outcome, exec. rewrite hook_all_spec by assumption.
    rewrite unhook_all_unhooked by exact Hh. cbn.
    repeat split; auto; congruence.
  - destruct (Hk eq_refl eq_refl) as [A B]. rewrite A.
    unfold outcome, exec. rewrite unhook_all_unhooked by exact Hh. cbn.
    repeat split; auto; try congruence.
    intros [|]; discriminate.
Qed.

End CoreLaws.

Module CoreLawsExamples.
Import Shared Core CoreSpec CoreLaws Samples.

(** A second core, started on the idb that [in_session] saved. *)
Lemma saved_then_loaded_witness :
  outcome load_netnode
    (__init__ "10.0.0.2" (netnode (exec save_netnode in_session)) some_env)
  = Ok tt
  /\ _snapshot
       (exec load_netnode
          (__init__ "10.0.0.2" (netnode (exec save_netnode in_session))
             some_env))
     = Some "snap_v2"
  /\ _tick
       (exec load_netnode
          (__init__ "10.0.0.2" (netnode (exec save_netnode in_session))
             some_env))
     = 7.
Proof.
  destruct (saved_then_loaded in_session
              (__init__ "10.0.0.2" (netnode (exec save_netnode in_session))
                 some_env))
    as (H1 & _ & _ & H4 & H5 & _).
  - vm_compute. reflexivity.
  - vm_compute. intros H. discriminate H.
  - vm_compute. reflexivity.
  - vm_compute. reflexivity.
  - split; [exact H1|]. split; [rewrite H4|rewrite H5]; vm_compute; reflexivity.
Defined.

Lemma leave_session_twice_witness :
  _session_joined (exec leave_session in_session) = false
  /\ packets_sent (trace (exec leave_session (exec leave_session in_session)))
     = packets_sent (trace (exec leave_session in_session)).
Proof.
  destruct (leave_session_twice in_session) as (_ & H2 & _ & _ & H5).
  - vm_compute. reflexivity.
  - split; [exact H2|exact H5].
Defined.

Lemma join_then_leave_witness :
  _hooked
    (exec (join_session ;; snapshots_listed [snap "snap_v2"] ;; leave_session)
       (step fresh Load))
  = false
  /\ netnode
       (exec (join_session ;; snapshots_listed [snap "snap_v2"] ;; leave_session)
          (step fresh Load))
     = netnode (step fresh Load).
Proof.
  destruct (join_then_leave (step fresh Load) [snap "snap_v2"])
    as (_ & _ & H3 & H4).
  - vm_compute. reflexivity.
  - vm_compute. reflexivity.
  - vm_compute. reflexivity.
  - vm_compute. reflexivity.
  - split; [exact H3|]. apply H4.
Defined.

End CoreLawsExamples.

(** ** [Core]: closing, reopening and whole runs *)

Module RunLaws.
Import Shared Core CoreSpec CoreFacts SessionFacts HookFacts CloseFacts.
Import InvariantFacts SessionSpec.

(** [leave_session] cannot raise when installed hooks have their objects. *)
Lemma leave_session_any (s : state) :
  (_hooked s = true -> hooks_created s = true) ->
  leave_session s
  = (Ok tt,
     if _session_joined s then
       if identifiers_set s then parted s
       else set_session_joined false
              (set_trace (trace s ++ [Log DEBUG "Leaving session"]) s)
     else set_trace (trace s ++ [Log DEBUG "Already left session"]) s).
Proof.
  intros Hc. destruct (_session_joined s) eqn:Hj.
  - destruct (identifiers_set s) eqn:Hi.
    + destruct (_hooked s) eqn:Hh.
      * apply leave_session_joined; auto.
      * unfold leave_session, parted, unhook_all. destruct s. py.
        rewrite Hj. py. rewrite Hi. py. rewrite Hh. py.
        rewrite <- ?app_assoc. reflexivity.
    + apply leave_session_unset; assumption.
  - apply leave_session_not_joined. exact Hj.
Qed.

Lemma leave_session_fields (s : state) :
  (_hooked s = true -> hooks_created s = true) ->
  let s1 := exec leave_session s in
  leave_session s = (Ok tt, s1)
  /\ _session_joined s1 = false
  /\ _project s1 = _project s /\ _binary s1 = _binary s
  /\ _snapshot s1 = _snapshot s /\ _tick s1 = _tick s
  /\ netnode s1 = netnode s /\ env s1 = env s /\ _host_id s1 = _host_id s
  /\ deferreds s1 = deferreds s
  /\ packets_sent (trace s1)
     = packets_sent (trace s)
       ++ (if _session_joined s && identifiers_set s
           then [LeaveSession (_host_id s) (user_name (env s))] else [])
  /\ (_hooked s1 = true -> hooks_created s1 = true)
  /\ (hooks_created s = true -> hooks_created s1 = true).
Proof.
  intros Hc s1. subst s1. unfold exec.
  rewrite (leave_session_any s Hc). cbn [snd].
  split; [reflexivity|].
  destruct (_session_joined s) eqn:Hj; [destruct (identifiers_set s) eqn:Hi|];
    cbn [andb].
  - unfold parted. destruct (_hooked s) eqn:Hh.
    + specialize (Hc eq_refl). unfold hooks_uninstalled.
      destruct s. py. rewrite !packets_sent_app. cbn. rewrite !app_nil_r.
      repeat split; try reflexivity; discriminate.
    + destruct s. py. rewrite !packets_sent_app. cbn.
      cbn in Hh. subst.
      repeat split; try reflexivity; try discriminate; auto.
  - destruct s. py. rewrite !packets_sent_app. cbn. rewrite !app_nil_r.
    repeat split; try reflexivity; auto.
  - destruct s. py. rewrite !packets_sent_app. cbn. rewrite !app_nil_r.
    repeat split; try reflexivity; auto.
Qed.

Lemma closed_more_fields (s1 : state) :
  _idb_hooks (closed s1) = _idb_hooks s1
  /\ _idp_hooks (closed s1) = _idp_hooks s1
  /\ _hxe_hooks (closed s1) = _hxe_hooks s1
  /\ _ui_hooks (closed s1) = _ui_hooks s1
  /\ env (closed s1) = env s1 /\ _host_id (closed s1) = _host_id s1
  /\ deferreds (closed s1) = deferreds s1.
Proof.
  unfold closed, project_setter, binary_setter, snapshot_setter, exec.
  unfold bind, modify. rewrite !save_netnode_spec. cbn [snd].
  repeat split; reflexivity.
Qed.

(** What the close handler and then the ready-to-run handler, before it
    turns to the painter, do on [Core]. *)
Lemma closed_then_opened (s : state) :
  hooks_created s = true -> identifiers_set s = true ->
  _tick s <> -1 \/ (exists t, py_int (tick_text s) = Some t) ->
  truthy (netnode s !! "database") = false ->
  exists c s',
    closebase s = (Ok 0, c)
    /\ (log TRACE "Ready to run hook" ;; load_netnode ;; join_session) c
       = (Ok tt, s')
    /\ _project s' = _project s /\ _binary s' = _binary s
    /\ _snapshot s' = _snapshot s
    /\ _session_joined s' = false
    /\ packets_sent (trace s')
       = packets_sent (trace s)
         ++ (if _session_joined s
             then [LeaveSession (_host_id s) (user_name (env s))] else [])
         ++ [ListSnapshots_Query (_project s) (_binary s)].
Proof.
  intros Hc Hi Ht Hd.
  set (s0 := set_trace (trace s ++ [Log TRACE "Closebase hook"]) s).
  assert (Hc0 : _hooked s0 = true -> hooks_created s0 = true).
  { intros _. subst s0. destruct s. exact Hc. }
  destruct (leave_session_fields s0 Hc0)
    as (Hl & Lj & Lp & Lb & Ls & Lt & Ln & Le & Lh & _ & Lk & _ & _).
  set (s1 := exec leave_session s0) in *.
  assert (Hclose : closebase s = (Ok 0, closed s1)).
  { apply closebase_after_leave. exact Hl. }
  destruct (closed_fields s1)
    as (Cj & _ & _ & Cp & Cb & Cs & Ct & _ & Ck & Cn).
  destruct (closed_more_fields s1) as (_ & _ & _ & _ & Ce & Ch & _).
  set (c := closed s1) in *.
  (* what the closed idb holds *)
  assert (Hi' := Hi). unfold identifiers_set in Hi'.
  apply andb_true_iff in Hi'. destruct Hi' as [Hi' Hts].
  apply andb_true_iff in Hi'. destruct Hi' as [Htp Htb].
  assert (E0 : _project s0 = _project s /\ _binary s0 = _binary s
               /\ _snapshot s0 = _snapshot s /\ _tick s0 = _tick s
               /\ netnode s0 = netnode s /\ env s0 = env s
               /\ _host_id s0 = _host_id s
               /\ _session_joined s0 = _session_joined s
               /\ packets_sent (trace s0) = packets_sent (trace s)).
  { subst s0. destruct s. py. rewrite packets_sent_app. cbn.
    rewrite app_nil_r. repeat split; reflexivity. }
  destruct E0 as (Ep & Eb & Es & Et & En & Ee & Eh & Ej & Ek).
  assert (Nd : truthy (netnode c !! "database") = false).
  { rewrite Cn, saved_lookup. cbn. rewrite Ln, En. exact Hd. }
  assert (Nt : exists t, py_int (tick_text c) = Some t).
  { unfold tick_text. rewrite Cn, saved_lookup. cbn. rewrite Lt, Et, Ln, En.
    destruct (Z.eqb_spec (_tick s) (-1)) as [E|E].
    - destruct Ht as [Ht|Ht]; [contradiction|exact Ht].
    - exists (_tick s). rewrite or_str_py_str. apply py_int_str. }
  destruct Nt as [t Nt].
  assert (Np : netnode c !! "project" = _project s).
  { rewrite Cn, saved_lookup. cbn. rewrite Lp, Ep, Htp. reflexivity. }
  assert (Nb : netnode c !! "binary" = _binary s).
  { rewrite Cn, saved_lookup. cbn. rewrite Lb, Eb, Htb. reflexivity. }
  assert (Ns : netnode c !! "snapshot" = _snapshot s).
  { rewrite Cn, saved_lookup. cbn. rewrite Ls, Es, Hts. reflexivity. }
  (* the ready-to-run handler on it *)
  set (c0 := set_trace (trace c ++ [Log TRACE "Ready to run hook"]) c).
  assert (H0 : log TRACE "Ready to run hook" c = (Ok tt, c0)) by reflexivity.
  set (c1 := set_trace (trace c0 ++ [LOADED (loaded c0 t)]) (loaded c0 t)).
  assert (H1 : load_netnode c0 = (Ok tt, c1)).
  { apply load_netnode_normal.
    - subst c0. destruct c. exact Nd.
    - subst c0. destruct c. exact Nt. }
  assert (F1 : _project c1 = _project s /\ _binary c1 = _binary s
               /\ _snapshot c1 = _snapshot s
               /\ _session_joined c1 = false
               /\ packets_sent (trace c1) = packets_sent (trace c)).
  { subst c1 c0. unfold loaded.
    replace (netnode (set_trace (trace c ++ [Log TRACE "Ready to run hook"]) c))
      with (netnode c) by (destruct c; reflexivity).
    rewrite Np, Nb, Ns. unfold or_None. rewrite Htp, Htb, Hts.
    assert (Cj' : _session_joined c = false) by (rewrite Cj; exact Lj).
    destruct c. py. rewrite !packets_sent_app. cbn. rewrite !app_nil_r.
    repeat split; try reflexivity. exact Cj'. }
  destruct F1 as (Fp & Fb & Fs & Fj & Fk).
  assert (Hi1 : identifiers_set c1 = true).
  { unfold identifiers_set. rewrite Fp, Fb, Fs. exact Hi. }
  pose proof (join_session_set c1 Hi1) as H2. cbv zeta in H2.
  exists c, (exec join_session c1).
  split; [exact Hclose|]. split.
  { rewrite (bind_ok _ _ _ _ _ H0), (bind_ok _ _ _ _ _ H1).
    unfold exec. rewrite H2. reflexivity. }
  unfold exec. rewrite H2. cbn [snd].
  assert (G : forall (tr : list effect) (s2 : state),
             packets_sent
               (trace (if connected (env c1)
                       then set_deferreds (S (deferreds c1)) (set_trace tr s2)
                       else set_trace tr s2))
             = packets_sent tr).
  { intros tr s2. destruct (connected (env c1)); destruct s2; reflexivity. }
  repeat split.
  - destruct (connected (env c1)); destruct c1; cbn in *; exact Fp.
  - destruct (connected (env c1)); destruct c1; cbn in *; exact Fb.
  - destruct (connected (env c1)); destruct c1; cbn in *; exact Fs.
  - destruct (connected (env c1)); destruct c1; cbn in *; exact Fj.
  - rewrite G, packets_sent_app, Fk, Ck, Lk, Ek, Ej, Eh, Ee, Fp, Fb.
    unfold identifiers_set. rewrite Ep, Eb, Es, Htp, Htb, Hts.
    rewrite andb_true_r. rewrite Fj. cbn. rewrite <- app_assoc. reflexivity.
Qed.

(** *** Joins and leaves over a whole run *)

Lemma joins_sent_app (a b : list effect) :
  joins_sent (a ++ b) = (joins_sent a + joins_sent b)%nat.
Proof.
  unfold joins_sent. rewrite packets_sent_app, List.filter_app, List.length_app.
  reflexivity.
Qed.

Lemma leaves_sent_app (a b : list effect) :
  leaves_sent (a ++ b) = (leaves_sent a + leaves_sent b)%nat.
Proof.
  unfold leaves_sent. rewrite packets_sent_app, List.filter_app, List.length_app.
  reflexivity.
Qed.

(** An operation that sends neither packet, keeps the session flag or
    clears it, and keeps the hooks, keeps the account. *)
Lemma accounted_frame (s s' : state) :
  packets_sent (trace s') = packets_sent (trace s) \/
  (exists q, packets_sent (trace s')
             = packets_sent (trace s) ++ [q]
             /\ is_join q = false /\ is_leave q = false) ->
  (_session_joined s' = _session_joined s \/ _session_joined s' = false) ->
  _hooked s' = _hooked s -> hooks_created s' = hooks_created s ->
  accounted s -> accounted s'.
Proof.
  intros Hp Hj Hh Hc [Ha Hb]. unfold accounted, joins_sent, leaves_sent in *.
  rewrite Hh, Hc. split; [|exact Hb].
  assert (Hf : length (List.filter is_leave (packets_sent (trace s')))
               = length (List.filter is_leave (packets_sent (trace s)))
               /\ length (List.filter is_join (packets_sent (trace s')))
                  = length (List.filter is_join (packets_sent (trace s)))).
  { destruct Hp as [->|(q & -> & Hq1 & Hq2)]; [auto|].
    rewrite !List.filter_app. cbn. rewrite Hq1, Hq2. rewrite !app_nil_r. auto. }
  destruct Hf as [-> ->].
  destruct Hj as [->| ->]; [exact Ha|].
  destruct (_session_joined s); lia.
Qed.

Lemma load_netnode_frame (s : state) :
  packets_sent (trace (exec load_netnode s)) = packets_sent (trace s)
  /\ _session_joined (exec load_netnode s) = _session_joined s
  /\ _hooked (exec load_netnode s) = _hooked s
  /\ hooks_created (exec load_netnode s) = hooks_created s.
Proof.
  destruct (py_int (tick_text s)) as [t|] eqn:Ht.
  - destruct (truthy (netnode s !! "database")) eqn:Hd.
    + unfold exec. rewrite (load_netnode_legacy s t Hd Ht). cbv zeta.
      cbn [snd]. unfold loaded_old. destruct s. py.
      rewrite !packets_sent_app, packets_sent_save.
      cbn [packets_sent flat_map app]. rewrite app_nil_r.
      repeat split; reflexivity.
    + unfold exec. rewrite (load_netnode_normal s t Hd Ht). cbn [snd].
      unfold loaded. destruct s. py. rewrite packets_sent_app.
      cbn [packets_sent flat_map app]. rewrite app_nil_r.
      repeat split; reflexivity.
  - unfold load_netnode, load_netnode_old, tick_text in *. destruct s. py.
    destruct (truthy _); py; rewrite Ht; py; rewrite ?packets_sent_app;
      cbn [packets_sent flat_map app]; rewrite ?app_nil_r;
      repeat split; reflexivity.
Qed.

Lemma save_netnode_frame_fields (s : state) :
  packets_sent (trace (exec save_netnode s)) = packets_sent (trace s)
  /\ _session_joined (exec save_netnode s) = _session_joined s
  /\ _hooked (exec save_netnode s) = _hooked s
  /\ hooks_created (exec save_netnode s) = hooks_created s.
Proof.
  unfold exec. rewrite save_netnode_spec. cbn [snd].
  destruct s. py. rewrite !packets_sent_app, packets_sent_save. cbn.
  rewrite app_nil_r. repeat split; reflexivity.
Qed.

Lemma hook_all_accounting (s : state) :
  packets_sent (trace (exec hook_all s)) = packets_sent (trace s)
  /\ _session_joined (exec hook_all s) = _session_joined s
  /\ ((_hooked s = true -> hooks_created s = true) ->
      _hooked (exec hook_all s) = true ->
      hooks_created (exec hook_all s) = true).
Proof.
  destruct (_hooked s) eqn:Hh.
  - unfold exec. rewrite hook_all_hooked by exact Hh. cbn [snd].
    rewrite Hh. auto.
  - destruct (hooks_created s) eqn:Hc.
    + unfold exec. rewrite hook_all_spec by assumption. cbn [snd].
      unfold hooks_installed. destruct s. py.
      rewrite packets_sent_app. cbn. rewrite app_nil_r. auto.
    + unfold exec, hook_all. unfold bind at 1, gets at 1. rewrite Hh.
      destruct s as [? ? ? ? ? ? ? ? [?|] [?|] [?|] [?|] ? ? ? ? ? ?];
        try discriminate Hc; py;
        rewrite ?packets_sent_app; cbn [packets_sent flat_map app];
        rewrite ?app_nil_r; cbn in Hh; subst;
        (split; [reflexivity|]); (split; [reflexivity|]);
        intros _; discriminate.
Qed.

Lemma snapshots_listed_accounted (s : state) (snapshots : list Snapshot) :
  accounted s -> accounted (exec (snapshots_listed snapshots) s).
Proof.
  intros Ha. destruct (listed s snapshots) eqn:Hl.
  - unfold exec. rewrite snapshots_listed_factored by exact Hl.
    set (s1 := set_session_joined true _).
    assert (A1 : (leaves_sent (trace s1) + 1 <= joins_sent (trace s1))%nat
                 /\ (_hooked s1 = true -> hooks_created s1 = true)
                 /\ _session_joined s1 = true).
    { destruct Ha as [Ha Hb]. subst s1. destruct s. py.
      rewrite joins_sent_app, leaves_sent_app. cbn.
      split; [|split; [exact Hb|reflexivity]].
      destruct _session_joined0; lia. }
    destruct A1 as (A1 & A2 & A3).
    destruct (hook_all_accounting s1) as (Hp & Hj & Hk).
    unfold bind. rewrite (run_pair hook_all s1).
    assert (G : accounted (exec hook_all s1)).
    { unfold accounted, joins_sent, leaves_sent in *. rewrite Hp, Hj, A3.
      split; [exact A1|exact (Hk A2)]. }
    destruct (outcome hook_all s1) as [[]|e]; unfold modify; cbn [fst snd];
      [|exact G].
    destruct (exec hook_all s1). exact G.
  - unfold exec. rewrite snapshots_listed_absent by exact Hl. cbn [snd].
    apply (accounted_frame s); [left| left | | |exact Ha];
      destruct s; py; rewrite ?packets_sent_app; cbn; rewrite ?app_nil_r;
      reflexivity.
Qed.

Lemma set_deferreds_accounted (n : nat) (s : state) :
  accounted s -> accounted (set_deferreds n s).
Proof. destruct s. exact (fun H => H). Qed.

Lemma logged_accounted (lvl : level) (msg : string) (s : state) :
  accounted s -> accounted (set_trace (trace s ++ [Log lvl msg]) s).
Proof.
  apply accounted_frame; [left|left| |];
    destruct s; py; rewrite ?packets_sent_app; cbn; rewrite ?app_nil_r;
    reflexivity.
Qed.

Lemma step_accounted (s : state) (o : op) :
  accounted s -> accounted (step s o).
Proof.
  intros Ha. unfold step. destruct o; cbn [run].
  - destruct (load_netnode_frame s) as (A & B & C & D).
    apply (accounted_frame s); auto.
  - destruct (identifiers_set s) eqn:Hi.
    + unfold exec. rewrite join_session_set by exact Hi. cbn [snd].
      apply (accounted_frame s); [right|left| | |exact Ha].
      * exists (ListSnapshots_Query (_project s) (_binary s)).
        destruct (connected (env s)); destruct s; py;
          rewrite packets_sent_app; destruct _session_joined0; cbn; auto.
      * destruct (connected (env s)); destruct s; reflexivity.
      * destruct (connected (env s)); destruct s; reflexivity.
      * destruct (connected (env s)); destruct s; reflexivity.
    + unfold exec. rewrite join_session_unset by exact Hi. cbn [snd].
      apply (accounted_frame s); [left|right| | |exact Ha];
        destruct s; py; rewrite ?packets_sent_app; cbn; rewrite ?app_nil_r;
        reflexivity.
  - destruct (deferreds s) as [|n] eqn:Hd.
    + unfold reply_received, exec. unfold bind at 1, gets at 1. rewrite Hd.
      exact Ha.
    + unfold exec. rewrite (reply_received_spec s n) by exact Hd.
      unfold try_except.
      pose proof (snapshots_listed_accounted (set_deferreds n s) snapshots
                    (set_deferreds_accounted n s Ha)) as H1.
      rewrite (run_pair (snapshots_listed snapshots) (set_deferreds n s)).
      destruct (outcome (snapshots_listed snapshots) (set_deferreds n s)).
      * exact H1.
      * apply logged_accounted. exact H1.
  - destruct Ha as [Ha Hb].
    destruct (leave_session_fields s Hb)
      as (_ & Lj & _ & _ & _ & _ & _ & _ & _ & _ & Lk & Lh & _).
    split; [|exact Lh]. rewrite Lj.
    unfold joins_sent, leaves_sent in *. rewrite Lk, !List.filter_app, !List.length_app.
    destruct (_session_joined s); [destruct (identifiers_set s)|];
      cbn in *; lia.
  - set (s0 := set_trace (trace s ++ [Log TRACE "Closebase hook"]) s).
    pose proof (logged_accounted TRACE "Closebase hook" s Ha) as Ha0.
    fold s0 in Ha0. destruct Ha0 as [Ha0 Hb0].
    destruct (leave_session_fields s0 Hb0)
      as (Hl & Lj & _ & _ & _ & _ & _ & _ & _ & _ & Lk & Lh & _).
    set (s1 := exec leave_session s0) in *.
    assert (A1 : accounted s1).
    { split; [|exact Lh]. rewrite Lj.
      unfold joins_sent, leaves_sent in *.
      rewrite Lk, !List.filter_app, !List.length_app.
      destruct (_session_joined s0); [destruct (identifiers_set s0)|];
        cbn in *; lia. }
    unfold exec. unfold bind. rewrite (closebase_after_leave s s1 Hl).
    cbn [snd]. unfold ret. cbn [snd].
    destruct (closed_fields s1) as (Cj & _ & Ch & _ & _ & _ & _ & _ & Ck & _).
    destruct (closed_more_fields s1) as (C1 & C2 & C3 & C4 & _).
    apply (accounted_frame s1); auto.
    unfold hooks_created. rewrite C1, C2, C3, C4. reflexivity.
  - unfold exec. rewrite project_setter_spec.
    destruct (save_netnode_frame_fields (set_project v s)) as (A & B & C & D).
    fold (exec save_netnode (set_project v s)).
    apply (accounted_frame (set_project v s)); auto; destruct s; exact Ha.
  - unfold exec. rewrite binary_setter_spec.
    destruct (save_netnode_frame_fields (set_binary v s)) as (A & B & C & D).
    fold (exec save_netnode (set_binary v s)).
    apply (accounted_frame (set_binary v s)); auto; destruct s; exact Ha.
  - unfold exec. rewrite snapshot_setter_spec.
    destruct (save_netnode_frame_fields (set_snapshot v s)) as (A & B & C & D).
    fold (exec save_netnode (set_snapshot v s)).
    apply (accounted_frame (set_snapshot v s)); auto; destruct s; exact Ha.
  - destruct s. exact Ha.
Qed.

(** X11. The core never leaves a session it did not join. In every run of
    the session operations from a freshly installed core, whatever the
    netnode, the replies of the server and the order of the operations,
    the number of [LeaveSession] packets sent, plus one while a session is
    flagged joined, never exceeds the number of [JoinSession] packets
    sent; and hooks flagged installed always have their hook objects. *)
Theorem leaves_never_exceed_joins :
  (forall host_id node e, accounted (installed host_id node e))
  /\ (forall (os : list op) (s : state),
        accounted s -> accounted (steps s os)).
Proof.
  split.
  - intros host_id node e. split; [cbn; lia|discriminate].
  - induction os as [|o os IH]; intros s Ha; [exact Ha|].
    unfold steps. cbn [foldl]. apply IH. apply step_accounted. exact Ha.
Qed.

End RunLaws.

Module RunLawsExamples.
Import Shared Core CoreSpec SessionSpec RunLaws Samples.

(** A run that joins, leaves twice and closes: one join, one leave. *)
Lemma leaves_never_exceed_joins_witness :
  (leaves_sent
     (trace (steps fresh [Load; Join; Reply [snap "snap_v2"]; Leave; Leave;
                          Close]))
   + (if _session_joined
           (steps fresh [Load; Join; Reply [snap "snap_v2"]; Leave; Leave;
                         Close])
      then 1 else 0)
   <= joins_sent
        (trace (steps fresh [Load; Join; Reply [snap "snap_v2"]; Leave; Leave;
                             Close])))%nat.
Proof.
  destruct leaves_never_exceed_joins as [H1 H2].
  exact (proj1 (H2 [Load; Join; Reply [snap "snap_v2"]; Leave; Leave; Close]
                  fresh (H1 "10.0.0.1" joinable_node some_env))).
Defined.

End RunLawsExamples.

(** ** [Core]: the roster and the core hooks *)

Module InterfaceFacts.
Import Shared Core CoreSpec CoreFacts Interface.

Ltac run :=
  cbv [bind ret gets modify raise on_core refresh add_user remove_user
       get_user get_users exec outcome fst snd unhook_core
       core _idb_hooks_core _idp_hooks_core _ui_hooks_core _view_hooks_core
       interface set_core set_idb_hooks_core set_idp_hooks_core
       set_ui_hooks_core set_view_hooks_core set_interface
       set_users _users] in *.

(** X12. The roster is a dictionary keyed by user name. After
    [add_user(name, user)], [get_user(name)] returns that user and
    [remove_user(name)] returns it and deletes the entry, so that a name
    that was new leaves the roster as it was; every [add_user] and
    [remove_user] refreshes the painter and then the widget. *)
Theorem roster_add_then_remove (p : plugin) (name : string) (u : user) :
  outcome (add_user name u ;; get_user name) p = Ok u
  /\ outcome (add_user name u ;; get_users) p
     = Ok (<[name := u]> (_users (core p)))
  /\ outcome (add_user name u ;; remove_user name) p = Ok u
  /\ _users (core (exec (add_user name u ;; remove_user name) p))
     = delete name (_users (core p))
  /\ (_users (core p) !! name = None ->
      _users (core (exec (add_user name u ;; remove_user name) p))
      = _users (core p))
  /\ interface (exec (add_user name u ;; remove_user name) p)
     = interface p
       ++ [PainterRefresh; WidgetRefresh; PainterRefresh; WidgetRefresh].
Proof.
  destruct p as [s a b c d i]. destruct s. run.
  rewrite lookup_insert_eq. run.
  rewrite delete_insert_eq.
  repeat split; try reflexivity.
  - intros H. apply delete_id. exact H.
  - rewrite <- !app_assoc. reflexivity.
Qed.

(** X13. On a name that is not in the roster, [remove_user] and
    [get_user] raise [KeyError] and change nothing: the roster stays as it
    is and neither the painter nor the widget is refreshed. *)
Theorem roster_absent_name (p : plugin) (name : string) :
  _users (core p) !! name = None ->
  remove_user name p = (Raised (KeyError name), p)
  /\ get_user name p = (Raised (KeyError name), p).
Proof.
  intros H. destruct p as [s a b c d i]. destruct s. run.
  rewrite H. split; reflexivity.
Qed.

Lemma roster_absent_name_witness :
  remove_user "bob" (plugin_of Samples.in_session)
  = (Raised (KeyError "bob"), plugin_of Samples.in_session)
  /\ get_user "bob" (plugin_of Samples.in_session)
     = (Raised (KeyError "bob"), plugin_of Samples.in_session).
Proof.
  apply roster_absent_name. vm_compute. reflexivity.
Defined.

Lemma on_core_ok {A} (m : M state A) (p : plugin) (a : A) (s : state) :
  m (core p) = (Ok a, s) -> on_core m p = (Ok a, set_core s p).
Proof. intros H. unfold on_core. rewrite H. reflexivity. Qed.

(** X14. [_uninstall] does not undo [_install] for the IDP core hook.
    [_install] creates and hooks the four core hooks; [_uninstall] after it
    returns [True], unhooks the IDB, UI and View core hooks and the event
    hooks, and leaves the IDP core hook hooked. Before [_install] it
    raises [AttributeError]. *)
Theorem uninstall_keeps_idp_core_hook (p : plugin) :
  let p' := exec (_install ;; _uninstall) p in
  outcome (_install ;; _uninstall) p = Ok true
  /\ _idb_hooks_core p' = Some false
  /\ _ui_hooks_core p' = Some false
  /\ _view_hooks_core p' = Some false
  /\ _idp_hooks_core p' = Some true
  /\ _hooked (core p') = false
  /\ (_idb_hooks_core p = None ->
      outcome _uninstall p = Raised AttributeError).
Proof.
  assert (E : exists s', (_install ;; _uninstall) p
                = (Ok true,
                   Build_plugin s' (Some false) (Some true) (Some false)
                     (Some false) (interface p))
                /\ _hooked s' = false).
  { destruct p as [s a b c d i].
    unfold _install, _uninstall, Core._install.
    destruct s as [? ? ? ? ? ? ? ? ? ? ? ? [|] ? ? ? ? ?].
    - eexists. split; [run; py; unfold unhook_all; py; reflexivity|].
      reflexivity.
    - eexists. split; [run; py; unfold unhook_all; py; reflexivity|].
      reflexivity. }
  intros p'.
  destruct E as (s' & E & Hh). subst p'. unfold outcome, exec. rewrite E.
  cbn [fst snd _idb_hooks_core _ui_hooks_core _view_hooks_core
       _idp_hooks_core core].
  repeat split; try reflexivity; try exact Hh.
  intros Hn. destruct p as [s a b c d i]. cbn in Hn. subst a.
  unfold _uninstall. destruct s. run. py. reflexivity.
Qed.

End InterfaceFacts.

(** ** [Core]: the handlers of the core hooks *)

Module HandlerFacts.
Import Shared Core CoreSpec CoreFacts HookFacts CoreLaws RunLaws Interface.
Import Samples.

(** The handler returns or raises as the painter does, once its work on
    [Core] has returned. *)
Lemma ready_to_run_ok (painter : result unit) (p : plugin) (s' : state) :
  (log TRACE "Ready to run hook" ;; load_netnode ;; join_session) (core p)
  = (Ok tt, s') ->
  ready_to_run painter p
  = (painter,
     set_interface (interface p ++ [PainterReadyToRun]) (set_core s' p)).
Proof.
  intros H. unfold ready_to_run, painter_ready_to_run.
  unfold bind at 1 2 in H. cbn [log tell modify] in H.
  set (s0 := set_trace (trace (core p) ++ [Log TRACE "Ready to run hook"])
               (core p)) in *.
  assert (H0 : on_core (log TRACE "Ready to run hook") p
               = (Ok tt, set_core s0 p)) by reflexivity.
  rewrite (bind_ok _ _ _ _ _ H0).
  destruct (load_netnode s0) as [[[]|e] s1] eqn:H1; [|discriminate H].
  assert (H1' : on_core load_netnode (set_core s0 p) = (Ok tt, set_core s1 p)).
  { unfold on_core. destruct p. cbn [core set_core]. cbn [core] in H1.
    rewrite H1. reflexivity. }
  rewrite (bind_ok _ _ _ _ _ H1').
  assert (H2' : on_core join_session (set_core s1 p) = (Ok tt, set_core s' p)).
  { unfold on_core. destruct p. cbn [core set_core]. rewrite H. reflexivity. }
  rewrite (bind_ok _ _ _ _ _ H2').
  unfold bind, modify, lift. destruct p. reflexivity.
Qed.

(** X7. Opening an idb that does not hold all three identifiers joins
    nothing. When the netnode has no legacy [database] entry and lacks a
    non-empty [project], [binary] or [snapshot], the ready-to-run handler
    loads what is there, takes the stored tick (0 when none is stored),
    sends no packet, registers no callback and leaves [_session_joined]
    false; it writes nothing to the netnode and leaves hooks and roster
    alone. It then calls [painter.ready_to_run()] once, and returns or
    raises as that call does. *)
Theorem ready_to_run_without_identifiers
    (p : plugin) (t : Z) (painter : result unit) :
  truthy (netnode (core p) !! "database") = false ->
  truthy (netnode (core p) !! "project")
    && truthy (netnode (core p) !! "binary")
    && truthy (netnode (core p) !! "snapshot") = false ->
  py_int (tick_text (core p)) = Some t ->
  let p' := exec (ready_to_run painter) p in
  outcome (ready_to_run painter) p = painter
  /\ interface p' = interface p ++ [PainterReadyToRun]
  /\ packets_sent (trace (core p')) = packets_sent (trace (core p))
  /\ _session_joined (core p') = false /\ _tick (core p') = t
  /\ _project (core p') = or_None (netnode (core p) !! "project")
  /\ _binary (core p') = or_None (netnode (core p) !! "binary")
  /\ _snapshot (core p') = or_None (netnode (core p) !! "snapshot")
  /\ netnode (core p') = netnode (core p)
  /\ deferreds (core p') = deferreds (core p)
  /\ _hooked (core p') = _hooked (core p)
  /\ _users (core p') = _users (core p).
Proof.
  intros Hd Hi Ht p'.
  destruct (opened_without_identifiers (core p) t Hd Hi Ht) as (s' & E & F).
  subst p'. unfold outcome, exec.
  rewrite (ready_to_run_ok painter p s' E). destruct p.
  cbn [fst snd core interface set_core set_interface] in *.
  split; [reflexivity|]. split; [reflexivity|]. exact F.
Qed.

(** A core opened on an idb that holds no IDArling data, once with a
    painter that returns and once with a painter that raises. *)
Lemma ready_to_run_without_identifiers_witness :
  outcome (ready_to_run (Ok tt)) (plugin_of (installed "10.0.0.1" ∅ some_env))
  = Ok tt
  /\ outcome (ready_to_run (Raised TypeError))
       (plugin_of (installed "10.0.0.1" ∅ some_env))
     = Raised TypeError
  /\ interface (exec (ready_to_run (Raised TypeError))
                  (plugin_of (installed "10.0.0.1" ∅ some_env)))
     = [PainterReadyToRun]
  /\ packets_sent
       (trace (core (exec (ready_to_run (Ok tt))
                       (plugin_of (installed "10.0.0.1" ∅ some_env)))))
     = []
  /\ _tick (core (exec (ready_to_run (Ok tt))
                    (plugin_of (installed "10.0.0.1" ∅ some_env))))
     = 0.
Proof.
  destruct (ready_to_run_without_identifiers
              (plugin_of (installed "10.0.0.1" ∅ some_env)) 0 (Ok tt))
    as (H1 & _ & H3 & _ & H5 & _);
    [vm_compute; reflexivity ..|].
  destruct (ready_to_run_without_identifiers
              (plugin_of (installed "10.0.0.1" ∅ some_env)) 0
              (Raised TypeError))
    as (K1 & K2 & _);
    [vm_compute; reflexivity ..|].
  split; [exact H1|]. split; [exact K1|]. split; [exact K2|].
  split; [rewrite H3; vm_compute; reflexivity|exact H5].
Defined.

(** X10. Closing an idb and opening it again comes back to the same
    snapshot. With the hook objects created, the three identifiers set,
    a tick that [save_netnode] writes or a stored tick that [int] reads,
    and no legacy [database] entry: the close handler followed by the
    ready-to-run handler ends with the project, binary and snapshot of
    before, not joined, and sends [LeaveSession] if a session was joined
    and then the [ListSnapshots.Query] for the same project and binary. The
    painter is called once at the end, and the two handlers return unless
    that call raises. *)
Theorem close_then_reopen (p : plugin) (painter : result unit) :
  hooks_created (core p) = true -> identifiers_set (core p) = true ->
  _tick (core p) <> -1
  \/ (exists t, py_int (tick_text (core p)) = Some t) ->
  truthy (netnode (core p) !! "database") = false ->
  let m := on_core closebase ;; ready_to_run painter in
  let p' := exec m p in
  outcome m p = painter
  /\ interface p' = interface p ++ [PainterReadyToRun]
  /\ _project (core p') = _project (core p)
  /\ _binary (core p') = _binary (core p)
  /\ _snapshot (core p') = _snapshot (core p)
  /\ _session_joined (core p') = false
  /\ packets_sent (trace (core p'))
     = packets_sent (trace (core p))
       ++ (if _session_joined (core p)
           then [LeaveSession (_host_id (core p)) (user_name (env (core p)))]
           else [])
       ++ [ListSnapshots_Query (_project (core p)) (_binary (core p))].
Proof.
  intros Hc Hi Ht Hd m p'.
  destruct (closed_then_opened (core p) Hc Hi Ht Hd) as (c & s' & Hcl & E & F).
  assert (H0 : on_core closebase p = (Ok 0, set_core c p)).
  { unfold on_core. rewrite Hcl. reflexivity. }
  assert (E' : (log TRACE "Ready to run hook" ;; load_netnode ;; join_session)
                 (core (set_core c p)) = (Ok tt, s'))
    by (destruct p; exact E).
  subst p' m. unfold outcome, exec.
  rewrite (bind_ok _ _ _ _ _ H0), (ready_to_run_ok painter _ s' E').
  destruct p. cbn [fst snd core interface set_core set_interface] in *.
  split; [reflexivity|]. split; [reflexivity|]. exact F.
Qed.

(** The core of [in_session], closed while in session and opened again. *)
Lemma close_then_reopen_witness :
  outcome (on_core closebase ;; ready_to_run (Ok tt)) (plugin_of in_session)
  = Ok tt
  /\ _snapshot (core (exec (on_core closebase ;; ready_to_run (Ok tt))
                        (plugin_of in_session)))
     = Some "snap_v2"
  /\ packets_sent
       (trace (core (exec (on_core closebase ;; ready_to_run (Ok tt))
                       (plugin_of in_session))))
     = packets_sent (trace in_session)
       ++ [LeaveSession "10.0.0.1" "alice"]
       ++ [ListSnapshots_Query (Some "proj") (Some "bin")].
Proof.
  destruct (close_then_reopen (plugin_of in_session) (Ok tt))
    as (H1 & _ & _ & _ & H5 & _ & H7).
  - vm_compute. reflexivity.
  - vm_compute. reflexivity.
  - left. vm_compute. intros H. discriminate H.
  - vm_compute. reflexivity.
  - split; [exact H1|].
    split; [rewrite H5; vm_compute; reflexivity|].
    rewrite H7. vm_compute. reflexivity.
Defined.

End HandlerFacts.

(** ** Loops *)

Module LoopFacts.

Lemma bind_ext_l {S A B} (m1 m2 : M S A) (k : A -> M S B) (s : S) :
  m1 s = m2 s -> bind m1 k s = bind m2 k s.
Proof. intros H. unfold bind. rewrite H. reflexivity. Qed.

Lemma for_each_ext {S A} (f g : A -> M S unit) (xs : list A) :
  (forall x s, f x s = g x s) ->
  forall s, for_each xs f s = for_each xs g s.
Proof.
  intros H. induction xs as [|x xs IH]; intros s; [reflexivity|].
  cbn [for_each]. unfold bind. rewrite H.
  destruct (g x s) as [[[]|e] s1]; [apply IH|reflexivity].
Qed.

Lemma for_each_app {S A} (f : A -> M S unit) (xs ys : list A) (s : S) :
  for_each (xs ++ ys) f s = (for_each xs f ;; for_each ys f) s.
Proof.
  revert s. induction xs as [|x xs IH]; intros s; [reflexivity|].
  cbn [app for_each]. unfold bind.
  destruct (f x s) as [[[]|e] s1]; [|reflexivity].
  rewrite IH. reflexivity.
Qed.

(** A loop whose body does something only for the elements that pass a
    test is the loop over those elements. *)
Lemma for_each_filter {S A} (p : A -> bool) (f : A -> M S unit)
    (xs : list A) (s : S) :
  for_each xs (fun x => if p x then f x else ret tt) s
  = for_each (List.filter p xs) f s.
Proof.
  revert s. induction xs as [|x xs IH]; intros s; [reflexivity|].
  cbn [for_each List.filter]. destruct (p x).
  - cbn [for_each]. unfold bind.
    destruct (f x s) as [[[]|e] s1]; [apply IH|reflexivity].
  - unfold bind, ret. apply IH.
Qed.

End LoopFacts.

(** ** Replayed events, continued *)

Module EventsLaws.
Import Shared Events EventsSpec EventsFacts LoopFacts.

Section Laws.
Context `{ida : Ida}.

Lemma pseudocode_names_spelled :
  pseudocode_names
  = ["Pseudocode-A"; "Pseudocode-B"; "Pseudocode-C"; "Pseudocode-D";
     "Pseudocode-E"].
Proof. reflexivity. Qed.

Lemma refresh_as_filter (ea : Z) (tr : list effect) :
  refresh_pseudocode_view ea tr
  = for_each (MoreEventsSpec.showing ea)
      (fun name => invoke (refresh_view name false)) tr.
Proof.
  unfold refresh_pseudocode_view, MoreEventsSpec.showing.
  rewrite pseudocode_names_spelled.
  rewrite <- for_each_filter. apply for_each_ext.
  intros name tr0. destruct (find_widget name); [|reflexivity].
  destruct (func_contains _ _); reflexivity.
Qed.

Lemma for_each_refresh (names : list string) (tr : list effect) :
  exists k : nat,
    exec (for_each names (fun name => invoke (refresh_view name false))) tr
    = tr ++ map (fun name => Call (refresh_view name false)) (take k names).
Proof.
  revert tr. induction names as [|name names IH]; intros tr.
  - exists O. cbn. symmetry. apply app_nil_r.
  - cbn [for_each]. unfold exec, bind. rewrite invoke_spec.
    destruct (raises tr _).
    + exists 1%nat. reflexivity.
    + destruct (IH (tr ++ [Call (refresh_view name false)])) as (k & Hk).
      exists (S k). unfold exec in Hk. rewrite Hk.
      cbn [take map]. rewrite <- app_assoc. reflexivity.
Qed.

Lemma for_each_refresh_all (names : list string) :
  (forall history name, raises history (refresh_view name false) = None) ->
  forall tr : list effect,
    for_each names (fun name => invoke (refresh_view name false)) tr
    = (Ok tt, tr ++ map (fun name => Call (refresh_view name false)) names).
Proof.
  intros Hr. induction names as [|name names IH]; intros tr.
  - cbn. rewrite app_nil_r. reflexivity.
  - cbn [for_each]. unfold bind. rewrite invoke_spec, Hr, IH.
    cbn [map]. rewrite <- app_assoc. reflexivity.
Qed.

(** X15. [refresh_pseudocode_view(ea)] refreshes exactly the pseudocode
    views that show the function of [ea]: it goes through the five widgets
    Pseudocode-A, Pseudocode-B, Pseudocode-C, Pseudocode-D and Pseudocode-E
    in this order and calls [refresh_view(False)] on those that exist and
    whose function contains [ea], until one of the calls raises; when none
    raises, all of them are refreshed and the function returns. With no
    pseudocode widget open it does nothing. *)
Theorem pseudocode_refresh_targets (ea : Z) (tr : list effect) :
  MoreEventsSpec.showing ea
  = List.filter
      (fun name =>
         find_widget name && func_contains (get_func (entry_ea name)) ea)
      ["Pseudocode-A"; "Pseudocode-B"; "Pseudocode-C"; "Pseudocode-D";
       "Pseudocode-E"]
  /\ refresh_pseudocode_view ea tr
     = for_each (MoreEventsSpec.showing ea)
         (fun name => invoke (refresh_view name false)) tr
  /\ (exists k : nat,
        exec (refresh_pseudocode_view ea) tr
        = tr ++ map (fun name => Call (refresh_view name false))
                  (take k (MoreEventsSpec.showing ea)))
  /\ ((forall history name,
          raises history (refresh_view name false) = None) ->
      refresh_pseudocode_view ea tr
      = (Ok tt,
         tr ++ map (fun name => Call (refresh_view name false))
                 (MoreEventsSpec.showing ea)))
  /\ (forall name,
        In name (MoreEventsSpec.showing ea) <->
        In name ["Pseudocode-A"; "Pseudocode-B"; "Pseudocode-C";
                 "Pseudocode-D"; "Pseudocode-E"]
        /\ find_widget name = true
        /\ func_contains (get_func (entry_ea name)) ea = true)
  /\ ((forall name,
          In name ["Pseudocode-A"; "Pseudocode-B"; "Pseudocode-C";
                   "Pseudocode-D"; "Pseudocode-E"] ->
          find_widget name = false) ->
      refresh_pseudocode_view ea tr = (Ok tt, tr)).
Proof.
  split; [reflexivity|].
  split; [apply refresh_as_filter|]. split; [|split; [|split]].
  - unfold exec. rewrite refresh_as_filter. apply for_each_refresh.
  - intros Hr. rewrite refresh_as_filter. apply for_each_refresh_all, Hr.
  - intros name. unfold MoreEventsSpec.showing.
    rewrite filter_In, andb_true_iff. reflexivity.
  - intros Hn. rewrite refresh_as_filter.
    assert (E : MoreEventsSpec.showing ea = []).
    { unfold MoreEventsSpec.showing.
      cbn [List.filter]. rewrite !Hn by (cbn; tauto). reflexivity. }
    rewrite E. reflexivity.
Qed.

(** X16. [_get_member_type] returns exactly when [extra] holds every key
    that the flag calls for: [struc_name] for a struct, [flags], [base],
    [target] and [tdelta] for an offset, [serial] for an enum, [strtype]
    for a string literal. Otherwise it raises [KeyError] for one of these
    keys, absent from [extra], and the struct-member event that asked for
    the descriptor raises it before the call that would change the
    structure, [add_struc_member] or [set_member_type], is reached: the
    only calls into IDA made by then are the lookups of [_get_sptr], which
    are reads and are not recorded. A flag of none of the four kinds gives
    the blank descriptor whatever [extra] holds. *)
Theorem member_type_needs_keys (type_flag : Z) (extra : gmap string pyval) :
  is_ok (_get_member_type type_flag extra) = has_keys type_flag extra
  /\ (forall e,
        _get_member_type type_flag extra = Raised e ->
        exists key,
          e = KeyError key /\ extra !! key = None
          /\ In key ["struc_name"; "flags"; "base"; "target"; "tdelta";
                     "serial"; "strtype"])
  /\ (is_struct type_flag = false -> Z.land type_flag off_flag = 0 ->
      Z.land type_flag enum_flag = 0 -> is_strlit type_flag = false ->
      _get_member_type type_flag extra = Ok opinfo_new)
  /\ (forall self tr e,
        _get_member_type (smc_flag self) (smc_extra self) = Raised e ->
        StrucMemberCreatedEvent__call__ self tr = (Raised e, tr))
  /\ (forall self tr e,
        _get_member_type (smg_flag self) (smg_extra self) = Raised e ->
        StrucMemberChangedEvent__call__ self tr = (Raised e, tr)).
Proof.
  assert (Hc : forall self tr e,
             _get_member_type (smc_flag self) (smc_extra self) = Raised e ->
             StrucMemberCreatedEvent__call__ self tr = (Raised e, tr)).
  { intros self tr e H. unfold StrucMemberCreatedEvent__call__, bind, lift.
    rewrite H. reflexivity. }
  assert (Hg : forall self tr e,
             _get_member_type (smg_flag self) (smg_extra self) = Raised e ->
             StrucMemberChangedEvent__call__ self tr = (Raised e, tr)).
  { intros self tr e H. unfold StrucMemberChangedEvent__call__, bind, lift.
    rewrite H. reflexivity. }
  split; [|split; [|split; [|split; [exact Hc|exact Hg]]]];
    clear Hc Hg; unfold has_keys, _get_member_type, getitem.
  - destruct (is_struct type_flag), (negb (Z.land type_flag off_flag =? 0)),
      (negb (Z.land type_flag enum_flag =? 0)), (is_strlit type_flag);
      cbn [implb andb];
      repeat match goal with
             | |- context [extra !! ?k] => destruct (extra !! k) eqn:?
             end;
      cbn; try reflexivity;
      repeat match goal with
             | |- context [bool_decide ?P] =>
                 first [ rewrite (bool_decide_eq_true_2 P) by eauto
                       | rewrite (bool_decide_eq_false_2 P)
                           by (intros [? ?]; discriminate) ]
             end; reflexivity.
  - intros e.
    destruct (is_struct type_flag), (negb (Z.land type_flag off_flag =? 0)),
      (negb (Z.land type_flag enum_flag =? 0)), (is_strlit type_flag);
      repeat match goal with
             | |- context [extra !! ?k] => destruct (extra !! k) eqn:?
             end;
      cbn; intros [= <-];
      eexists; (split; [reflexivity|]); (split; [eassumption|]);
      cbn; tauto.
  - intros -> Ho He ->. rewrite Ho, He. reflexivity.
Qed.

End Laws.

End EventsLaws.

Module EventsLawsExamples.
Import Shared Events EventsSpec EventsLaws.

(** Pseudocode-A and Pseudocode-C are open on the function at 0x401000:
    a change at 0x401010 refreshes the two, in this order, and a change
    outside the function refreshes none. *)
Lemma pseudocode_refresh_targets_witness :
  @refresh_pseudocode_view sample_ida 0x401010 []
  = (Ok tt, [Call (refresh_view "Pseudocode-A" false);
             Call (refresh_view "Pseudocode-C" false)])
  /\ @refresh_pseudocode_view sample_ida 0x402000 [] = (Ok tt, []).
Proof.
  destruct (@pseudocode_refresh_targets sample_ida 0x401010 [])
    as (_ & _ & _ & H & _).
  destruct (@pseudocode_refresh_targets sample_ida 0x402000 [])
    as (_ & _ & _ & K & _).
  split; [rewrite H|rewrite K]; first [reflexivity | intros; reflexivity].
Defined.

End EventsLawsExamples.

(** ** Further replayed events *)

Module MoreEventsFacts.
Import Shared MoreEvents MoreEventsSpec LoopFacts.

Section Facts.
Context `{ida : Events.Ida} `{sdk : Sdk}.

Lemma invoke_made (c : call) (tr : list effect) :
  invoke c tr
  = (match raises tr c with Some e => Raised e | None => Ok tt end,
     tr ++ [Call c]).
Proof.
  unfold invoke, bind, gets, modify, raise, ret.
  destruct (raises tr c); reflexivity.
Qed.

Lemma earlier_app (a b : list effect) :
  earlier (a ++ b) = earlier a ++ earlier b.
Proof. apply flat_map_app. Qed.

Lemma calls_of_append (a b : list effect) :
  calls_of (a ++ b) = calls_of a ++ calls_of b.
Proof. apply flat_map_app. Qed.

Lemma calls_of_calls (cs : list call) : calls_of (map Call cs) = cs.
Proof. induction cs as [|c cs IH]; [reflexivity|]. cbn. f_equal. exact IH. Qed.

Lemma calls_of_earlier (es : list Events.effect) :
  calls_of (map Earlier es) = [].
Proof. induction es as [|e es IH]; [reflexivity|]. exact IH. Qed.

(** Code of the earlier events that extends its trace extends the trace
    here by the same effects. *)
Lemma of_events_spec {A} (m : Events.E A) (tr : list effect)
    (r : result A) (rest : list Events.effect) :
  m (earlier tr) = (r, earlier tr ++ rest) ->
  of_events m tr = (r, tr ++ map Earlier rest).
Proof.
  intros H. unfold of_events. rewrite H.
  rewrite drop_app_length. reflexivity.
Qed.

Lemma of_events_invoke (c : Events.call) (tr : list effect) :
  of_events (Events.invoke c) tr
  = (match Events.raises (earlier tr) c with
     | Some e => Raised e
     | None => Ok tt
     end,
     tr ++ [Earlier (Events.Call c)]).
Proof.
  apply (of_events_spec (Events.invoke c) tr _ [Events.Call c]).
  apply EventsFacts.invoke_spec.
Qed.

(** *** Loops of calls *)

Lemma for_each_flat_map {A} (f : A -> list call) (xs : list A)
    (tr : list effect) :
  for_each xs (fun x => for_each (f x) invoke) tr
  = for_each (flat_map f xs) invoke tr.
Proof.
  revert tr. induction xs as [|x xs IH]; intros tr; [reflexivity|].
  cbn [for_each flat_map]. rewrite for_each_app. unfold bind.
  destruct (for_each (f x) invoke tr) as [[[]|e] tr1]; [apply IH|reflexivity].
Qed.

(** A loop of calls makes its calls in order and stops at the first one
    that raises. *)
Lemma for_each_invoke (cs : list call) (tr : list effect) :
  exists k : nat,
    exec (for_each cs invoke) tr = tr ++ map Call (take k cs)
    /\ (outcome (for_each cs invoke) tr = Ok tt -> take k cs = cs)
    /\ ((forall h c, raises h c = None) ->
        outcome (for_each cs invoke) tr = Ok tt).
Proof.
  revert tr. induction cs as [|c cs IH]; intros tr.
  - exists O. cbn. rewrite app_nil_r. auto.
  - cbn [for_each]. unfold exec, outcome, bind. rewrite invoke_made.
    destruct (raises tr c) as [e|] eqn:Hr.
    + exists 1%nat. cbn. split; [reflexivity|]. split; [discriminate|].
      intros Hn. rewrite Hn in Hr. discriminate.
    + destruct (IH (tr ++ [Call c])) as (k & H1 & H2 & H3).
      exists (S k). unfold exec, outcome in *. rewrite H1.
      cbn [take map]. rewrite <- app_assoc. split; [reflexivity|].
      split; [|exact H3]. intros Ho. rewrite (H2 Ho). reflexivity.
Qed.

(** *** [SgrChanged] *)

Lemma SgrChanged_as_plan (self : SgrChanged) (tr : list effect) :
  SgrChanged__call__ self tr
  = (for_each (plan self) invoke ;;
     of_events (Events.invoke (Events.request_refresh IWID_SEGREGS))) tr.
Proof.
  unfold SgrChanged__call__, plan. cbv zeta. apply bind_ext_l.
  rewrite <- for_each_flat_map. apply for_each_ext.
  intros ea tr0. unfold action.
  destruct (by_start (sg_sreg_ranges self) !! ea) as [new|];
    destruct (by_start (get_sreg_ranges (sg_rg self)) !! ea) as [old|].
  - destruct (sr_val new =? sr_val old), (sr_tag new =? sr_tag old);
      cbn [negb orb andb for_each]; unfold bind, ret;
      rewrite ?invoke_made; try reflexivity;
      destruct (raises tr0 _); reflexivity.
  - cbn [for_each]. unfold bind, ret. rewrite invoke_made.
    destruct (raises tr0 _); reflexivity.
  - cbn [for_each]. unfold bind, ret. rewrite invoke_made.
    destruct (raises tr0 _); reflexivity.
  - reflexivity.
Qed.

Lemma strictly_sorted (l : list Z) :
  StronglySorted Z.le l -> NoDup l -> StronglySorted Z.lt l.
Proof.
  induction 1 as [|x l Hl IH Hx]; intros Hn; [constructor|].
  apply NoDup_cons in Hn. destruct Hn as [Hx' Hn]. constructor; [auto|].
  rewrite Forall_forall in Hx |- *. intros y Hy.
  assert (x <> y) by (intros ->; exact (Hx' Hy)).
  specialize (Hx y Hy). lia.
Qed.

Lemma sorted_starts_sorted (new_ranges old_ranges : gmap Z sreg_range) :
  StronglySorted Z.lt (sorted_starts new_ranges old_ranges).
Proof.
  unfold sorted_starts. apply strictly_sorted.
  - apply StronglySorted_merge_sort; typeclasses eauto.
  - rewrite merge_sort_Permutation. apply NoDup_remove_dups.
Qed.

Lemma action_ea (rg ea : Z) (n o : option sreg_range) :
  Forall (fun c => call_ea c = ea) (action rg ea n o).
Proof.
  unfold action. destruct n as [n|], o as [o|];
    [destruct (_ && _)| | |]; repeat constructor.
Qed.

Lemma flat_map_sorted (f : Z -> list call) (l : list Z) :
  (forall x, Forall (fun c => call_ea c = x) (f x)) ->
  (forall x, (length (f x) <= 1)%nat) ->
  StronglySorted Z.lt l ->
  StronglySorted Z.lt (map call_ea (flat_map f l))
  /\ Forall (fun c => call_ea c ∈ l) (flat_map f l).
Proof.
  intros Hf Hlen. induction 1 as [|x l Hl [IH1 IH2] Hx].
  - split; constructor.
  - cbn [flat_map]. rewrite map_app. split.
    + apply StronglySorted_app_2; [| |exact IH1].
      * intros a b Ha Hb.
        apply list_elem_of_In, in_map_iff in Ha. destruct Ha as (c & <- & Hc).
        apply list_elem_of_In, in_map_iff in Hb. destruct Hb as (d & <- & Hd).
        specialize (Hf x). rewrite Forall_forall in Hf.
        rewrite (Hf c (proj2 (list_elem_of_In _ _) Hc)).
        rewrite Forall_forall in IH2.
        specialize (IH2 d (proj2 (list_elem_of_In _ _) Hd)).
        rewrite Forall_forall in Hx. apply Hx. exact IH2.
      * specialize (Hlen x). destruct (f x) as [|c [|c' r]];
          cbn in *; [constructor|repeat constructor|lia].
    + apply Forall_app. split.
      * specialize (Hf x). eapply Forall_impl; [exact Hf|].
        intros c ->. left.
      * eapply Forall_impl; [exact IH2|]. intros c Hc. right. exact Hc.
Qed.

Lemma action_length (rg ea : Z) (n o : option sreg_range) :
  (length (action rg ea n o) <= 1)%nat.
Proof.
  unfold action. destruct n as [n|], o as [o|];
    [destruct (_ && _)| | |]; cbn; lia.
Qed.

(** X17. Replaying a segment-register event is a diff against the ranges
    that IDA holds. The replay makes the calls of [plan] in order, stops at
    the first one that raises, and otherwise ends with the refresh request
    for the segment registers view. The calls go through the start
    addresses in strictly ascending order, at most one call per address;
    an address is split when the event has a range there that IDA lacks or
    holds with another value or tag, and deleted when IDA has a range there
    that the event lacks. *)
Theorem sgr_replay_is_a_diff (self : SgrChanged) (tr : list effect) :
  SgrChanged__call__ self tr
  = (for_each (plan self) invoke ;;
     of_events (Events.invoke (Events.request_refresh IWID_SEGREGS))) tr
  /\ (exists k : nat,
        calls_of (exec (SgrChanged__call__ self) tr)
        = calls_of tr ++ take k (plan self))
  /\ (outcome (SgrChanged__call__ self) tr = Ok tt ->
      exec (SgrChanged__call__ self) tr
      = tr ++ map Call (plan self)
        ++ [Earlier (Events.Call (Events.request_refresh IWID_SEGREGS))])
  /\ StronglySorted Z.lt (map call_ea (plan self))
  /\ (forall c, In c (plan self) ->
        let new_range := by_start (sg_sreg_ranges self) !! call_ea c in
        let old_range := by_start (get_sreg_ranges (sg_rg self)) !! call_ea c in
        [c] = action (sg_rg self) (call_ea c) new_range old_range).
Proof.
  split; [apply SgrChanged_as_plan|].
  assert (Hrun : forall r tr1,
             SgrChanged__call__ self tr = (r, tr1) ->
             exists k : nat,
               (tr1 = tr ++ map Call (take k (plan self))
                \/ tr1 = tr ++ map Call (take k (plan self))
                         ++ [Earlier (Events.Call
                                        (Events.request_refresh IWID_SEGREGS))])
               /\ (r = Ok tt ->
                   tr1 = tr ++ map Call (plan self)
                         ++ [Earlier (Events.Call
                                        (Events.request_refresh IWID_SEGREGS))])).
  { intros r tr1. rewrite SgrChanged_as_plan. unfold bind.
    destruct (for_each_invoke (plan self) tr) as (k & H1 & H2 & _).
    unfold exec, outcome in H1, H2.
    destruct (for_each (plan self) invoke tr) as [[[]|e] tr2];
      cbn [fst snd] in H1, H2; subst tr2.
    - rewrite of_events_invoke. intros [= <- <-]. exists k.
      rewrite <- app_assoc. split; [right; reflexivity|].
      intros _. rewrite (H2 eq_refl). reflexivity.
    - intros [= <- <-]. exists k. split; [left; reflexivity|discriminate]. }
  split; [|split; [|split]].
  - destruct (SgrChanged__call__ self tr) as [r tr1] eqn:E.
    destruct (Hrun r tr1 eq_refl) as (k & [->| ->] & _); exists k;
      unfold exec; rewrite E; cbn [snd];
      rewrite !calls_of_append, calls_of_calls; cbn; rewrite ?app_nil_r;
      reflexivity.
  - unfold outcome, exec.
    destruct (SgrChanged__call__ self tr) as [r tr1] eqn:E. cbn [fst snd].
    intros ->. destruct (Hrun (Ok tt) tr1 eq_refl) as (k & _ & H). auto.
  - apply flat_map_sorted.
    + intros x. apply action_ea.
    + intros x. apply action_length.
    + apply sorted_starts_sorted.
  - intros c Hc. cbv zeta. unfold plan in Hc. apply in_flat_map in Hc.
    destruct Hc as (ea & _ & Hc).
    pose proof (action_ea (sg_rg self) ea
                  (by_start (sg_sreg_ranges self) !! ea)
                  (by_start (get_sreg_ranges (sg_rg self)) !! ea)) as He.
    rewrite Forall_forall in He.
    assert (Hea : call_ea c = ea) by (apply He, list_elem_of_In, Hc).
    rewrite Hea.
    pose proof (action_length (sg_rg self) ea
                  (by_start (sg_sreg_ranges self) !! ea)
                  (by_start (get_sreg_ranges (sg_rg self)) !! ea)) as Hl.
    destruct (action _ _ _ _) as [|c' [|c'' r]]; cbn in *;
      [contradiction| |lia].
    destruct Hc as [->|[]]. reflexivity.
Qed.

Lemma action_same (rg ea : Z) (o : option sreg_range) : action rg ea o o = [].
Proof.
  unfold action. destruct o as [r|]; [|reflexivity].
  rewrite !Z.eqb_refl. reflexivity.
Qed.

(** X18. Replaying the ranges that IDA already holds changes nothing: when
    the ranges of the event and the ranges of IDA for the register agree
    start address by start address, the replay makes no segment register
    call, only the refresh request. *)
Theorem sgr_unchanged_is_noop (self : SgrChanged) (tr : list effect) :
  by_start (sg_sreg_ranges self) = by_start (get_sreg_ranges (sg_rg self)) ->
  exec (SgrChanged__call__ self) tr
  = tr ++ [Earlier (Events.Call (Events.request_refresh IWID_SEGREGS))].
Proof.
  intros H. unfold exec. rewrite SgrChanged_as_plan.
  assert (Hp : plan self = []).
  { unfold plan. cbv zeta. rewrite H.
    induction (sorted_starts _ _) as [|ea l IH]; [reflexivity|].
    cbn [flat_map]. rewrite action_same, IH. reflexivity. }
  rewrite Hp. cbn [for_each]. unfold bind, ret. rewrite of_events_invoke.
  reflexivity.
Qed.

(** *** [OpTypeChangedEvent] *)

Ltac step_invoke :=
  unfold bind, ret, lift; rewrite ?invoke_made;
  repeat match goal with
         | |- context [raises ?h ?c] => destruct (raises h c)
         end.

(** X19. An operand event replays as one call chosen by its [op].
    For [hex], [bin], [dec], [chr], [oct], [offset] and [stkvar] it is the
    call of that name on the address and the operand number; for [enum] it
    is [op_enum] with the enum looked up by name, and a missing [ename] or
    [serial] raises [KeyError] before anything is called; for [struct] the
    instruction is decoded and [op_stroff] follows; an [op] outside these
    nine is ignored: nothing is called and nothing is raised. *)
Theorem op_type_dispatch (self : OpTypeChangedEvent) (tr : list effect) :
  (forall f, simple_op (ot_op self) = Some f ->
     exec (OpTypeChangedEvent__call__ self) tr
     = tr ++ [Call (f (ot_ea self) (ot_n self))])
  /\ (ot_op self = "enum" ->
      match ename (ot_extra self), serial (ot_extra self) with
      | Some name, Some number =>
          exec (OpTypeChangedEvent__call__ self) tr
          = tr ++ [Call (op_enum (ot_ea self) (ot_n self) (get_enum name)
                           number)]
      | None, _ =>
          OpTypeChangedEvent__call__ self tr = (Raised (KeyError "ename"), tr)
      | Some _, None =>
          OpTypeChangedEvent__call__ self tr = (Raised (KeyError "serial"), tr)
      end)
  /\ (ot_op self = "struct" ->
      match spath (ot_extra self), delta (ot_extra self) with
      | Some names, Some d =>
          exists k : nat,
            (1 <= k)%nat
            /\ exec (OpTypeChangedEvent__call__ self) tr
               = tr ++ take k
                         [Call (decode_insn (ot_ea self));
                          Call (op_stroff (ot_ea self) (ot_n self)
                                  (map Events.get_struc_id names)
                                  (Z.of_nat (length names)) d)]
      | None, _ =>
          OpTypeChangedEvent__call__ self tr = (Raised (KeyError "spath"), tr)
      | Some _, None =>
          outcome (OpTypeChangedEvent__call__ self) tr = Raised (KeyError "delta")
          \/ exec (OpTypeChangedEvent__call__ self) tr
             = tr ++ [Call (decode_insn (ot_ea self))]
      end)
  /\ (simple_op (ot_op self) = None -> ot_op self <> "enum" ->
      ot_op self <> "struct" ->
      OpTypeChangedEvent__call__ self tr = (Ok tt, tr)).
Proof.
  destruct self as [ea n op [en se sp de]].
  cbn [ot_op ot_ea ot_n ot_extra ename serial spath delta].
  unfold OpTypeChangedEvent__call__, simple_op, exec, outcome.
  cbn [ot_op ot_ea ot_n ot_extra ename serial spath delta].
  split; [|split; [|split]].
  - intros f Hf.
    destruct (String.eqb_spec op "hex") as [->|];
      [injection Hf as <-; cbn; step_invoke; reflexivity|].
    destruct (String.eqb_spec op "bin") as [->|];
      [injection Hf as <-; cbn; step_invoke; reflexivity|].
    destruct (String.eqb_spec op "dec") as [->|];
      [injection Hf as <-; cbn; step_invoke; reflexivity|].
    destruct (String.eqb_spec op "chr") as [->|];
      [injection Hf as <-; cbn; step_invoke; reflexivity|].
    destruct (String.eqb_spec op "oct") as [->|];
      [injection Hf as <-; cbn; step_invoke; reflexivity|].
    destruct (String.eqb_spec op "offset") as [->|];
      [injection Hf as <-; cbn; step_invoke; reflexivity|].
    destruct (String.eqb_spec op "stkvar") as [->|]; [|discriminate].
    injection Hf as <-. cbn. step_invoke; reflexivity.
  - intros ->. cbn [String.eqb Ascii.eqb Bool.eqb].
    destruct en as [name|]; [destruct se as [number|]|]; cbn;
      step_invoke; reflexivity.
  - intros ->. cbn [String.eqb Ascii.eqb Bool.eqb].
    destruct sp as [names|]; [destruct de as [d|]|]; cbn.
    + step_invoke; cbn [fst snd];
        first [ exists 1%nat; split; [lia|reflexivity]
              | exists 2%nat; split; [lia|rewrite <- app_assoc; reflexivity] ].
    + step_invoke; cbn [fst snd]; auto.
    + reflexivity.
  - intros Hs He Ht.
    destruct (String.eqb_spec op "hex"); [discriminate|].
    destruct (String.eqb_spec op "bin"); [discriminate|].
    destruct (String.eqb_spec op "dec"); [discriminate|].
    destruct (String.eqb_spec op "chr"); [discriminate|].
    destruct (String.eqb_spec op "oct"); [discriminate|].
    destruct (String.eqb_spec op "offset"); [discriminate|].
    destruct (String.eqb_spec op "stkvar"); [discriminate|].
    destruct (String.eqb_spec op "enum"); [contradiction|].
    destruct (String.eqb_spec op "struct"); [contradiction|].
    reflexivity.
Qed.

(** *** [TiChangedEvent] *)

Lemma encode_bytes_total (l : list pyval) :
  exists enc, map_result Event.encode_bytes l = Ok enc
              /\ length enc = length l.
Proof.
  induction l as [|v l (enc & IH & Hl)]; [exists []; auto|].
  cbn [map_result]. rewrite IH.
  destruct v; cbn; eexists; (split; [reflexivity|cbn; rewrite Hl; reflexivity]).
Qed.

Lemma refresh_view_lifted (ea : Z) (tr : list effect) :
  exists r rest,
    of_events (Events.refresh_pseudocode_view ea) tr = (r, tr ++ rest)
    /\ Forall is_refreshing rest.
Proof.
  destruct (EventsFacts.refresh_pseudocode_view_effects ea (earlier tr))
    as (rest & Hr & Pr).
  unfold exec in Hr.
  destruct (Events.refresh_pseudocode_view ea (earlier tr)) as [r h] eqn:E.
  cbn [snd] in Hr. subst h.
  exists r, (map Earlier rest). split.
  - apply of_events_spec. exact E.
  - clear E. induction Pr as [|e rest He _ IH]; [constructor|].
    cbn [map]. constructor; [|exact IH].
    destruct e as [[]|]; cbn in He |- *; tauto.
Qed.

(** [self] with its address set to the one the type is applied at. *)
Lemma ti_call_with (self : TiChangedEvent) (tr : list effect)
    (enc : list pyval) :
  map_result Event.encode_bytes (ti_py_type self) = Ok enc ->
  TiChangedEvent__call__ self tr
  = match (if (length enc =? 3)%nat then drop 1 enc else enc) with
    | type0 :: type1 :: _ =>
        match GetTypeString type0 with
        | Raised e => (Raised e, tr)
        | Ok type_string =>
            (invoke (apply_type type_string type1 (target_ea self)
                       TINFO_DEFINITE) ;;
             of_events (Events.invoke (Events.request_refresh IWID_DISASM)) ;;
             of_events (Events.refresh_pseudocode_view (target_ea self)) ;;
             ret {| ti_ea := target_ea self; ti_py_type := ti_py_type self;
                    ti_name := ti_name self |}) tr
        end
    | _ => (Ok self, tr)
    end.
Proof.
  intros He. unfold TiChangedEvent__call__.
  unfold bind at 1. unfold lift at 1. rewrite He.
  destruct (if (length enc =? 3)%nat then drop 1 enc else enc)
    as [|type0 [|type1 tl]]; [reflexivity|reflexivity|].
  destruct self as [ea l name]. unfold target_ea.
  cbn [ti_ea ti_py_type ti_name].
  destruct (pytruthy name); [destruct (get_member_by_fullname name)|];
    cbn [default ti_ea]; unfold bind at 1; unfold lift at 1;
    destruct (GetTypeString type0); reflexivity.
Qed.

Lemma ti_call_effects (type_string type1 : pyval) (self : TiChangedEvent)
    (ea : Z) (tr : list effect) :
  exists rest,
    exec (invoke (apply_type type_string type1 ea TINFO_DEFINITE) ;;
          of_events (Events.invoke (Events.request_refresh IWID_DISASM)) ;;
          of_events (Events.refresh_pseudocode_view ea) ;;
          ret self) tr
    = tr ++ Call (apply_type type_string type1 ea TINFO_DEFINITE) :: rest
    /\ Forall is_refreshing rest.
Proof.
  unfold exec, bind. rewrite invoke_made.
  destruct (raises tr _).
  - exists []. cbn [snd]. split; [reflexivity|constructor].
  - rewrite of_events_invoke.
    destruct (Events.raises _ _).
    + eexists. cbn [snd]. rewrite <- app_assoc. split; [reflexivity|].
      repeat constructor.
    + match goal with
      | |- context [of_events (Events.refresh_pseudocode_view ?a) ?t] =>
          destruct (refresh_view_lifted a t) as (r & rest & Hr & Pr)
      end.
      rewrite Hr. exists (Earlier (Events.Call
                                     (Events.request_refresh IWID_DISASM))
                          :: rest).
      split.
      * destruct r; cbn [snd]; rewrite <- !app_assoc; reflexivity.
      * constructor; [exact I|exact Pr].
Qed.

(** X20. A type-changed event applies a type only if it holds at least two
    type strings: with fewer, replaying it does nothing at all. Of exactly
    three it applies the second and the third, otherwise the first two,
    each re-encoded to raw bytes, at the address of the named member if
    [name] is set and IDA finds it and at [ea] otherwise; the call to
    [apply_type] comes first and only refreshes follow it. If
    [GetTypeString] raises, nothing is called. *)
Theorem ti_changed_applies_two (self : TiChangedEvent) (tr : list effect) :
  exists enc,
    map_result Event.encode_bytes (ti_py_type self) = Ok enc
    /\ match chosen enc with
       | None =>
           TiChangedEvent__call__ self tr = (Ok self, tr)
           /\ (length (ti_py_type self) < 2)%nat
       | Some (type0, type1) =>
           (2 <= length (ti_py_type self))%nat
           /\ match GetTypeString type0 with
              | Ok type_string =>
                  exists rest,
                    exec (TiChangedEvent__call__ self) tr
                    = tr ++ Call (apply_type type_string type1
                                    (target_ea self) TINFO_DEFINITE) :: rest
                    /\ Forall is_refreshing rest
              | Raised e =>
                  TiChangedEvent__call__ self tr = (Raised e, tr)
              end
       end.
Proof.
  destruct (encode_bytes_total (ti_py_type self)) as (enc & He & Hl).
  exists enc. split; [exact He|].
  unfold exec. rewrite (ti_call_with self tr enc He). rewrite <- Hl.
  destruct enc as [|a [|b [|c [|d l]]]]; cbn [chosen length Nat.eqb drop].
  - split; [reflexivity|lia].
  - split; [reflexivity|lia].
  - split; [lia|]. destruct (GetTypeString a); [|reflexivity].
    apply ti_call_effects.
  - split; [lia|]. destruct (GetTypeString b); [|reflexivity].
    apply ti_call_effects.
  - split; [lia|]. destruct (GetTypeString a); [|reflexivity].
    apply ti_call_effects.
Qed.

Lemma map_result_round_trip (l : list pyval) :
  Forall plain_bytes l ->
  exists dec,
    map_result Event.decode_bytes l = Ok dec
    /\ map_result Event.encode_bytes dec = Ok l.
Proof.
  induction 1 as [|v l Hv _ (dec & H1 & H2)]; [exists []; auto|].
  destruct v as [| | |b]; cbn in Hv; try contradiction.
  cbn [map_result Event.decode_bytes].
  rewrite (RawFacts.raw_decode_escape_free b Hv), H1.
  eexists. split; [reflexivity|].
  cbn [map_result Event.encode_bytes]. rewrite H2.
  rewrite RawFacts.raw_encode_ord. reflexivity.
Qed.

(** X21. The type strings of a type-changed event survive the constructor
    and the replay: built from raw bytes in which no backslash is directly
    followed by [u] or [U], the event re-encodes, when it is replayed,
    exactly the bytes it was built from, so [apply_type] receives the two
    byte strings given to the constructor. A byte string with a malformed
    escape makes the constructor raise [UnicodeDecodeError]. *)
Theorem ti_changed_keeps_bytes (ea : Z) (name : pyval) :
  (forall l : list pyval,
      Forall plain_bytes l ->
      exists self,
        TiChangedEvent__init__ ea (Some l) name = Ok self
        /\ ti_ea self = ea /\ ti_name self = name
        /\ map_result Event.encode_bytes (ti_py_type self) = Ok l)
  /\ (forall (type0 type1 type_string : pyval) (tr : list effect),
      plain_bytes type0 -> plain_bytes type1 ->
      GetTypeString type0 = Ok type_string ->
      exists self rest,
        TiChangedEvent__init__ ea (Some [type0; type1]) name = Ok self
        /\ exec (TiChangedEvent__call__ self) tr
           = tr ++ Call (apply_type type_string type1 (target_ea self)
                           TINFO_DEFINITE) :: rest)
  /\ (forall (b : pybytes) (l : list pyval),
      Codec.raw_decode b = None ->
      TiChangedEvent__init__ ea (Some (PyBytes b :: l)) name
      = Raised UnicodeDecodeError).
Proof.
  assert (Hinit : forall l : list pyval,
             Forall plain_bytes l ->
             exists self,
               TiChangedEvent__init__ ea (Some l) name = Ok self
               /\ ti_ea self = ea /\ ti_name self = name
               /\ map_result Event.encode_bytes (ti_py_type self) = Ok l).
  { intros l Hl. destruct (map_result_round_trip l Hl) as (dec & H1 & H2).
    unfold TiChangedEvent__init__. destruct l as [|v l].
    - eexists. repeat split; reflexivity.
    - rewrite H1. eexists. repeat split; try reflexivity. exact H2. }
  split; [exact Hinit|]. split.
  - intros type0 type1 type_string tr H0 H1 Hg.
    destruct (Hinit [type0; type1]) as (self & Hi & _ & _ & He);
      [repeat constructor; assumption|].
    exists self. unfold exec. rewrite (ti_call_with self tr _ He).
    cbn [length Nat.eqb]. rewrite Hg.
    destruct (ti_call_effects type_string type1
                {| ti_ea := target_ea self; ti_py_type := ti_py_type self;
                   ti_name := ti_name self |} (target_ea self) tr)
      as (rest & Hr & _).
    exists rest. split; [exact Hi|exact Hr].
  - intros b l Hb. unfold TiChangedEvent__init__.
    cbn [map_result Event.decode_bytes]. rewrite Hb. reflexivity.
Qed.

(** *** [_get_vdloc] *)

Lemma eq_int_spec (v : pyval) (c : Z) : eq_int v c = true <-> v = PyInt c.
Proof.
  destruct v; cbn; try (split; [discriminate|intros [=]]).
  rewrite Z.eqb_eq. split; [intros ->; reflexivity|intros [= ->]; reflexivity].
Qed.

(** X22. [_get_vdloc] sets a location for four kinds only. With the
    location kinds of the SDK pairwise distinct: a stack location needs
    [stkoff], a register location [reg1], a register pair [reg1] and
    [reg2], a static location [ea], and a missing key raises [KeyError];
    every other value of [atype], among them the kinds marked as not
    supported, gives the empty location without reading another key. A
    dictionary without [atype] raises [KeyError]. *)
Theorem vdloc_kinds (dct : gmap string pyval) :
  NoDup [ALOC_NONE; ALOC_STACK; ALOC_DIST; ALOC_REG1; ALOC_REG2; ALOC_RREL;
         ALOC_STATIC; ALOC_CUSTOM] ->
  (dct !! "atype" = None -> _get_vdloc dct = Raised (KeyError "atype"))
  /\ (dct !! "atype" = Some (PyInt ALOC_STACK) ->
      _get_vdloc dct
      = match dct !! "stkoff" with
        | Some v => Ok (set_stkoff v)
        | None => Raised (KeyError "stkoff")
        end)
  /\ (dct !! "atype" = Some (PyInt ALOC_REG1) ->
      _get_vdloc dct
      = match dct !! "reg1" with
        | Some v => Ok (set_reg1 v)
        | None => Raised (KeyError "reg1")
        end)
  /\ (dct !! "atype" = Some (PyInt ALOC_REG2) ->
      _get_vdloc dct
      = match dct !! "reg1", dct !! "reg2" with
        | Some v1, Some v2 => Ok (set_reg2 v1 v2)
        | None, _ => Raised (KeyError "reg1")
        | Some _, None => Raised (KeyError "reg2")
        end)
  /\ (dct !! "atype" = Some (PyInt ALOC_STATIC) ->
      _get_vdloc dct
      = match dct !! "ea" with
        | Some v => Ok (set_ea v)
        | None => Raised (KeyError "ea")
        end)
  /\ (forall atype,
        dct !! "atype" = Some atype ->
        atype <> PyInt ALOC_STACK -> atype <> PyInt ALOC_REG1 ->
        atype <> PyInt ALOC_REG2 -> atype <> PyInt ALOC_STATIC ->
        _get_vdloc dct = Ok vdloc_new).
Proof.
  intros Hd.
  assert (Hne : forall a b, a <> b -> eq_int (PyInt a) b = false).
  { intros a b Hab. cbn. apply Z.eqb_neq. exact Hab. }
  repeat match goal with
         | H : NoDup (_ :: _) |- _ =>
             apply NoDup_cons in H; destruct H as [? H]
         end.
  repeat match goal with
         | H : ~ _ ∈ _ |- _ => rewrite !not_elem_of_cons in H
         end.
  unfold _get_vdloc, Events.getitem.
  split; [intros ->; reflexivity|].
  split; [|split; [|split; [|split]]].
  - intros ->. rewrite !Hne by intuition congruence.
    cbn [eq_int]. rewrite Z.eqb_refl. destruct (dct !! "stkoff"); reflexivity.
  - intros ->. rewrite !Hne by intuition congruence.
    cbn [eq_int]. rewrite Z.eqb_refl. destruct (dct !! "reg1"); reflexivity.
  - intros ->. rewrite !Hne by intuition congruence.
    cbn [eq_int]. rewrite Z.eqb_refl.
    destruct (dct !! "reg1"); [destruct (dct !! "reg2")|]; reflexivity.
  - intros ->. rewrite !Hne by intuition congruence.
    cbn [eq_int]. rewrite Z.eqb_refl. destruct (dct !! "ea"); reflexivity.
  - intros atype -> Ka Kb Kc Kd.
    assert (F : forall c, atype <> PyInt c -> eq_int atype c = false).
    { intros c Hc. destruct (eq_int atype c) eqn:E; [|reflexivity].
      apply eq_int_spec in E. contradiction. }
    rewrite (F _ Ka), (F _ Kb), (F _ Kc), (F _ Kd).
    repeat match goal with
           | |- context [if ?c then _ else _] => destruct c
           end; reflexivity.
Qed.

End Facts.

End MoreEventsFacts.

(** ** Worked examples of the further events *)

Module MoreEventsExamples.
Import Shared MoreEvents MoreEventsSpec MoreEventsFacts.

(** The event that carries the two ranges [sample_sdk] holds for
    register 29. *)
Lemma sgr_unchanged_is_noop_witness :
  exec (@SgrChanged__call__ EventsSpec.sample_ida sample_sdk
          {| sg_rg := 29;
             sg_sreg_ranges :=
               [{| sr_start_ea := 0x1000; sr_end_ea := 0x2000; sr_val := 0;
                   sr_tag := 2 |};
                {| sr_start_ea := 0x2000; sr_end_ea := 0x3000; sr_val := 1;
                   sr_tag := 2 |}] |}) []
  = [] ++ [Earlier (Events.Call (Events.request_refresh 0x400))].
Proof.
  apply (@sgr_unchanged_is_noop EventsSpec.sample_ida sample_sdk).
  vm_compute. reflexivity.
Defined.

(** An event that changes the value at 0x1000, has no range at 0x2000 and
    a new one at 0x4000. *)
Lemma sgr_replay_is_a_diff_witness :
  exec (@SgrChanged__call__ EventsSpec.sample_ida sample_sdk
          {| sg_rg := 29;
             sg_sreg_ranges :=
               [{| sr_start_ea := 0x4000; sr_end_ea := 0x5000; sr_val := 9;
                   sr_tag := 2 |};
                {| sr_start_ea := 0x1000; sr_end_ea := 0x2000; sr_val := 5;
                   sr_tag := 2 |}] |}) []
  = [Call (split_sreg_range 0x1000 29 5 2 true);
     Call (del_sreg_range 0x2000 29);
     Call (split_sreg_range 0x4000 29 9 2 true);
     Earlier (Events.Call (Events.request_refresh 0x400))].
Proof.
  destruct (@sgr_replay_is_a_diff EventsSpec.sample_ida sample_sdk
              {| sg_rg := 29;
                 sg_sreg_ranges :=
                   [{| sr_start_ea := 0x4000; sr_end_ea := 0x5000;
                       sr_val := 9; sr_tag := 2 |};
                    {| sr_start_ea := 0x1000; sr_end_ea := 0x2000;
                       sr_val := 5; sr_tag := 2 |}] |} [])
    as (_ & _ & H & _).
  rewrite H by (vm_compute; reflexivity). vm_compute. reflexivity.
Defined.

Lemma op_type_dispatch_witness :
  exec (@OpTypeChangedEvent__call__ EventsSpec.sample_ida sample_sdk
          {| ot_ea := 0x401000; ot_n := 1; ot_op := "hex";
             ot_extra := {| ename := None; serial := None; spath := None;
                            delta := None |} |}) []
  = [] ++ [Call (op_hex 0x401000 1)]
  /\ @OpTypeChangedEvent__call__ EventsSpec.sample_ida sample_sdk
       {| ot_ea := 0x401000; ot_n := 1; ot_op := "invert_sign";
          ot_extra := {| ename := None; serial := None; spath := None;
                         delta := None |} |} []
     = (Ok tt, []).
Proof.
  split.
  - destruct (@op_type_dispatch EventsSpec.sample_ida sample_sdk
                {| ot_ea := 0x401000; ot_n := 1; ot_op := "hex";
                   ot_extra := {| ename := None; serial := None;
                                  spath := None; delta := None |} |} [])
      as (H & _).
    apply (H op_hex). reflexivity.
  - destruct (@op_type_dispatch EventsSpec.sample_ida sample_sdk
                {| ot_ea := 0x401000; ot_n := 1; ot_op := "invert_sign";
                   ot_extra := {| ename := None; serial := None;
                                  spath := None; delta := None |} |} [])
      as (_ & _ & _ & H).
    apply H; [reflexivity|discriminate|discriminate].
Defined.

(** The type string [=\x01] and the field names [\x02x], the second with a
    backslash that starts no escape. *)
Lemma ti_changed_keeps_bytes_witness :
  exists self rest,
    TiChangedEvent__init__ 0x401000 (Some [PyBytes [x3d; x01];
                                           PyBytes [x02; x5c; x78]]) PyNone
    = Ok self
    /\ exec (@TiChangedEvent__call__ EventsSpec.sample_ida sample_sdk self) []
       = [] ++ Call (apply_type (PyBytes [x3d; x01]) (PyBytes [x02; x5c; x78])
                       (@target_ea sample_sdk self) 1) :: rest.
Proof.
  destruct (@ti_changed_keeps_bytes EventsSpec.sample_ida sample_sdk
              0x401000 PyNone) as (_ & H & _).
  apply (H (PyBytes [x3d; x01]) (PyBytes [x02; x5c; x78])
           (PyBytes [x3d; x01]) []); reflexivity.
Defined.

Lemma vdloc_kinds_witness :
  @_get_vdloc sample_sdk (<["atype" := PyInt 4]> (<["reg1" := PyInt 10]>
                            (<["reg2" := PyInt 11]> ∅)))
  = Ok (set_reg2 (PyInt 10) (PyInt 11))
  /\ @_get_vdloc sample_sdk (<["atype" := PyInt 2]> ∅) = Ok vdloc_new
  /\ @_get_vdloc sample_sdk (<["atype" := PyInt 1]> ∅)
     = Raised (KeyError "stkoff").
Proof.
  assert (Hd : NoDup [@ALOC_NONE sample_sdk; @ALOC_STACK sample_sdk;
                      @ALOC_DIST sample_sdk; @ALOC_REG1 sample_sdk;
                      @ALOC_REG2 sample_sdk; @ALOC_RREL sample_sdk;
                      @ALOC_STATIC sample_sdk; @ALOC_CUSTOM sample_sdk]).
  { refine (bool_decide_unpack _ _). vm_compute. exact I. }
  split; [|split].
  - destruct (@vdloc_kinds sample_sdk
                (<["atype" := PyInt 4]> (<["reg1" := PyInt 10]>
                   (<["reg2" := PyInt 11]> ∅))) Hd)
      as (_ & _ & _ & H & _).
    rewrite H by reflexivity. reflexivity.
  - destruct (@vdloc_kinds sample_sdk (<["atype" := PyInt 2]> ∅) Hd)
      as (_ & _ & _ & _ & _ & H).
    apply (H (PyInt 2)); [reflexivity|discriminate ..].
  - destruct (@vdloc_kinds sample_sdk (<["atype" := PyInt 1]> ∅) Hd)
      as (_ & H & _).
    rewrite H by reflexivity. reflexivity.
Defined.

End MoreEventsExamples.
